(** * Donation-matching backend (server.js): shallow embedding and properties

    The Express handlers of [server.js] are embedded as pure functions over
    an explicit database state.  Each handler takes the state, the request
    and (where the source reads the clock) the current time, and returns the
    new state together with the HTTP response.

    Modelling conventions
    - A MongoDB collection is a list of documents in insertion order.
    - An ObjectId is a natural number; fresh ids come from a counter kept in
      the state.  An id supplied by a client (a path parameter or the
      [userId] of a body) is either a value Mongoose casts to an ObjectId or
      one it cannot cast ([ClientId]); a query given the latter throws a
      [CastError], which the handler's [catch] answers with 500.
    - Times are integer milliseconds since the epoch, as [Date.getTime()].
    - JavaScript numbers are rationals extended with NaN and the two
      infinities; only comparisons against small integer constants are made
      on them, which are exact on doubles.
    - Request fields that the source coerces itself ([Number(age)],
      [Boolean(hasDonatedBefore)], [new Date(lastDonationDate)]) are JSON
      scalars ([jsval]).  Fields a handler passes on to a schema path have
      the type of that path, or are absent: text fields are optional
      strings, numeric fields optional finite numbers.
    - Apart from those cast errors the store never fails: the [catch]
      branches answering 500 for a driver or schema error are not reachable
      in the model, except where a schema [required] rule is modelled
      explicitly.
    - The library functions [Number] (on strings), [Date.parse],
      [bcrypt.hash] and [bcrypt.compare] are parameters of the development. *)

From Stdlib Require Import List String Ascii Bool Arith ZArith QArith Lia Lqa.
Import ListNotations.

Local Close Scope Q_scope.
Local Open Scope string_scope.

(** ** JavaScript scalars *)

Inductive jsnum : Type :=
| NaN
| Fin (q : Q)
| PosInf
| NegInf.

Inductive jsval : Type :=
| JUndefined
| JNull
| JBool (b : bool)
| JNum (x : jsnum)
| JStr (s : string).

Definition Qis_zero (q : Q) : bool := (Qnum q =? 0)%Z.

(** Truthiness, as used by [!x], [if (x)], [x || y] and [Boolean(x)]. *)
Definition truthy (v : jsval) : bool :=
  match v with
  | JUndefined | JNull => false
  | JBool b => b
  | JNum NaN => false
  | JNum (Fin q) => negb (Qis_zero q)
  | JNum _ => true
  | JStr s => negb (s =? "")
  end.

(** An optional text field: [None] is [undefined]. *)
Definition truthy_str (o : option string) : bool :=
  match o with
  | None => false
  | Some s => negb (s =? "")
  end.

Definition is_digit (c : ascii) : bool :=
  let n := nat_of_ascii c in (48 <=? n)%nat && (n <=? 57)%nat.

(** [/^\d{10}$/.test(phone)] *)
Definition phone_regex (s : string) : bool :=
  (String.length s =? 10)%nat && forallb is_digit (list_ascii_of_string s).

(** [/^\d{10}$/.test(phone)] on a field that may be [undefined]: the pattern
    is tested against the text "undefined", which does not match. *)
Definition phone_regex_opt (o : option string) : bool :=
  match o with
  | None => false
  | Some s => phone_regex s
  end.

Definition js_isNaN (x : jsnum) : bool :=
  match x with NaN => true | _ => false end.

(** [x < n] and [x > n] for an integer literal [n]. *)
Definition js_lt (x : jsnum) (n : Z) : bool :=
  match x with
  | NaN => false
  | Fin q => negb (Qle_bool (inject_Z n) q)
  | PosInf => false
  | NegInf => true
  end.

Definition js_gt (x : jsnum) (n : Z) : bool :=
  match x with
  | NaN => false
  | Fin q => negb (Qle_bool q (inject_Z n))
  | PosInf => true
  | NegInf => false
  end.

(** [TimeClip]: a time value is an integer within 8.64e15 ms of the epoch. *)
Definition TimeClip (x : jsnum) : option Z :=
  match x with
  | Fin q =>
      if Qle_bool (inject_Z (-8640000000000000)) q
         && Qle_bool q (inject_Z 8640000000000000)
      then Some (Z.quot (Qnum q) (Zpos (Qden q)))
      else None
  | _ => None
  end.

Definition ms_per_day : Z := 1000 * 60 * 60 * 24.

(** ** Documents *)

Definition oid := nat.

(** An id as a client sends it, in a path ([req.params.id]) or in a body
    ([userId]): a value that Mongoose casts to the ObjectId [id], or a truthy
    value that it cannot cast (text such as [123] or [guest], which is not
    24 hexadecimal digits).  A query built from the latter throws a
    [CastError]. *)
Inductive ClientId : Type :=
| ObjectId (id : oid)
| NotObjectId.

Inductive Status : Type := pending | approved | rejected.

Definition Status_eqb (a b : Status) : bool :=
  match a, b with
  | pending, pending | approved, approved | rejected, rejected => true
  | _, _ => false
  end.

(** The [enum] of the [verificationStatus] path, read from a request. *)
Definition status_of_string (s : string) : option Status :=
  if s =? "pending" then Some pending
  else if s =? "approved" then Some approved
  else if s =? "rejected" then Some rejected
  else None.

(** A donor or receiver document: the fields of its own schema plus the
    verification fields every one of the six schemas declares. *)
Record Doc (F : Type) : Type := mkDoc {
  _id : oid;
  fields : F;
  isVerified : bool;
  verificationStatus : Status;
  adminNotes : string;
  submittedAt : Z;
  verifiedAt : option Z
}.
Arguments mkDoc {F}.
Arguments _id {F}.
Arguments fields {F}.
Arguments isVerified {F}.
Arguments verificationStatus {F}.
Arguments adminNotes {F}.
Arguments submittedAt {F}.
Arguments verifiedAt {F}.

Module BloodDonor.
Record t : Type := mk {
  name : option string;
  phone : option string;
  age : jsnum;
  weight : jsnum;
  bloodGroup : option string;
  hasDonatedBefore : bool;
  lastDonationDate : option Z;
  latitude : option Q;
  longitude : option Q;
  verificationFile : option string
}.
End BloodDonor.

Module BloodReceiver.
Record t : Type := mk {
  name : option string;
  phone : option string;
  location : option string;
  bloodNeed : option string;
  latitude : option Q;
  longitude : option Q;
  verificationFile : option string
}.
End BloodReceiver.

Module OrganDonor.
Record t : Type := mk {
  name : option string;
  phone : option string;
  weight : jsnum;
  organType : option string;
  conditionStatus : option string;
  hasDonatedBefore : bool;
  lastDonationDate : option Z;
  latitude : option Q;
  longitude : option Q;
  verificationFile : option string
}.
End OrganDonor.

Module OrganReceiver.
Record t : Type := mk {
  name : option string;
  phone : option string;
  location : option string;
  organNeed : option string;
  medicalCondition : option string;
  latitude : option Q;
  longitude : option Q;
  verificationFile : option string
}.
End OrganReceiver.

Module MoneyDonor.
Record t : Type := mk {
  donorName : option string;
  amount : option Q;
  paymentMethod : option string;
  verificationFile : option string;
  timestamp : Z
}.
End MoneyDonor.

Module MoneyReceiver.
Record t : Type := mk {
  name : option string;
  age : option Q;
  phone : option string;
  moneyAmount : option Q;
  moneyNeed : option string;
  verificationFile : option string
}.
End MoneyReceiver.

(** An entry of a user's [donations] array ([Mixed]): the two shapes the
    handlers push. *)
Module Donation.
Inductive t : Type :=
| organ (donorId : oid) (name phone organType conditionStatus : option string)
        (timestamp : Z) (status : string)
| money (donorId : oid) (name : option string) (amount : option Q)
        (paymentMethod : option string) (timestamp : Z) (status : string).

Definition status (d : t) : string :=
  match d with
  | organ _ _ _ _ _ _ s => s
  | money _ _ _ _ _ s => s
  end.

Definition donorId (d : t) : oid :=
  match d with
  | organ i _ _ _ _ _ _ => i
  | money i _ _ _ _ _ => i
  end.
End Donation.

Module User.
Record t : Type := mk {
  _id : oid;
  name : string;
  phone : string;
  password : string;
  profilePhoto : string;
  createdAt : Z;
  donations : list Donation.t
}.
End User.

(** ** The database *)

Inductive Model : Type :=
| BloodDonorM | BloodReceiverM | OrganDonorM | OrganReceiverM
| MoneyDonorM | MoneyReceiverM.

Definition schema (m : Model) : Type :=
  match m with
  | BloodDonorM => BloodDonor.t
  | BloodReceiverM => BloodReceiver.t
  | OrganDonorM => OrganDonor.t
  | OrganReceiverM => OrganReceiver.t
  | MoneyDonorM => MoneyDonor.t
  | MoneyReceiverM => MoneyReceiver.t
  end.

Record DB : Type := mkDB {
  users : list User.t;
  bloodDonors : list (Doc BloodDonor.t);
  bloodReceivers : list (Doc BloodReceiver.t);
  organDonors : list (Doc OrganDonor.t);
  organReceivers : list (Doc OrganReceiver.t);
  moneyDonors : list (Doc MoneyDonor.t);
  moneyReceivers : list (Doc MoneyReceiver.t);
  nextId : oid
}.

Definition emptyDB : DB := mkDB [] [] [] [] [] [] [] 0.

Definition collection (m : Model) (db : DB) : list (Doc (schema m)) :=
  match m with
  | BloodDonorM => bloodDonors db
  | BloodReceiverM => bloodReceivers db
  | OrganDonorM => organDonors db
  | OrganReceiverM => organReceivers db
  | MoneyDonorM => moneyDonors db
  | MoneyReceiverM => moneyReceivers db
  end.

Definition set_collection (m : Model) : list (Doc (schema m)) -> DB -> DB :=
  match m with
  | BloodDonorM => fun l db =>
      mkDB (users db) l (bloodReceivers db) (organDonors db)
           (organReceivers db) (moneyDonors db) (moneyReceivers db) (nextId db)
  | BloodReceiverM => fun l db =>
      mkDB (users db) (bloodDonors db) l (organDonors db)
           (organReceivers db) (moneyDonors db) (moneyReceivers db) (nextId db)
  | OrganDonorM => fun l db =>
      mkDB (users db) (bloodDonors db) (bloodReceivers db) l
           (organReceivers db) (moneyDonors db) (moneyReceivers db) (nextId db)
  | OrganReceiverM => fun l db =>
      mkDB (users db) (bloodDonors db) (bloodReceivers db) (organDonors db)
           l (moneyDonors db) (moneyReceivers db) (nextId db)
  | MoneyDonorM => fun l db =>
      mkDB (users db) (bloodDonors db) (bloodReceivers db) (organDonors db)
           (organReceivers db) l (moneyReceivers db) (nextId db)
  | MoneyReceiverM => fun l db =>
      mkDB (users db) (bloodDonors db) (bloodReceivers db) (organDonors db)
           (organReceivers db) (moneyDonors db) l (nextId db)
  end.

Definition set_users (us : list User.t) (db : DB) : DB :=
  mkDB us (bloodDonors db) (bloodReceivers db) (organDonors db)
       (organReceivers db) (moneyDonors db) (moneyReceivers db) (nextId db).

(** [new M({...}); doc.save()]: the document gets a fresh [_id], the schema
    defaults [isVerified = false], [adminNotes = ''] and no [verifiedAt];
    every handler passes [verificationStatus: 'pending'] and
    [submittedAt: new Date()] itself. *)
Definition new_doc (m : Model) (db : DB) (now : Z) (f : schema m)
  : Doc (schema m) :=
  mkDoc (nextId db) f false pending "" now None.

Definition save_new (m : Model) (d : Doc (schema m)) (db : DB) : DB :=
  let db' := set_collection m (collection m db ++ [d]) db in
  mkDB (users db') (bloodDonors db') (bloodReceivers db') (organDonors db')
       (organReceivers db') (moneyDonors db') (moneyReceivers db')
       (S (nextId db)).

(** *** Queries *)

Definition findById {A} (key : A -> oid) (id : oid) (l : list A) : option A :=
  find (fun d => key d =? id)%nat l.

(** [findByIdAndUpdate(id, update, {new: true})]: the first document with
    that [_id] is replaced; the result is the new collection and the updated
    document, or nothing when no document has the id. *)
Fixpoint findByIdAndUpdate {A} (key : A -> oid) (id : oid) (upd : A -> A)
  (l : list A) : option (list A * A) :=
  match l with
  | [] => None
  | d :: tl =>
      if (key d =? id)%nat then Some (upd d :: tl, upd d)
      else match findByIdAndUpdate key id upd tl with
           | Some (tl', d') => Some (d :: tl', d')
           | None => None
           end
  end.

(** [find(filter).sort(order)] followed by taking the first document, as
    [findOne(filter).sort(order)] does: the earliest document of the
    collection that no other matching document strictly precedes in the sort
    order.  [before a b] says that [a] sorts strictly before [b]. *)
Definition findOneSorted {A} (before : A -> A -> bool) (filter : A -> bool)
  (l : list A) : option A :=
  fold_left
    (fun best d =>
       if filter d then
         match best with
         | None => Some d
         | Some b => if before d b then Some d else Some b
         end
       else best)
    l None.

(** Descending order on dates; in a descending sort a missing date comes
    after every date. *)
Definition date_gt (a b : option Z) : bool :=
  match a, b with
  | Some x, Some y => (y <? x)%Z
  | Some _, None => true
  | None, _ => false
  end.

Definition date_eq (a b : option Z) : bool :=
  match a, b with
  | Some x, Some y => (x =? y)%Z
  | None, None => true
  | _, _ => false
  end.

(** [.sort({ verifiedAt: -1, submittedAt: -1 })] *)
Definition by_verifiedAt_submittedAt {F} (a b : Doc F) : bool :=
  date_gt (verifiedAt a) (verifiedAt b)
  || (date_eq (verifiedAt a) (verifiedAt b)
      && (submittedAt b <? submittedAt a)%Z).

(** [.sort({ submittedAt: -1 })] *)
Definition by_submittedAt {F} (a b : Doc F) : bool :=
  (submittedAt b <? submittedAt a)%Z.

Definition opt_str_eqb (a b : option string) : bool :=
  match a, b with
  | Some x, Some y => x =? y
  | None, None => true
  | _, _ => false
  end.

Definition includes (l : list string) (s : string) : bool :=
  existsb (String.eqb s) l.

(** ** Responses *)

(** [Json code body] is [res.status(code).json(body)], [Error code msg] is
    [res.status(code).json({ error: msg })] with a message written in the
    handler, and [Thrown] is the [catch] branch, which answers 500 with the
    message of the error a library threw. *)
Inductive Response (A : Type) : Type :=
| Json (code : nat) (body : A)
| Error (code : nat) (error : string)
| Thrown.
Arguments Json {A}.
Arguments Error {A}.
Arguments Thrown {A}.

Definition OK : nat := 200.
Definition Created : nat := 201.
Definition BadRequest : nat := 400.
Definition Unauthorized : nat := 401.
Definition Forbidden : nat := 403.
Definition NotFound : nat := 404.

(** Body of a 201 answer to a submission: [{message, donorId, status}]
    (the id is called [receiverId] for receivers). *)
Record Submitted : Type := mkSubmitted {
  sub_message : string;
  sub_id : oid;
  sub_status : string
}.

(** A user as returned to clients: every field but the password. *)
Record UserResponse : Type := mkUserResponse {
  ur_id : oid;
  ur_name : string;
  ur_phone : string;
  ur_profilePhoto : string;
  ur_createdAt : Z;
  ur_donations : list Donation.t
}.

Record LoggedIn : Type := mkLoggedIn {
  li_message : string;
  li_user : UserResponse
}.

Definition userResponse (u : User.t) : UserResponse :=
  mkUserResponse (User._id u) (User.name u) (User.phone u)
                 (User.profilePhoto u) (User.createdAt u) (User.donations u).

(** The receiver summaries of the two matching endpoints. *)
Record BloodReceiverSummary : Type := mkBloodReceiverSummary {
  brs_name : option string;
  brs_phone : option string;
  brs_bloodNeed : option string;
  brs_location : option string;
  brs_latitude : option Q;
  brs_longitude : option Q
}.

Record OrganReceiverSummary : Type := mkOrganReceiverSummary {
  ors_name : option string;
  ors_phone : option string;
  ors_organNeed : option string;
  ors_location : option string;
  ors_latitude : option Q;
  ors_longitude : option Q;
  ors_medicalCondition : option string
}.

(** Body of the matching endpoints: the 200 answer [{message, receiver,
    donors}] or the 403 answer [{status, message}]. *)
Inductive Matching (R D : Type) : Type :=
| Matched (message : string) (receiver : R) (donors : list D)
| NotApproved (status : Status) (message : string).
Arguments Matched {R D}.
Arguments NotApproved {R D}.

Record Verified (m : Model) : Type := mkVerified {
  v_message : string;
  v_record : Doc (schema m)
}.
Arguments mkVerified {m}.
Arguments v_message {m}.
Arguments v_record {m}.

(** Body of [GET /api/admin/pending-verifications]. *)
Record PendingVerifications : Type := mkPendingVerifications {
  pv_bloodDonors : list (Doc BloodDonor.t);
  pv_bloodReceivers : list (Doc BloodReceiver.t);
  pv_organDonors : list (Doc OrganDonor.t);
  pv_organReceivers : list (Doc OrganReceiver.t);
  pv_moneyDonors : list (Doc MoneyDonor.t);
  pv_moneyReceivers : list (Doc MoneyReceiver.t)
}.

(** The list the pending answer holds for a collection. *)
Definition pending_of (m : Model) (pv : PendingVerifications)
  : list (Doc (schema m)) :=
  match m with
  | BloodDonorM => pv_bloodDonors pv
  | BloodReceiverM => pv_bloodReceivers pv
  | OrganDonorM => pv_organDonors pv
  | OrganReceiverM => pv_organReceivers pv
  | MoneyDonorM => pv_moneyDonors pv
  | MoneyReceiverM => pv_moneyReceivers pv
  end.

(** [M.countDocuments(filter)] *)
Definition countDocuments {A} (matches : A -> bool) (l : list A) : nat :=
  List.length (List.filter matches l).

(** [M.find({ verificationStatus: 'pending' })] *)
Definition find_pending {F} (l : list (Doc F)) : list (Doc F) :=
  List.filter (fun d => Status_eqb (verificationStatus d) pending) l.

(** ** Administrative verification: types and update *)

Definition verification_types : list string :=
  ["blood-donor"; "blood-receiver"; "organ-donor"; "organ-receiver";
   "money-donor"; "money-receiver"].

(** The [switch (type)] that selects the model. *)
Definition model_of_type (type : string) : option Model :=
  if type =? "blood-donor" then Some BloodDonorM
  else if type =? "blood-receiver" then Some BloodReceiverM
  else if type =? "organ-donor" then Some OrganDonorM
  else if type =? "organ-receiver" then Some OrganReceiverM
  else if type =? "money-donor" then Some MoneyDonorM
  else if type =? "money-receiver" then Some MoneyReceiverM
  else None.

(** The answer of the two admin endpoints carries a document of the
    collection the request names. *)
Inductive AdminResponse (B : Model -> Type) : Type :=
| AdminJson (m : Model) (body : B m)
| AdminError (code : nat) (error : string)
| AdminThrown.
Arguments AdminJson {B}.
Arguments AdminError {B}.
Arguments AdminThrown {B}.

(** [notes || ''] *)
Definition notes_or_empty (notes : option string) : string :=
  match notes with
  | Some n => if truthy_str notes then n else ""
  | None => ""
  end.

(** [findByIdAndUpdate] with the [updateData] of the verify handler: the
    four paths it names are overwritten, the others kept. *)
Definition updateData {F} (now : Z) (status : Status) (approvedNow : bool)
  (notes : option string) (d : Doc F) : Doc F :=
  mkDoc (_id d) (fields d) approvedNow status (notes_or_empty notes)
        (submittedAt d) (Some now).

(** ** Request bodies *)

(** The [userId] of a donor body is [None] when the field is absent or
    falsy (the handlers test [if (userId)]), and otherwise the value sent. *)

Module BloodDonorBody.
Record t : Type := mk {
  name : option string;
  phone : option string;
  age : jsval;
  weight : jsval;
  bloodGroup : option string;
  hasDonatedBefore : jsval;
  lastDonationDate : jsval;
  latitude : option Q;
  longitude : option Q;
  userId : option ClientId;
  verificationFile : option string
}.
End BloodDonorBody.

Module OrganDonorBody.
Record t : Type := mk {
  name : option string;
  phone : option string;
  organType : option string;
  conditionStatus : option string;
  weight : jsval;
  hasDonatedBefore : jsval;
  lastDonationDate : jsval;
  latitude : option Q;
  longitude : option Q;
  userId : option ClientId;
  verificationFile : option string
}.
End OrganDonorBody.

Module MoneyDonorBody.
Record t : Type := mk {
  donorName : option string;
  amount : option Q;
  paymentMethod : option string;
  userId : option ClientId;
  verificationFile : option string
}.
End MoneyDonorBody.

Module UserUpdate.
Record t : Type := mk {
  name : option string;
  phone : option string;
  profilePhoto : option string
}.
End UserUpdate.

(** ** State-changing requests *)

Inductive Request : Type :=
| Register (name phone password profilePhoto : string)
| UpdateUser (id : ClientId) (b : UserUpdate.t)
| SubmitBloodDonor (b : BloodDonorBody.t)
| SubmitBloodReceiver (b : BloodReceiver.t)
| SubmitOrganDonor (b : OrganDonorBody.t)
| SubmitOrganReceiver (b : OrganReceiver.t)
| SubmitMoneyDonor (b : MoneyDonorBody.t)
| SubmitMoneyReceiver (b : MoneyReceiver.t)
| Verify (type : string) (id : ClientId) (status : string)
    (notes : option string).

(** ** A concrete runtime for the worked examples

    The properties below hold for every behaviour of the four library
    functions.  The worked examples pass ages, weights and dates as JSON
    numbers, so any instance serves; this one reads strings of decimal
    digits as numbers and accepts no string as a date. *)

Fixpoint digits_value (acc : Z) (cs : list ascii) : Z :=
  match cs with
  | [] => acc
  | c :: cs' => digits_value (10 * acc + (Z.of_nat (nat_of_ascii c) - 48)) cs'
  end.

Definition example_Number (s : string) : jsnum :=
  let cs := list_ascii_of_string s in
  if forallb is_digit cs then Fin (inject_Z (digits_value 0 cs)) else NaN.

Definition example_Date_parse (s : string) : option Z := None.

Definition example_hash (password : string) : string := "$2a$10$" ++ password.

Definition example_compare (password hash : string) : bool :=
  hash =? example_hash password.

(** *** Data of the worked examples *)

Definition example_now : Z := 1762041600000.

Definition number (z : Z) : jsval := JNum (Fin (inject_Z z)).

(** A numeric field the handlers pass through: a JSON number. *)
Definition plain (z : Z) : option Q := Some (inject_Z z).

(** A first-time blood donor of the given age. *)
Definition example_blood_donor (age : Z) : BloodDonorBody.t :=
  BloodDonorBody.mk (Some "Ravi") (Some "9123456789") (number age) (number 70)
    (Some "O+") (JBool false) JUndefined (plain 18) (plain 73)
    (Some (ObjectId 0)) None.

(** A blood donor whose last donation was [elapsed] milliseconds before
    [example_now]. *)
Definition example_returning_blood_donor (elapsed : Z) : BloodDonorBody.t :=
  BloodDonorBody.mk (Some "Ravi") (Some "9123456789") (number 30) (number 70)
    (Some "O+") (JBool true) (number (example_now - elapsed))
    (plain 18) (plain 73) None None.

Definition example_organ_donor (userId : option ClientId) (elapsed : Z)
  : OrganDonorBody.t :=
  OrganDonorBody.mk (Some "Meera") (Some "9000000001") (Some "kidney")
    (Some "healthy") (number 62) (JBool true) (number (example_now - elapsed))
    (plain 12) (plain 77) userId None.

Definition example_money_donor (userId : option ClientId)
  : MoneyDonorBody.t :=
  MoneyDonorBody.mk (Some "Kiran") (plain 500) (Some "upi") userId None.

Definition example_blood_receiver : BloodReceiver.t :=
  BloodReceiver.mk (Some "Asha") (Some "9876543210") (Some "Pune") (Some "O+")
    (plain 18) (plain 73) None.

Definition example_organ_receiver : OrganReceiver.t :=
  OrganReceiver.mk (Some "Asha") (Some "9876543210") (Some "Pune")
    (Some "kidney") (Some "renal failure") (plain 18) (plain 73) None.

Definition example_money_receiver : MoneyReceiver.t :=
  MoneyReceiver.mk (Some "Asha") (plain 40) (Some "9876543210") (plain 900)
    (Some "surgery") None.

Definition example_user : User.t :=
  User.mk 0 "Meera" "9000000001" (example_hash "secret") "meera.png" 1000 [].

Definition example_blood_donor_doc (id : oid) (group : string) (st : Status)
  : Doc BloodDonor.t :=
  mkDoc id
    (BloodDonor.mk (Some "Ravi") (Some "9123456789") (Fin (inject_Z 30))
       (Fin (inject_Z 70)) (Some group) false None (plain 18) (plain 73) None)
    (Status_eqb st approved) st "" 2000
    (match st with pending => None | _ => Some 3000%Z end).

Definition example_organ_donor_doc (id : oid) (organ : string) (st : Status)
  : Doc OrganDonor.t :=
  mkDoc id
    (OrganDonor.mk (Some "Meera") (Some "9000000001") (Fin (inject_Z 62))
       (Some organ) (Some "healthy") false None (plain 12) (plain 77) None)
    (Status_eqb st approved) st "" 2000
    (match st with pending => None | _ => Some 3000%Z end).

(** A database with one user, three blood donors, three organ donors, two
    blood receiver documents for one phone (the older one approved, the
    newer one pending) and one pending organ receiver. *)
Definition example_db : DB :=
  mkDB [example_user]
    [example_blood_donor_doc 1 "O+" approved;
     example_blood_donor_doc 2 "A+" approved;
     example_blood_donor_doc 3 "O+" pending]
    [mkDoc 4 example_blood_receiver true approved "" 2500 (Some 3500%Z);
     mkDoc 5 example_blood_receiver false pending "" 4000 None]
    [example_organ_donor_doc 6 "kidney" approved;
     example_organ_donor_doc 7 "liver" approved;
     example_organ_donor_doc 8 "kidney" rejected]
    [mkDoc 9 example_organ_receiver false pending "" 2500 None]
    [] [] 10.

(** A money receiver is registered, approved, and then rejected. *)
Definition example_decisions : list (Z * Request) :=
  [(1000%Z, SubmitMoneyReceiver example_money_receiver);
   (2000%Z, Verify "money-receiver" (ObjectId 0) "approved" None);
   (3000%Z,
    Verify "money-receiver" (ObjectId 0) "rejected" (Some "duplicate"))].

(** A short history: a user registers, two blood donors submit, the first is
    approved, and the user donates money. *)
Definition example_donor_history : list (Z * Request) :=
  [(1000%Z, Register "Meera" "9000000001" "secret" "meera.png");
   (2000%Z, SubmitBloodDonor (example_blood_donor 30));
   (3000%Z, SubmitBloodDonor (example_blood_donor 40));
   (4000%Z, Verify "blood-donor" (ObjectId 1) "approved" (Some "checked"));
   (5000%Z, SubmitMoneyDonor (example_money_donor (Some (ObjectId 0))))].

(** The same history followed by the registration of a blood receiver. *)
Definition example_history : list (Z * Request) :=
  (example_donor_history
   ++ [(6000%Z, SubmitBloodReceiver example_blood_receiver)])%list.

(** The user and the approved blood donor as that history leaves them. *)
Definition example_registered_user : User.t :=
  User.mk 0 "Meera" "9000000001" (example_hash "secret") "meera.png" 1000
    [Donation.money 3 (Some "Kiran") (plain 500) (Some "upi") 5000
       "pending_verification"].

Definition example_approved_donor : Doc BloodDonor.t :=
  mkDoc 1
    (BloodDonor.mk (Some "Ravi") (Some "9123456789") (Fin (inject_Z 30))
       (Fin (inject_Z 70)) (Some "O+") false None (plain 18) (plain 73) None)
    true approved "checked" 2000 (Some 4000%Z).

(** ** The order of the receiver lookup, as the specification words it *)

(** [a] is no later than [b]; a missing date is earlier than every date. *)
Definition date_le (a b : option Z) : Prop :=
  match a, b with
  | None, _ => True
  | Some _, None => False
  | Some x, Some y => (x <= y)%Z
  end.

(** [r] does not come before [best] when the latest [verifiedAt] wins and,
    among equal ones, the latest [submittedAt]. *)
Definition not_more_recent {F} (r best : Doc F) : Prop :=
  date_le (verifiedAt r) (verifiedAt best)
  /\ (verifiedAt r = verifiedAt best -> (submittedAt r <= submittedAt best)%Z).

(** The contract of a matching query for the receivers [receivers] and the
    donors [donors], answered by [res] for the ten-digit phone [phone]:
    - no receiver document has the phone: NotFound;
    - some have it but none is approved: Forbidden, carrying the status of
      a document with the phone whose [submittedAt] is the latest;
    - one is approved: OK with the summary of an approved document with the
      phone that no other such document beats on [verifiedAt], then
      [submittedAt], and with exactly the donors whose attribute equals that
      receiver's need and whose status is approved. *)
Definition matching_contract {R D S : Type}
  (receivers : list (Doc R)) (donors : list (Doc D))
  (phone_of need_of : R -> option string) (attribute_of : D -> option string)
  (summary : R -> S) (phone : string)
  (res : Response (Matching S (Doc D))) : Prop :=
  let mine (r : Doc R) :=
    In r receivers /\ phone_of (fields r) = Some phone in
  ((forall r, ~ mine r) ->
   res = Error NotFound
           "Receiver registration not found. Please register first.")
  /\ ((exists r, mine r) ->
      (forall r, mine r -> verificationStatus r <> approved) ->
      exists latest,
        mine latest
        /\ (forall r, mine r -> (submittedAt r <= submittedAt latest)%Z)
        /\ res = Json Forbidden
                   (NotApproved (verificationStatus latest)
                      "Receiver has not been approved yet. Please wait for admin verification."))
  /\ ((exists r, mine r /\ verificationStatus r = approved) ->
      exists receiver matchingDonors,
        mine receiver
        /\ verificationStatus receiver = approved
        /\ (forall r, mine r -> verificationStatus r = approved ->
                      not_more_recent r receiver)
        /\ res = Json OK
                   (Matched "Receiver verified. Showing available donors."
                      (summary (fields receiver)) matchingDonors)
        /\ matchingDonors
           = filter
               (fun d => opt_str_eqb (attribute_of (fields d))
                                     (need_of (fields receiver))
                         && Status_eqb (verificationStatus d) approved)
               donors
        /\ (forall d,
              In d matchingDonors <->
              In d donors
              /\ attribute_of (fields d) = need_of (fields receiver)
              /\ verificationStatus d = approved)).

(** The receiver summaries: name, phone, need, location and position (and
    the medical condition of an organ receiver); no verification field. *)
Definition blood_receiver_summary (r : BloodReceiver.t) : BloodReceiverSummary :=
  mkBloodReceiverSummary (BloodReceiver.name r) (BloodReceiver.phone r)
    (BloodReceiver.bloodNeed r) (BloodReceiver.location r)
    (BloodReceiver.latitude r) (BloodReceiver.longitude r).

Definition organ_receiver_summary (r : OrganReceiver.t) : OrganReceiverSummary :=
  mkOrganReceiverSummary (OrganReceiver.name r) (OrganReceiver.phone r)
    (OrganReceiver.organNeed r) (OrganReceiver.location r)
    (OrganReceiver.latitude r) (OrganReceiver.longitude r)
    (OrganReceiver.medicalCondition r).

(** ** The verification state of a document, and its history *)

(** [isVerified] agrees with [verificationStatus]. *)
Definition doc_consistent {F} (d : Doc F) : Prop :=
  isVerified d = Status_eqb (verificationStatus d) approved.

Definition consistent (db : DB) : Prop :=
  forall m d, In d (collection m db) -> doc_consistent d.

(** The status of the document [id] of collection [m], if there is one. *)
Definition statusOf (m : Model) (id : oid) (db : DB) : option Status :=
  option_map verificationStatus (findById _id id (collection m db)).

(** The statuses a document goes through along a list of states, from the
    state in which it first exists. *)
Fixpoint status_history (m : Model) (id : oid) (dbs : list DB) : list Status :=
  match dbs with
  | [] => []
  | db :: dbs' =>
      match statusOf m id db with
      | Some s => s :: status_history m id dbs'
      | None => status_history m id dbs'
      end
  end.

(** The number of places where a history changes value. *)
Fixpoint transitions (h : list Status) : nat :=
  match h with
  | a :: (b :: _) as t =>
      (if Status_eqb a b then 0 else 1) + transitions t
  | _ => 0
  end.

(** ** Ranges of JavaScript numbers, as the rules are worded *)

(** [lo <= x <= hi] for a number [x]: NaN and the infinities are outside. *)
Definition in_range (x : jsnum) (lo hi : Z) : Prop :=
  exists q, x = Fin q /\ (inject_Z lo <= q)%Q /\ (q <= inject_Z hi)%Q.

(** [x >= lo] for a number [x]: NaN is not, positive infinity is. *)
Definition at_least (x : jsnum) (lo : Z) : Prop :=
  x = PosInf \/ exists q, x = Fin q /\ (inject_Z lo <= q)%Q.

(** The required fields of the two donor forms are all truthy. *)
Definition blood_required_present (b : BloodDonorBody.t) : bool :=
  truthy_str (BloodDonorBody.name b) && truthy_str (BloodDonorBody.phone b)
  && truthy (BloodDonorBody.age b) && truthy (BloodDonorBody.weight b)
  && truthy_str (BloodDonorBody.bloodGroup b).

Definition organ_required_present (b : OrganDonorBody.t) : bool :=
  truthy_str (OrganDonorBody.name b) && truthy_str (OrganDonorBody.phone b)
  && truthy_str (OrganDonorBody.organType b)
  && truthy_str (OrganDonorBody.conditionStatus b)
  && truthy (OrganDonorBody.weight b).

Definition blood_body_with_userId (u : option ClientId)
  (b : BloodDonorBody.t)
  : BloodDonorBody.t :=
  BloodDonorBody.mk (BloodDonorBody.name b) (BloodDonorBody.phone b)
    (BloodDonorBody.age b) (BloodDonorBody.weight b)
    (BloodDonorBody.bloodGroup b) (BloodDonorBody.hasDonatedBefore b)
    (BloodDonorBody.lastDonationDate b) (BloodDonorBody.latitude b)
    (BloodDonorBody.longitude b) u (BloodDonorBody.verificationFile b).

(** The [userId] of a body is absent (or falsy), or a value that Mongoose
    casts to an ObjectId: the lookup [User.findById(userId)] is skipped or
    made without a [CastError]. *)
Definition castable (userId : option ClientId) : bool :=
  match userId with
  | Some NotObjectId => false
  | _ => true
  end.

(** [user.donations.push(entry)] *)
Definition add_donation (entry : Donation.t) (u : User.t) : User.t :=
  User.mk (User._id u) (User.name u) (User.phone u) (User.password u)
          (User.profilePhoto u) (User.createdAt u)
          (User.donations u ++ [entry]).

(** ** The handlers *)

Section Server.

(** [Number(s)] on a string. *)
Variable Number_of_string : string -> jsnum.
(** [new Date(s).getTime()] on a string; [None] is an invalid date. *)
Variable Date_parse : string -> option Z.
Variable bcrypt_hash : string -> string.
Variable bcrypt_compare : string -> string -> bool.

(** [Number(v)] *)
Definition Number (v : jsval) : jsnum :=
  match v with
  | JUndefined => NaN
  | JNull => Fin (inject_Z 0)
  | JBool true => Fin (inject_Z 1)
  | JBool false => Fin (inject_Z 0)
  | JNum x => x
  | JStr s => Number_of_string s
  end.

(** [new Date(v).getTime()]; [None] is NaN, the time of an invalid date. *)
Definition new_Date (v : jsval) : option Z :=
  match v with
  | JStr s => Date_parse s
  | _ => TimeClip (Number v)
  end.

(** *** Users *)

Definition post_register (db : DB) (now : Z)
  (name phone password profilePhoto : string)
  : DB * Response LoggedIn :=
  match find (fun u => User.phone u =? phone) (users db) with
  | Some _ =>
      (db, Error BadRequest "User with this phone number already exists")
  | None =>
      let hashedPassword := bcrypt_hash password in
      let user :=
        User.mk (nextId db) name phone hashedPassword profilePhoto now [] in
      (* the four paths are [required]: [save] rejects an empty string *)
      if (name =? "") || (phone =? "") || (hashedPassword =? "")
         || (profilePhoto =? "")
      then (db, Thrown)
      else
        (mkDB (users db ++ [user]) (bloodDonors db) (bloodReceivers db)
              (organDonors db) (organReceivers db) (moneyDonors db)
              (moneyReceivers db) (S (nextId db)),
         Json Created
              (mkLoggedIn "User registered successfully" (userResponse user)))
  end.

Definition post_login (db : DB) (phone password : string)
  : Response LoggedIn :=
  match find (fun u => User.phone u =? phone) (users db) with
  | None => Error Unauthorized "Invalid phone number or password"
  | Some user =>
      let isPasswordValid := bcrypt_compare password (User.password user) in
      if negb isPasswordValid
      then Error Unauthorized "Invalid phone number or password"
      else Json OK (mkLoggedIn "Login successful" (userResponse user))
  end.

Definition put_user (db : DB) (id : ClientId) (b : UserUpdate.t)
  : DB * Response LoggedIn :=
  match id with
  | NotObjectId =>
      (* the first query that casts the id throws: [findOne] with
         [_id: { $ne: id }] when a phone is given, [findByIdAndUpdate]
         otherwise; nothing has been written *)
      (db, Thrown)
  | ObjectId id =>
  let taken :=
    match UserUpdate.phone b with
    | Some phone =>
        truthy_str (Some phone)
        && existsb (fun u => (User.phone u =? phone)
                             && negb (User._id u =? id)%nat) (users db)
    | None => false
    end in
  if taken then (db, Error BadRequest "Phone number already in use")
  else
    let updateData (u : User.t) : User.t :=
      User.mk (User._id u)
        (if truthy_str (UserUpdate.name b)
         then match UserUpdate.name b with Some n => n | None => User.name u end
         else User.name u)
        (if truthy_str (UserUpdate.phone b)
         then match UserUpdate.phone b with Some n => n | None => User.phone u end
         else User.phone u)
        (User.password u)
        (if truthy_str (UserUpdate.profilePhoto b)
         then match UserUpdate.profilePhoto b with
              | Some n => n | None => User.profilePhoto u end
         else User.profilePhoto u)
        (User.createdAt u) (User.donations u) in
    match findByIdAndUpdate User._id id updateData (users db) with
    | None => (db, Error NotFound "User not found")
    | Some (us, user) =>
        (set_users us db,
         Json OK (mkLoggedIn "Profile updated successfully"
                             (userResponse user)))
    end
  end.

(** [user.donations.push(entry); user.save()] *)
Definition push_donation (userId : oid) (entry : Donation.t) (db : DB) : DB :=
  match findByIdAndUpdate User._id userId (add_donation entry) (users db) with
  | Some (us, _) => set_users us db
  | None => db
  end.

(** *** Donor submissions *)

(** The block both donor handlers run after their field checks (lines
    331-345 and 593-607): it computes [lastDate], or answers 400. *)
Definition last_donation_check (now : Z) (hasDonatedBefore lastDonationDate : jsval)
  : string + option Z :=
  let donatedBefore := truthy hasDonatedBefore in
  if donatedBefore then
    if negb (truthy lastDonationDate)
    then inl "Last donation date is required for previous donors"
    else
      match new_Date lastDonationDate with
      | None => inl "Invalid last donation date"
      | Some lastDate =>
          (* Math.floor of the quotient; exact for time values *)
          let diffDays := ((now - lastDate) / ms_per_day)%Z in
          if (diffDays <? 90)%Z
          then inl "At least 90 days must have passed since the last donation"
          else inr (Some lastDate)
      end
  else inr None.

Definition post_blood_donor (db : DB) (now : Z) (b : BloodDonorBody.t)
  : DB * Response Submitted :=
  let name := BloodDonorBody.name b in
  let phone := BloodDonorBody.phone b in
  let age := BloodDonorBody.age b in
  let weight := BloodDonorBody.weight b in
  let bloodGroup := BloodDonorBody.bloodGroup b in
  if negb (truthy_str name) || negb (truthy_str phone) || negb (truthy age)
     || negb (truthy weight) || negb (truthy_str bloodGroup)
  then (db, Error BadRequest "Missing required fields")
  else if negb (phone_regex_opt phone)
  then (db, Error BadRequest "Invalid phone number format")
  else
    let ageNum := Number age in
    let weightNum := Number weight in
    if js_isNaN ageNum || js_lt ageNum 18 || js_gt ageNum 65
    then (db, Error BadRequest "Age must be between 18 and 65")
    else if js_isNaN weightNum || js_lt weightNum 50
    then (db, Error BadRequest "Weight must be at least 50 kg")
    else
      match last_donation_check now (BloodDonorBody.hasDonatedBefore b)
              (BloodDonorBody.lastDonationDate b) with
      | inl e => (db, Error BadRequest e)
      | inr lastDate =>
          let donor :=
            new_doc BloodDonorM db now
              (BloodDonor.mk name phone ageNum weightNum bloodGroup
                 (truthy (BloodDonorBody.hasDonatedBefore b)) lastDate
                 (BloodDonorBody.latitude b) (BloodDonorBody.longitude b)
                 (BloodDonorBody.verificationFile b)) in
          (save_new BloodDonorM donor db,
           Json Created
             (mkSubmitted "Blood donor registration submitted for verification"
                          (_id donor) "pending_verification"))
      end.

Definition post_organ_donor (db : DB) (now : Z) (b : OrganDonorBody.t)
  : DB * Response Submitted :=
  let name := OrganDonorBody.name b in
  let phone := OrganDonorBody.phone b in
  let organType := OrganDonorBody.organType b in
  let conditionStatus := OrganDonorBody.conditionStatus b in
  let weight := OrganDonorBody.weight b in
  if negb (truthy_str name) || negb (truthy_str phone)
     || negb (truthy_str organType) || negb (truthy_str conditionStatus)
     || negb (truthy weight)
  then (db, Error BadRequest "Missing required fields")
  else if negb (phone_regex_opt phone)
  then (db, Error BadRequest "Invalid phone number format")
  else
    let weightNum := Number weight in
    if js_isNaN weightNum || js_lt weightNum 50
    then (db, Error BadRequest "Weight must be at least 50 kg")
    else
      match last_donation_check now (OrganDonorBody.hasDonatedBefore b)
              (OrganDonorBody.lastDonationDate b) with
      | inl e => (db, Error BadRequest e)
      | inr lastDate =>
          let donor :=
            new_doc OrganDonorM db now
              (OrganDonor.mk name phone weightNum organType conditionStatus
                 (truthy (OrganDonorBody.hasDonatedBefore b)) lastDate
                 (OrganDonorBody.latitude b) (OrganDonorBody.longitude b)
                 (OrganDonorBody.verificationFile b)) in
          let db1 := save_new OrganDonorM donor db in
          let created :=
            Json Created
              (mkSubmitted "Organ donor registration submitted for verification"
                           (_id donor) "pending_verification") in
          match OrganDonorBody.userId b with
          | Some (ObjectId userId) =>
              match findById User._id userId (users db1) with
              | Some _ =>
                  (push_donation userId
                     (Donation.organ (_id donor)
                        (OrganDonor.name (fields donor))
                        (OrganDonor.phone (fields donor))
                        (OrganDonor.organType (fields donor))
                        (OrganDonor.conditionStatus (fields donor))
                        now "pending_verification")
                     db1,
                   created)
              | None => (db1, created)
              end
          | Some NotObjectId =>
              (* [User.findById(userId)] throws after [donor.save()] *)
              (db1, Thrown)
          | None => (db1, created)
          end
      end.

Definition post_money_donor (db : DB) (now : Z) (b : MoneyDonorBody.t)
  : DB * Response Submitted :=
  let donor :=
    new_doc MoneyDonorM db now
      (MoneyDonor.mk (MoneyDonorBody.donorName b) (MoneyDonorBody.amount b)
         (MoneyDonorBody.paymentMethod b) (MoneyDonorBody.verificationFile b)
         now) in
  let db1 := save_new MoneyDonorM donor db in
  let created :=
    Json Created
      (mkSubmitted "Money donation submitted for verification"
                   (_id donor) "pending_verification") in
  match MoneyDonorBody.userId b with
  | Some (ObjectId userId) =>
      match findById User._id userId (users db1) with
      | Some _ =>
          (push_donation userId
             (Donation.money (_id donor)
                (MoneyDonor.donorName (fields donor))
                (MoneyDonor.amount (fields donor))
                (MoneyDonor.paymentMethod (fields donor))
                now "pending_verification")
             db1,
           created)
      | None => (db1, created)
      end
  | Some NotObjectId =>
      (* [User.findById(userId)] throws after [donor.save()] *)
      (db1, Thrown)
  | None => (db1, created)
  end.

(** [GET /api/blood-donors] *)
Definition get_blood_donors (db : DB) : Response (list (Doc BloodDonor.t)) :=
  Json OK
    (filter (fun d => Status_eqb (verificationStatus d) approved)
            (bloodDonors db)).

(** [GET /api/organ-donors] *)
Definition get_organ_donors (db : DB) : Response (list (Doc OrganDonor.t)) :=
  Json OK (organDonors db).

(** *** Receiver submissions *)

Definition post_blood_receiver (db : DB) (now : Z) (b : BloodReceiver.t)
  : DB * Response Submitted :=
  let receiver := new_doc BloodReceiverM db now b in
  (save_new BloodReceiverM receiver db,
   Json Created
     (mkSubmitted
        "Blood receiver registration submitted for verification. Donor details will be available once an admin approves your request."
        (_id receiver) "pending_verification")).

Definition post_organ_receiver (db : DB) (now : Z) (b : OrganReceiver.t)
  : DB * Response Submitted :=
  let receiver := new_doc OrganReceiverM db now b in
  (save_new OrganReceiverM receiver db,
   Json Created
     (mkSubmitted
        "Organ receiver registration submitted for verification. Donor details will be available once an admin approves your request."
        (_id receiver) "pending_verification")).

Definition post_money_receiver (db : DB) (now : Z) (b : MoneyReceiver.t)
  : DB * Response Submitted :=
  let receiver := new_doc MoneyReceiverM db now b in
  (save_new MoneyReceiverM receiver db,
   Json Created
     (mkSubmitted "Money receiver registration submitted for verification"
                  (_id receiver) "pending_verification")).

(** *** Matching *)

(** [GET /api/blood-receiver/matching-donors?phone=...] *)
Definition get_blood_receiver_matching_donors (db : DB) (phone : option string)
  : Response (Matching BloodReceiverSummary (Doc BloodDonor.t)) :=
  if negb (truthy_str phone) || negb (phone_regex_opt phone)
  then Error BadRequest "Valid phone number is required"
  else
    let receiver :=
      findOneSorted by_verifiedAt_submittedAt
        (fun r => opt_str_eqb (BloodReceiver.phone (fields r)) phone
                  && Status_eqb (verificationStatus r) approved)
        (bloodReceivers db) in
    match receiver with
    | None =>
        let latest :=
          findOneSorted by_submittedAt
            (fun r => opt_str_eqb (BloodReceiver.phone (fields r)) phone)
            (bloodReceivers db) in
        match latest with
        | None =>
            Error NotFound
                  "Receiver registration not found. Please register first."
        | Some latest =>
            Json Forbidden
              (NotApproved (verificationStatus latest)
                 "Receiver has not been approved yet. Please wait for admin verification.")
        end
    | Some receiver =>
        let matchingDonors :=
          filter
            (fun d => opt_str_eqb (BloodDonor.bloodGroup (fields d))
                                  (BloodReceiver.bloodNeed (fields receiver))
                      && Status_eqb (verificationStatus d) approved)
            (bloodDonors db) in
        Json OK
          (Matched "Receiver verified. Showing available donors."
             (mkBloodReceiverSummary
                (BloodReceiver.name (fields receiver))
                (BloodReceiver.phone (fields receiver))
                (BloodReceiver.bloodNeed (fields receiver))
                (BloodReceiver.location (fields receiver))
                (BloodReceiver.latitude (fields receiver))
                (BloodReceiver.longitude (fields receiver)))
             matchingDonors)
    end.

(** [GET /api/organ-receiver/matching-donors?phone=...] *)
Definition get_organ_receiver_matching_donors (db : DB) (phone : option string)
  : Response (Matching OrganReceiverSummary (Doc OrganDonor.t)) :=
  if negb (truthy_str phone) || negb (phone_regex_opt phone)
  then Error BadRequest "Valid phone number is required"
  else
    let receiver :=
      findOneSorted by_verifiedAt_submittedAt
        (fun r => opt_str_eqb (OrganReceiver.phone (fields r)) phone
                  && Status_eqb (verificationStatus r) approved)
        (organReceivers db) in
    match receiver with
    | None =>
        let latest :=
          findOneSorted by_submittedAt
            (fun r => opt_str_eqb (OrganReceiver.phone (fields r)) phone)
            (organReceivers db) in
        match latest with
        | None =>
            Error NotFound
                  "Receiver registration not found. Please register first."
        | Some latest =>
            Json Forbidden
              (NotApproved (verificationStatus latest)
                 "Receiver has not been approved yet. Please wait for admin verification.")
        end
    | Some receiver =>
        let matchingDonors :=
          filter
            (fun d => opt_str_eqb (OrganDonor.organType (fields d))
                                  (OrganReceiver.organNeed (fields receiver))
                      && Status_eqb (verificationStatus d) approved)
            (organDonors db) in
        Json OK
          (Matched "Receiver verified. Showing available donors."
             (mkOrganReceiverSummary
                (OrganReceiver.name (fields receiver))
                (OrganReceiver.phone (fields receiver))
                (OrganReceiver.organNeed (fields receiver))
                (OrganReceiver.location (fields receiver))
                (OrganReceiver.latitude (fields receiver))
                (OrganReceiver.longitude (fields receiver))
                (OrganReceiver.medicalCondition (fields receiver)))
             matchingDonors)
    end.

(** *** Administrative verification *)

(** [GET /api/admin/verification/:type/:id] *)
Definition get_admin_verification (db : DB) (type : string) (id : ClientId)
  : AdminResponse (fun m => Doc (schema m)) :=
  if negb (includes verification_types type)
  then AdminError BadRequest "Invalid verification type"
  else
    match model_of_type type with
    | None => AdminThrown
    | Some model =>
        match id with
        | NotObjectId => AdminThrown   (* [model.findById(id)] throws *)
        | ObjectId id =>
            match findById _id id (collection model db) with
            | None => AdminError NotFound "Verification not found"
            | Some item => AdminJson model item
            end
        end
    end.

(** [POST /api/admin/verify] *)
Definition post_admin_verify (db : DB) (now : Z) (type : string)
  (id : ClientId) (status : string) (notes : option string)
  : DB * AdminResponse Verified :=
  if negb (includes verification_types type)
  then (db, AdminError BadRequest "Invalid verification type")
  else if negb (includes ["approved"; "rejected"] status)
  then (db, AdminError BadRequest "Invalid status")
  else
    match model_of_type type, status_of_string status with
    | Some model, Some st =>
        match id with
        | NotObjectId =>
            (* [model.findByIdAndUpdate(id, ...)] throws *)
            (db, AdminThrown)
        | ObjectId id =>
            match findByIdAndUpdate _id id
                    (updateData now st (status =? "approved") notes)
                    (collection model db) with
            | None => (db, AdminError NotFound "Record not found")
            | Some (docs, updated) =>
                (set_collection model docs db,
                 AdminJson model
                   (mkVerified ("Verification " ++ status ++ " successfully")
                               updated))
            end
        end
    | _, _ => (db, AdminThrown)
    end.

(** *** Read-only endpoints on users and donors *)

(** [GET /api/has-donated?phone=...&type=...] *)
Definition get_has_donated (db : DB) (phone type : option string)
  : Response bool :=
  if negb (truthy_str phone) || negb (phone_regex_opt phone)
  then Error BadRequest "Valid phone is required"
  else if negb (match type with
                | Some t => includes ["blood"; "organ"] t
                | None => false
                end)
  then Error BadRequest "type must be one of: blood, organ"
  else
    let hasDonatedBefore :=
      if opt_str_eqb type (Some "blood") then
        let count :=
          countDocuments
            (fun d => opt_str_eqb (BloodDonor.phone (fields d)) phone)
            (bloodDonors db) in
        (0 <? count)%nat
      else if opt_str_eqb type (Some "organ") then
        let count :=
          countDocuments
            (fun d => opt_str_eqb (OrganDonor.phone (fields d)) phone)
            (organDonors db) in
        (0 <? count)%nat
      else false in
    Json OK hasDonatedBefore.

(** [GET /api/user/:id] *)
Definition get_user (db : DB) (id : ClientId) : Response UserResponse :=
  match id with
  | NotObjectId => Thrown   (* [User.findById(req.params.id)] throws *)
  | ObjectId id =>
      match findById User._id id (users db) with
      | None => Error NotFound "User not found"
      | Some user => Json OK (userResponse user)
      end
  end.

(** [GET /api/users] *)
Definition get_users (db : DB) : Response (list UserResponse) :=
  Json OK (map userResponse (users db)).

(** [GET /api/admin/pending-verifications] *)
Definition get_admin_pending_verifications (db : DB)
  : Response PendingVerifications :=
  let bloodDonors := find_pending (bloodDonors db) in
  let bloodReceivers := find_pending (bloodReceivers db) in
  let organDonors := find_pending (organDonors db) in
  let organReceivers := find_pending (organReceivers db) in
  let moneyDonors := find_pending (moneyDonors db) in
  let moneyReceivers := find_pending (moneyReceivers db) in
  Json OK
    (mkPendingVerifications bloodDonors bloodReceivers organDonors
       organReceivers moneyDonors moneyReceivers).

(** ** Runs of the server *)

(** The effect on the database of one state-changing request arriving at
    time [now]; the other endpoints only read. *)
Definition step (db : DB) (now : Z) (r : Request) : DB :=
  match r with
  | Register n p pw ph => fst (post_register db now n p pw ph)
  | UpdateUser id b => fst (put_user db id b)
  | SubmitBloodDonor b => fst (post_blood_donor db now b)
  | SubmitBloodReceiver b => fst (post_blood_receiver db now b)
  | SubmitOrganDonor b => fst (post_organ_donor db now b)
  | SubmitOrganReceiver b => fst (post_organ_receiver db now b)
  | SubmitMoneyDonor b => fst (post_money_donor db now b)
  | SubmitMoneyReceiver b => fst (post_money_receiver db now b)
  | Verify t id s n => fst (post_admin_verify db now t id s n)
  end.

Fixpoint run (db : DB) (rs : list (Z * Request)) : DB :=
  match rs with
  | [] => db
  | (now, r) :: rs' => run (step db now r) rs'
  end.

(** The states a run passes through, the initial one included. *)
Fixpoint trace (db : DB) (rs : list (Z * Request)) : list DB :=
  db :: match rs with
        | [] => []
        | (now, r) :: rs' => trace (step db now r) rs'
        end.

(** ** The submission rules, as the specification words them *)

(** Every rule of the blood donor form that precedes the last-donation rule
    holds. *)
Definition blood_fields_ok (b : BloodDonorBody.t) : Prop :=
  blood_required_present b = true
  /\ phone_regex_opt (BloodDonorBody.phone b) = true
  /\ in_range (Number (BloodDonorBody.age b)) 18 65
  /\ at_least (Number (BloodDonorBody.weight b)) 50.

(** The same for the organ donor form, which has no age rule. *)
Definition organ_fields_ok (b : OrganDonorBody.t) : Prop :=
  organ_required_present b = true
  /\ phone_regex_opt (OrganDonorBody.phone b) = true
  /\ at_least (Number (OrganDonorBody.weight b)) 50.


(** An organ donor submission that passes every rule of its handler. *)
Definition organ_donor_eligible (now : Z) (b : OrganDonorBody.t) : Prop :=
  organ_fields_ok b
  /\ exists lastDate,
      last_donation_check now (OrganDonorBody.hasDonatedBefore b)
        (OrganDonorBody.lastDonationDate b) = inr lastDate.

(** What a donor submission carrying [userId] does to the users: when the
    id resolves to [user], that document gets one more log entry, of status
    [pending_verification] and naming the new donor, and nothing else
    changes; when the id is absent, or is an ObjectId that resolves to
    nobody, the users are unchanged. *)
Definition log_effect (userId : option ClientId) (donorId : oid)
  (us us' : list User.t) : Prop :=
  (forall uid user,
      userId = Some (ObjectId uid) ->
      findById User._id uid us = Some user ->
      exists entry before after,
        Donation.status entry = "pending_verification"
        /\ Donation.donorId entry = donorId
        /\ us = (before ++ user :: after)%list
        /\ (forall x, In x before -> User._id x <> uid)
        /\ us' = (before ++ add_donation entry user :: after)%list
        /\ User.donations (add_donation entry user)
           = (User.donations user ++ [entry])%list)
  /\ (userId = None -> us' = us)
  /\ (forall uid,
        userId = Some (ObjectId uid) ->
        findById User._id uid us = None -> us' = us).

(** What one request does to a collection: nothing, one new document, or
    the update of the verify handler. *)
Definition step_effect (m : Model) (db db' : DB) (now : Z) (r : Request)
  : Prop :=
  collection m db' = collection m db
  \/ (exists f,
        collection m db' = (collection m db ++ [new_doc m db now f])%list)
  \/ (exists type id status notes st updated,
        r = Verify type (ObjectId id) status notes
        /\ model_of_type type = Some m
        /\ status_of_string status = Some st
        /\ st <> pending
        /\ findByIdAndUpdate _id id
             (updateData now st (Status_eqb st approved) notes)
             (collection m db)
           = Some (collection m db', updated)).

(** ** Invariants of the stored data *)

(** The ids are pairwise distinct and were all issued before [n]. *)
Definition ids_fresh (n : oid) (ids : list oid) : Prop :=
  NoDup ids /\ forall i, In i ids -> (i < n)%nat.

(** Ids are unique within each collection and below the next id to issue,
    and no two users share a phone. *)
Definition well_formed (db : DB) : Prop :=
  (forall m, ids_fresh (nextId db) (map _id (collection m db)))
  /\ ids_fresh (nextId db) (map User._id (users db))
  /\ NoDup (map User.phone (users db)).

(** The route name of a collection, as the admin endpoints spell it. *)
Definition type_of_model (m : Model) : string :=
  match m with
  | BloodDonorM => "blood-donor"
  | BloodReceiverM => "blood-receiver"
  | OrganDonorM => "organ-donor"
  | OrganReceiverM => "organ-receiver"
  | MoneyDonorM => "money-donor"
  | MoneyReceiverM => "money-receiver"
  end.

(** [d'] is the document [d] with, at most, another verification state. *)
Definition same_submission {F} (d d' : Doc F) : Prop :=
  _id d = _id d' /\ fields d = fields d' /\ submittedAt d = submittedAt d'.

(** The verification fields of a document fit together: an undecided
    document has no decision time, no notes and is not verified; a decided
    one has a decision time. *)
Definition envelope_ok {F} (d : Doc F) : Prop :=
  (verificationStatus d = pending ->
   verifiedAt d = None /\ adminNotes d = "" /\ isVerified d = false)
  /\ (verificationStatus d <> pending -> verifiedAt d <> None).

(** [u'] is the account [u] after some requests: same id, password and
    creation time, and a donation log that extends the old one. *)
Definition same_account (u u' : User.t) : Prop :=
  User._id u' = User._id u
  /\ User.password u' = User.password u
  /\ User.createdAt u' = User.createdAt u
  /\ exists later, User.donations u' = (User.donations u ++ later)%list.


(** The admin endpoints show [d] as the undecided document [id] of
    collection [m]: the detail endpoint answers it, and the pending answer
    lists it. *)
Definition listed_for_review (m : Model) (db : DB) (id : oid)
  (d : Doc (schema m)) : Prop :=
  get_admin_verification db (type_of_model m) (ObjectId id) = AdminJson m d
  /\ _id d = id
  /\ verificationStatus d = pending
  /\ isVerified d = false
  /\ verifiedAt d = None
  /\ exists pv,
      get_admin_pending_verifications db = Json OK pv
      /\ In d (pending_of m pv).


(** The approval gate for a receiver [b] who registers under [phone] in
    [db]: [matching] is the matching query, [db1] the database after the
    registration and [decided status] the database after the admin then
    decides the new document with [status]. *)
Definition approval_gate {R D S : Type}
  (matching : DB -> option string -> Response (Matching S (Doc D)))
  (donors : list (Doc D)) (attribute_of : D -> option string)
  (need_of : R -> option string) (summary : R -> S)
  (db db1 : DB) (decided : string -> DB) (phone : string) (b : R) : Prop :=
  matching db (Some phone)
  = Error NotFound "Receiver registration not found. Please register first."
  /\ matching db1 (Some phone)
     = Json Forbidden
         (NotApproved pending
            "Receiver has not been approved yet. Please wait for admin verification.")
  /\ matching (decided "rejected") (Some phone)
     = Json Forbidden
         (NotApproved rejected
            "Receiver has not been approved yet. Please wait for admin verification.")
  /\ matching (decided "approved") (Some phone)
     = Json OK
         (Matched "Receiver verified. Showing available donors."
            (summary b)
            (List.filter
               (fun d => opt_str_eqb (attribute_of (fields d)) (need_of b)
                         && Status_eqb (verificationStatus d) approved)
               donors)).


(** ** Facts about the queries *)

Lemma findById_key {A} (key : A -> oid) id l d :
  findById key id l = Some d -> In d l /\ key d = id.
Proof.
  unfold findById. intros H. apply find_some in H.
  destruct H as [Hin Hk]. apply Nat.eqb_eq in Hk. auto.
Qed.

Lemma findById_none {A} (key : A -> oid) id l :
  findById key id l = None <-> (forall d, In d l -> key d <> id).
Proof.
  unfold findById. split.
  - intros H d Hin Hk.
    pose proof (find_none _ _ H d Hin) as Hf. simpl in Hf.
    apply Nat.eqb_neq in Hf. contradiction.
  - intros H. induction l as [|a l IH]; simpl; [reflexivity|].
    destruct (Nat.eqb_spec (key a) id) as [e|n].
    + exfalso. apply (H a); [left; reflexivity | exact e].
    + apply IH. intros d Hd. apply H. right. exact Hd.
Qed.

Lemma findByIdAndUpdate_none {A} (key : A -> oid) id upd l :
  findById key id l = None -> findByIdAndUpdate key id upd l = None.
Proof.
  unfold findById. induction l as [|a l IH]; simpl; [reflexivity|].
  destruct (key a =? id)%nat; [discriminate|].
  intros H. rewrite (IH H). reflexivity.
Qed.

Lemma findByIdAndUpdate_some {A} (key : A -> oid) id upd l d :
  (forall x, key (upd x) = key x) ->
  findById key id l = Some d ->
  exists l',
    findByIdAndUpdate key id upd l = Some (l', upd d)
    /\ findById key id l' = Some (upd d)
    /\ List.length l' = List.length l
    /\ (forall j, j <> id -> findById key j l' = findById key j l).
Proof.
  intros Hk. unfold findById. induction l as [|a l IH]; simpl; [discriminate|].
  destruct (Nat.eqb_spec (key a) id) as [e|n].
  - intros [= <-]. exists (upd a :: l). simpl. rewrite Hk.
    split; [reflexivity|].
    split; [destruct (Nat.eqb_spec (key a) id); [reflexivity|contradiction]|].
    split; [reflexivity|].
    intros j Hj.
    destruct (Nat.eqb_spec (key a) j); [congruence | reflexivity].
  - intros H. destruct (IH H) as (l' & E1 & E2 & E3 & E4).
    exists (a :: l'). rewrite E1. simpl.
    split; [reflexivity|].
    split; [destruct (Nat.eqb_spec (key a) id); [contradiction|exact E2]|].
    split; [congruence|].
    intros j Hj. destruct (key a =? j)%nat; [reflexivity | auto].
Qed.

Lemma collection_set_collection m l db :
  collection m (set_collection m l db) = l.
Proof. destruct m; reflexivity. Qed.

Lemma includes_In l s : includes l s = true <-> In s l.
Proof.
  unfold includes. rewrite existsb_exists. split.
  - intros (x & Hin & He). apply String.eqb_eq in He. subst. exact Hin.
  - intros Hin. exists s. split; [exact Hin | apply String.eqb_refl].
Qed.

Lemma model_of_type_In type :
  In type verification_types <-> exists m, model_of_type type = Some m.
Proof.
  unfold model_of_type, verification_types. simpl. split.
  - intros [<-|[<-|[<-|[<-|[<-|[<-|[]]]]]]]; simpl; eauto.
  - intros [m H].
    repeat match type of H with
           | (if ?s =? ?t then _ else _) = _ =>
               destruct (String.eqb_spec s t); [subst; tauto|]
           end.
    discriminate.
Qed.

(** ** Listing *)

(** C8: [listBloodDonors] answers exactly the blood donors whose status is
    approved, in collection order, while [listOrganDonors] answers every
    organ donor document whatever its status. *)
Theorem listing_asymmetry (db : DB) :
  (exists donors,
      get_blood_donors db = Json OK donors
      /\ donors = filter (fun d => Status_eqb (verificationStatus d) approved)
                         (bloodDonors db)
      /\ (forall d, In d donors <->
                    In d (bloodDonors db) /\ verificationStatus d = approved))
  /\ get_organ_donors db = Json OK (organDonors db).
Proof.
  split; [|reflexivity].
  eexists. split; [reflexivity|]. split; [reflexivity|].
  intros d. rewrite filter_In. split; intros [H1 H2]; split; auto.
  - destruct (verificationStatus d); simpl in H2; congruence.
  - rewrite H2. reflexivity.
Qed.

(** ** Administrative verification *)

Lemma status_of_string_decision status :
  In status ["approved"; "rejected"] ->
  exists st, status_of_string status = Some st
             /\ (status =? "approved") = Status_eqb st approved
             /\ st <> pending.
Proof.
  simpl. intros [<-|[<-|[]]]; eexists; (split; [reflexivity|]);
    split; try reflexivity; discriminate.
Qed.

(** C2: [verify(kind, id, status, notes)] answers BadRequest and changes
    nothing when the kind is not one of the six or the status is neither
    approved nor rejected, whatever the id.  Otherwise, when the id is an
    ObjectId, it answers NotFound and changes nothing when the kind's
    collection has no document with the id; and else overwrites
    [verificationStatus] with the status, [verifiedAt] with the current time,
    [isVerified] with [status == approved] and [adminNotes] with the notes
    (empty when absent), keeps every other field, answers the updated
    document, and [getVerificationDetail] of the same kind and id then
    answers that same document. *)
Theorem verify_contract (db : DB) (now : Z) (type : string) (id : oid)
  (status : string) (notes : option string) :
  (forall cid : ClientId,
      ~ In type verification_types \/ ~ In status ["approved"; "rejected"] ->
      fst (post_admin_verify db now type cid status notes) = db
      /\ exists msg,
          snd (post_admin_verify db now type cid status notes)
          = AdminError BadRequest msg)
  /\ let db' :=
       fst (post_admin_verify db now type (ObjectId id) status notes) in
     let res :=
       snd (post_admin_verify db now type (ObjectId id) status notes) in
     forall model,
       model_of_type type = Some model ->
       In status ["approved"; "rejected"] ->
       (findById _id id (collection model db) = None ->
        db' = db /\ res = AdminError NotFound "Record not found")
       /\ (forall d,
             findById _id id (collection model db) = Some d ->
             exists updated,
               res = AdminJson model
                       (mkVerified ("Verification " ++ status ++ " successfully")
                                   updated)
               /\ status_of_string status = Some (verificationStatus updated)
               /\ verifiedAt updated = Some now
               /\ isVerified updated = (status =? "approved")
               /\ adminNotes updated
                  = match notes with Some n => n | None => "" end
               /\ _id updated = id
               /\ fields updated = fields d
               /\ submittedAt updated = submittedAt d
               /\ get_admin_verification db' type (ObjectId id)
                  = AdminJson model updated).
Proof.
  split.
  - intros cid H. unfold post_admin_verify.
    destruct (includes verification_types type) eqn:E1; cbn [negb fst snd];
      [|split; [reflexivity | eauto]].
    destruct (includes ["approved"; "rejected"] status) eqn:E2;
      cbn [negb fst snd]; [|split; [reflexivity | eauto]].
    apply includes_In in E1, E2.
    destruct H as [H|H]; [destruct (H E1) | destruct (H E2)].
  - cbv zeta. unfold post_admin_verify. intros model Hm Hs.
    assert (Ht : includes verification_types type = true).
    { apply includes_In, model_of_type_In. eauto. }
    assert (Hs' : includes ["approved"; "rejected"] status = true).
    { apply includes_In. exact Hs. }
    rewrite Ht, Hs'. cbn [negb]. rewrite Hm.
    destruct (status_of_string_decision status Hs) as (st & Est & Eapp & _).
    rewrite Est. split.
    + intros Hnone.
      rewrite (findByIdAndUpdate_none _ _ _ _ Hnone). cbn [fst snd]. auto.
    + intros d Hd.
      destruct (findByIdAndUpdate_some _id id
                  (updateData now st (status =? "approved") notes)
                  (collection model db) d (fun x => eq_refl) Hd)
        as (l' & E1 & E2 & _ & _).
      rewrite E1. cbn [fst snd].
      exists (updateData now st (status =? "approved") notes d).
      destruct (findById_key _ _ _ _ Hd) as [_ Hid].
      repeat (split; [try reflexivity|]).
      * simpl. destruct notes as [n|]; [|reflexivity]. simpl.
        destruct (String.eqb_spec n ""); [subst|]; reflexivity.
      * exact Hid.
      * unfold get_admin_verification. rewrite Ht. cbn [negb].
        rewrite Hm, collection_set_collection, E2. reflexivity.
Qed.

(** ** Login *)

(** C9: [login] answers Unauthorized when no user has the phone and when the
    hash comparison fails, with one and the same message; when the
    comparison succeeds it answers the user's id, name, phone, photo,
    creation time and donation log, a record that has no password field. *)
Theorem login_contract (db : DB) (phone password : string) :
  let res := post_login db phone password in
  ((forall u, In u (users db) -> User.phone u <> phone) ->
   res = Error Unauthorized "Invalid phone number or password")
  /\ (forall user,
        find (fun u => User.phone u =? phone) (users db) = Some user ->
        bcrypt_compare password (User.password user) = false ->
        res = Error Unauthorized "Invalid phone number or password")
  /\ (forall user,
        find (fun u => User.phone u =? phone) (users db) = Some user ->
        bcrypt_compare password (User.password user) = true ->
        exists r,
          res = Json OK (mkLoggedIn "Login successful" r)
          /\ ur_id r = User._id user
          /\ ur_name r = User.name user
          /\ ur_phone r = User.phone user
          /\ ur_profilePhoto r = User.profilePhoto user
          /\ ur_createdAt r = User.createdAt user
          /\ ur_donations r = User.donations user).
Proof.
  cbv zeta. unfold post_login. repeat split.
  - intros Hno.
    destruct (find (fun u => User.phone u =? phone) (users db)) as [u|] eqn:E;
      [|reflexivity].
    apply find_some in E. destruct E as [Hin He].
    apply String.eqb_eq in He. exfalso. exact (Hno u Hin He).
  - intros user -> ->. reflexivity.
  - intros user -> ->. exists (userResponse user). repeat split.
Qed.

(** ** Blood donor submission *)

Lemma age_rule (x : jsnum) :
  js_isNaN x || js_lt x 18 || js_gt x 65 = false <-> in_range x 18 65.
Proof.
  unfold in_range. destruct x as [|q| |]; simpl.
  - split; [discriminate | intros (q & H & _); discriminate].
  - rewrite orb_false_iff, !negb_false_iff, !Qle_bool_iff. split.
    + intros [H1 H2]. exists q. auto.
    + intros (q' & [= <-] & H1 & H2). auto.
  - split; [discriminate | intros (q & H & _); discriminate].
  - split; [discriminate | intros (q & H & _); discriminate].
Qed.

Lemma weight_rule (x : jsnum) :
  js_isNaN x || js_lt x 50 = false <-> at_least x 50.
Proof.
  unfold at_least. destruct x as [|q| |]; simpl.
  - split; [discriminate | intros [H|(q & H & _)]; discriminate].
  - rewrite negb_false_iff, Qle_bool_iff. split.
    + intros H. right. exists q. auto.
    + intros [H|(q' & [= <-] & H)]; [discriminate | exact H].
  - split; [auto | reflexivity].
  - split; [discriminate | intros [H|(q & H & _)]; discriminate].
Qed.


(** The answer of the blood donor handler, rule by rule. *)
Lemma post_blood_donor_answer (db : DB) (now : Z) (b : BloodDonorBody.t) :
  snd (post_blood_donor db now b) =
  if negb (blood_required_present b)
  then Error BadRequest "Missing required fields"
  else if negb (phone_regex_opt (BloodDonorBody.phone b))
  then Error BadRequest "Invalid phone number format"
  else if js_isNaN (Number (BloodDonorBody.age b))
          || js_lt (Number (BloodDonorBody.age b)) 18
          || js_gt (Number (BloodDonorBody.age b)) 65
  then Error BadRequest "Age must be between 18 and 65"
  else if js_isNaN (Number (BloodDonorBody.weight b))
          || js_lt (Number (BloodDonorBody.weight b)) 50
  then Error BadRequest "Weight must be at least 50 kg"
  else match last_donation_check now (BloodDonorBody.hasDonatedBefore b)
               (BloodDonorBody.lastDonationDate b) with
       | inl e => Error BadRequest e
       | inr _ =>
           Json Created
             (mkSubmitted "Blood donor registration submitted for verification"
                          (nextId db) "pending_verification")
       end.
Proof.
  unfold post_blood_donor, blood_required_present. cbv zeta.
  destruct (truthy_str (BloodDonorBody.name b)),
    (truthy_str (BloodDonorBody.phone b)), (truthy (BloodDonorBody.age b)),
    (truthy (BloodDonorBody.weight b)),
    (truthy_str (BloodDonorBody.bloodGroup b)); cbn [negb orb andb];
    try reflexivity.
  destruct (phone_regex_opt (BloodDonorBody.phone b)); cbn [negb];
    [|reflexivity].
  destruct (js_isNaN (Number (BloodDonorBody.age b))
            || js_lt (Number (BloodDonorBody.age b)) 18
            || js_gt (Number (BloodDonorBody.age b)) 65); [reflexivity|].
  destruct (js_isNaN (Number (BloodDonorBody.weight b))
            || js_lt (Number (BloodDonorBody.weight b)) 50); [reflexivity|].
  destruct (last_donation_check now (BloodDonorBody.hasDonatedBefore b)
              (BloodDonorBody.lastDonationDate b)); reflexivity.
Qed.

Lemma Qeq_in_range q z lo hi :
  (q == inject_Z z)%Q -> (lo <= z <= hi)%Z -> in_range (Fin q) lo hi.
Proof.
  intros E [H1 H2]. exists q. split; [reflexivity|].
  rewrite E, <- !Zle_Qle. auto.
Qed.

Lemma Qeq_not_in_range q z lo hi :
  (q == inject_Z z)%Q -> (z < lo \/ hi < z)%Z -> ~ in_range (Fin q) lo hi.
Proof.
  intros E Hz (q' & [= <-] & H1 & H2).
  rewrite E, <- Zle_Qle in H1, H2. lia.
Qed.

(** C5: a blood donor submission is answered 201 with status
    [pending_verification] only when name, phone, age, weight and blood
    group are present (truthy), the phone is exactly ten digits, the age is
    a number between 18 and 65 and the weight a number of at least 50.  When
    one of these rules fails the answer is BadRequest with the message of
    the first rule that fails, in the order just given; when all hold the
    answer is decided by the last-donation rule alone.  Ages 17 and 66 are
    rejected; ages 18 and 65 are accepted when the other rules hold and the
    donor has not donated before. *)
Theorem blood_donor_validation (db : DB) (now : Z) (b : BloodDonorBody.t) :
  let res := snd (post_blood_donor db now b) in
  let phone_ok := phone_regex_opt (BloodDonorBody.phone b) in
  let ageNum := Number (BloodDonorBody.age b) in
  let weightNum := Number (BloodDonorBody.weight b) in
  (forall body,
      res = Json Created body ->
      sub_status body = "pending_verification"
      /\ blood_required_present b = true
      /\ phone_ok = true
      /\ in_range ageNum 18 65
      /\ at_least weightNum 50)
  /\ (blood_required_present b = false ->
      res = Error BadRequest "Missing required fields")
  /\ (blood_required_present b = true -> phone_ok = false ->
      res = Error BadRequest "Invalid phone number format")
  /\ (blood_required_present b = true -> phone_ok = true ->
      ~ in_range ageNum 18 65 ->
      res = Error BadRequest "Age must be between 18 and 65")
  /\ (blood_required_present b = true -> phone_ok = true ->
      in_range ageNum 18 65 -> ~ at_least weightNum 50 ->
      res = Error BadRequest "Weight must be at least 50 kg")
  /\ (blood_required_present b = true -> phone_ok = true ->
      in_range ageNum 18 65 -> at_least weightNum 50 ->
      match last_donation_check now (BloodDonorBody.hasDonatedBefore b)
              (BloodDonorBody.lastDonationDate b) with
      | inl e => res = Error BadRequest e
      | inr _ =>
          res = Json Created
                  (mkSubmitted
                     "Blood donor registration submitted for verification"
                     (nextId db) "pending_verification")
      end)
  /\ (forall q,
        ageNum = Fin q -> (q == inject_Z 17 \/ q == inject_Z 66)%Q ->
        exists msg, res = Error BadRequest msg)
  /\ (forall q,
        ageNum = Fin q -> (q == inject_Z 18 \/ q == inject_Z 65)%Q ->
        blood_required_present b = true -> phone_ok = true ->
        at_least weightNum 50 ->
        truthy (BloodDonorBody.hasDonatedBefore b) = false ->
        exists id,
          res = Json Created
                  (mkSubmitted
                     "Blood donor registration submitted for verification"
                     id "pending_verification")).
Proof.
  cbv zeta. rewrite post_blood_donor_answer.
  pose proof (age_rule (Number (BloodDonorBody.age b))) as Hage.
  pose proof (weight_rule (Number (BloodDonorBody.weight b))) as Hweight.
  destruct (blood_required_present b) eqn:Ep; cbn [negb].
  2: { repeat split; try discriminate; try reflexivity.
       intros q _ _. eauto. }
  destruct (phone_regex_opt (BloodDonorBody.phone b)) eqn:Eph; cbn [negb].
  2: { repeat split; try discriminate; try reflexivity.
       intros q _ _. eauto. }
  destruct (js_isNaN (Number (BloodDonorBody.age b))
            || js_lt (Number (BloodDonorBody.age b)) 18
            || js_gt (Number (BloodDonorBody.age b)) 65) eqn:Ea.
  { assert (Hn : ~ in_range (Number (BloodDonorBody.age b)) 18 65).
    { intros H. apply Hage in H. discriminate. }
    repeat split; try discriminate; try reflexivity; try tauto.
    - intros q _ _. eauto.
    - intros q Eq [H|H] _ _ _ _; exfalso; apply Hn; rewrite Eq;
        eapply Qeq_in_range; eauto; lia. }
  assert (Hin : in_range (Number (BloodDonorBody.age b)) 18 65)
    by (apply Hage; reflexivity).
  destruct (js_isNaN (Number (BloodDonorBody.weight b))
            || js_lt (Number (BloodDonorBody.weight b)) 50) eqn:Ew.
  { assert (Hn : ~ at_least (Number (BloodDonorBody.weight b)) 50).
    { intros H. apply Hweight in H. discriminate. }
    repeat split; try discriminate; try reflexivity; try tauto.
    intros q _ _. eauto. }
  assert (Hw : at_least (Number (BloodDonorBody.weight b)) 50)
    by (apply Hweight; reflexivity).
  remember (last_donation_check now (BloodDonorBody.hasDonatedBefore b)
              (BloodDonorBody.lastDonationDate b)) as chk eqn:Echk.
  repeat split; try discriminate; try tauto.
  - match goal with
    | H : _ = Json Created _ |- _ =>
        destruct chk; [discriminate H|]; injection H as <-
    end.
    reflexivity.
  - intros _ _ _ _. destruct chk; reflexivity.
  - intros q Eq [H|H]; exfalso; rewrite Eq in Hin;
      revert Hin; eapply Qeq_not_in_range; eauto; lia.
  - intros q _ _ _ _ _ Hd. unfold last_donation_check in Echk.
    rewrite Hd in Echk. subst chk. eauto.
Qed.

(** The effect of the blood donor handler on the database. *)
Lemma post_blood_donor_state (db : DB) (now : Z) (b : BloodDonorBody.t) :
  (fst (post_blood_donor db now b) = db
   /\ exists msg, snd (post_blood_donor db now b) = Error BadRequest msg)
  \/ (exists f,
        fst (post_blood_donor db now b)
        = save_new BloodDonorM (new_doc BloodDonorM db now f) db
        /\ snd (post_blood_donor db now b)
           = Json Created
               (mkSubmitted "Blood donor registration submitted for verification"
                            (nextId db) "pending_verification")).
Proof.
  unfold post_blood_donor. cbv zeta.
  repeat match goal with
         | |- context [if ?c then _ else _] =>
             destruct c; [left; split; [reflexivity | eexists; reflexivity]|]
         end.
  destruct (last_donation_check now (BloodDonorBody.hasDonatedBefore b)
              (BloodDonorBody.lastDonationDate b)).
  - left. split; [reflexivity | eexists; reflexivity].
  - right. eexists. split; reflexivity.
Qed.

(** C10: a blood donor submission leaves every user document, and every
    collection other than the blood donors, as it was, whatever [userId] the
    body carries; the handler's result does not depend on that field.  When
    the submission is accepted exactly one document is appended to the blood
    donors, and otherwise the database is unchanged. *)
Theorem blood_donor_leaves_users (db : DB) (now : Z) (b : BloodDonorBody.t) :
  let db' := fst (post_blood_donor db now b) in
  let res := snd (post_blood_donor db now b) in
  users db' = users db
  /\ bloodReceivers db' = bloodReceivers db
  /\ organDonors db' = organDonors db
  /\ organReceivers db' = organReceivers db
  /\ moneyDonors db' = moneyDonors db
  /\ moneyReceivers db' = moneyReceivers db
  /\ (forall body,
        res = Json Created body ->
        exists donor,
          bloodDonors db' = (bloodDonors db ++ [donor])%list
          /\ _id donor = sub_id body)
  /\ ((forall body, res <> Json Created body) -> db' = db)
  /\ (forall u,
        post_blood_donor db now (blood_body_with_userId u b)
        = post_blood_donor db now b).
Proof.
  cbv zeta.
  destruct (post_blood_donor_state db now b) as [[E1 [msg E2]]|(f & E1 & E2)];
    rewrite E1, E2.
  - repeat split; try reflexivity. discriminate.
  - repeat split; try reflexivity.
    + intros body [= <-]. eexists. split; reflexivity.
    + intros H. exfalso. eapply H. reflexivity.
Qed.

(** ** The last-donation rule *)

Lemma post_organ_donor_answer (db : DB) (now : Z) (b : OrganDonorBody.t) :
  snd (post_organ_donor db now b) =
  if negb (organ_required_present b)
  then Error BadRequest "Missing required fields"
  else if negb (phone_regex_opt (OrganDonorBody.phone b))
  then Error BadRequest "Invalid phone number format"
  else if js_isNaN (Number (OrganDonorBody.weight b))
          || js_lt (Number (OrganDonorBody.weight b)) 50
  then Error BadRequest "Weight must be at least 50 kg"
  else match last_donation_check now (OrganDonorBody.hasDonatedBefore b)
               (OrganDonorBody.lastDonationDate b) with
       | inl e => Error BadRequest e
       | inr _ =>
           if castable (OrganDonorBody.userId b)
           then Json Created
                  (mkSubmitted
                     "Organ donor registration submitted for verification"
                     (nextId db) "pending_verification")
           else Thrown
       end.
Proof.
  unfold post_organ_donor, organ_required_present. cbv zeta.
  destruct (truthy_str (OrganDonorBody.name b)),
    (truthy_str (OrganDonorBody.phone b)),
    (truthy_str (OrganDonorBody.organType b)),
    (truthy_str (OrganDonorBody.conditionStatus b)),
    (truthy (OrganDonorBody.weight b)); cbn [negb orb andb];
    try reflexivity.
  destruct (phone_regex_opt (OrganDonorBody.phone b)); cbn [negb];
    [|reflexivity].
  destruct (js_isNaN (Number (OrganDonorBody.weight b))
            || js_lt (Number (OrganDonorBody.weight b)) 50); [reflexivity|].
  destruct (last_donation_check now (OrganDonorBody.hasDonatedBefore b)
              (OrganDonorBody.lastDonationDate b)); [reflexivity|].
  destruct (OrganDonorBody.userId b) as [[uid|]|]; try reflexivity.
  cbn [castable].
  match goal with
  | |- context [findById User._id uid ?us] =>
      destruct (findById User._id uid us); reflexivity
  end.
Qed.




(** ** The donation log *)

Lemma findByIdAndUpdate_split {A} (key : A -> oid) id upd l d :
  findById key id l = Some d ->
  exists l1 l2,
    l = (l1 ++ d :: l2)%list
    /\ (forall x, In x l1 -> key x <> id)
    /\ findByIdAndUpdate key id upd l = Some ((l1 ++ upd d :: l2)%list, upd d).
Proof.
  unfold findById. induction l as [|a l IH]; simpl; [discriminate|].
  destruct (Nat.eqb_spec (key a) id) as [e|n].
  - intros [= <-]. exists [], l. simpl. repeat split. intros x [].
  - intros H. destruct (IH H) as (l1 & l2 & E1 & E2 & E3).
    exists (a :: l1), l2. rewrite E3. simpl. repeat split.
    + congruence.
    + intros x [<-|Hx]; auto.
Qed.

Lemma push_donation_log_effect (uid : oid) (entry : Donation.t) (db : DB)
  (user : User.t) :
  findById User._id uid (users db) = Some user ->
  exists before after,
    users db = (before ++ user :: after)%list
    /\ (forall x, In x before -> User._id x <> uid)
    /\ users (push_donation uid entry db)
       = (before ++ add_donation entry user :: after)%list.
Proof.
  intros H. unfold push_donation.
  destruct (findByIdAndUpdate_split User._id uid (add_donation entry)
              (users db) user H) as (l1 & l2 & E1 & E2 & E3).
  rewrite E3. exists l1, l2. repeat split; auto.
Qed.

Lemma push_donation_collection (m : Model) uid entry db :
  collection m (push_donation uid entry db) = collection m db.
Proof.
  unfold push_donation.
  destruct (findByIdAndUpdate User._id uid (add_donation entry) (users db))
    as [[us u]|]; destruct m; reflexivity.
Qed.

Lemma post_organ_donor_eligible (db : DB) (now : Z) (b : OrganDonorBody.t) :
  organ_donor_eligible now b ->
  exists f,
    let donor := new_doc OrganDonorM db now f in
    let db1 := save_new OrganDonorM donor db in
    let created :=
      Json Created
        (mkSubmitted "Organ donor registration submitted for verification"
                     (_id donor) "pending_verification") in
    post_organ_donor db now b =
    match OrganDonorBody.userId b with
    | Some (ObjectId userId) =>
        match findById User._id userId (users db1) with
        | Some _ =>
            (push_donation userId
               (Donation.organ (_id donor) (OrganDonor.name f)
                  (OrganDonor.phone f) (OrganDonor.organType f)
                  (OrganDonor.conditionStatus f) now "pending_verification")
               db1,
             created)
        | None => (db1, created)
        end
    | Some NotObjectId => (db1, Thrown)
    | None => (db1, created)
    end.
Proof.
  intros ((Hp & Hph & Hw) & lastDate & Hc).
  unfold organ_required_present in Hp.
  repeat (apply andb_prop in Hp; destruct Hp as [Hp ?]).
  apply weight_rule in Hw.
  unfold post_organ_donor. cbv zeta.
  repeat match goal with
         | H : _ = true |- _ => rewrite H; clear H
         end.
  rewrite Hw, Hc. cbn [negb orb].
  eexists. reflexivity.
Qed.

(** The users after the lookup of a castable [userId] and the push that
    follows it. *)
Lemma lookup_log_effect (uid donorId : oid) (entry : Donation.t)
  (db1 : DB) (us : list User.t) :
  users db1 = us ->
  Donation.status entry = "pending_verification" ->
  Donation.donorId entry = donorId ->
  log_effect (Some (ObjectId uid)) donorId us
    (users (match findById User._id uid (users db1) with
            | Some _ => push_donation uid entry db1
            | None => db1
            end)).
Proof.
  intros <- Hst Hid. unfold log_effect. split; [|split].
  - intros uid' user [= <-] Hu. rewrite Hu.
    destruct (push_donation_log_effect uid entry db1 user Hu)
      as (before & after & E1 & E2 & E3).
    exists entry, before, after.
    split; [exact Hst|]. split; [exact Hid|]. split; [exact E1|].
    split; [exact E2|]. split; [exact E3|reflexivity].
  - discriminate.
  - intros uid' [= <-] Hu. rewrite Hu. reflexivity.
Qed.

Lemma no_lookup_log_effect (donorId : oid) (us : list User.t) :
  log_effect None donorId us us.
Proof.
  unfold log_effect. split; [|split]; try discriminate. reflexivity.
Qed.

(** C7: an organ donor submission that passes its rules, and every money
    donor submission, whose [userId] is absent or is an ObjectId, appends one
    donor document and answers 201 with status [pending_verification]; when
    the [userId] resolves to a user, exactly one entry with status
    [pending_verification] is appended to that user's donation log and no
    other user document changes; when it is absent, or is an ObjectId that
    resolves to nobody, the answer is the same 201 and the users are
    unchanged. *)
Theorem donation_log_best_effort (db : DB) (now : Z)
  (ob : OrganDonorBody.t) (mb : MoneyDonorBody.t) :
  (organ_donor_eligible now ob ->
   castable (OrganDonorBody.userId ob) = true ->
   exists donor,
     organDonors (fst (post_organ_donor db now ob))
     = (organDonors db ++ [donor])%list
     /\ snd (post_organ_donor db now ob)
        = Json Created
            (mkSubmitted "Organ donor registration submitted for verification"
                         (_id donor) "pending_verification")
     /\ log_effect (OrganDonorBody.userId ob) (_id donor)
          (users db) (users (fst (post_organ_donor db now ob))))
  /\ (castable (MoneyDonorBody.userId mb) = true ->
      exists donor,
        moneyDonors (fst (post_money_donor db now mb))
        = (moneyDonors db ++ [donor])%list
        /\ snd (post_money_donor db now mb)
           = Json Created
               (mkSubmitted "Money donation submitted for verification"
                            (_id donor) "pending_verification")
        /\ log_effect (MoneyDonorBody.userId mb) (_id donor)
             (users db) (users (fst (post_money_donor db now mb)))).
Proof.
  split.
  - intros He Hc. destruct (post_organ_donor_eligible db now ob He) as [f E].
    cbv zeta in E. rewrite E. clear E.
    exists (new_doc OrganDonorM db now f).
    destruct (OrganDonorBody.userId ob) as [[uid|]|];
      [|discriminate Hc|].
    + pose proof (lookup_log_effect uid (nextId db)
                    (Donation.organ (nextId db) (OrganDonor.name f)
                       (OrganDonor.phone f) (OrganDonor.organType f)
                       (OrganDonor.conditionStatus f) now "pending_verification")
                    (save_new OrganDonorM (new_doc OrganDonorM db now f) db)
                    (users db) eq_refl eq_refl eq_refl) as Hlog.
      revert Hlog.
      destruct (findById User._id uid
                  (users (save_new OrganDonorM (new_doc OrganDonorM db now f) db)));
        intros Hlog; cbn [fst snd].
      * split; [exact (push_donation_collection OrganDonorM _ _ _)|].
        split; [reflexivity | exact Hlog].
      * split; [reflexivity|]. split; [reflexivity | exact Hlog].
    + cbn [fst snd]. split; [reflexivity|]. split; [reflexivity|].
      apply no_lookup_log_effect.
  - intros Hc. unfold post_money_donor. cbv zeta.
    exists (new_doc MoneyDonorM db now
              (MoneyDonor.mk (MoneyDonorBody.donorName mb)
                 (MoneyDonorBody.amount mb) (MoneyDonorBody.paymentMethod mb)
                 (MoneyDonorBody.verificationFile mb) now)).
    destruct (MoneyDonorBody.userId mb) as [[uid|]|];
      [|discriminate Hc|].
    + match goal with
      | |- context [findById User._id uid (users ?d)] =>
          pose proof (lookup_log_effect uid (nextId db)
                        (Donation.money (nextId db)
                           (MoneyDonorBody.donorName mb)
                           (MoneyDonorBody.amount mb)
                           (MoneyDonorBody.paymentMethod mb) now
                           "pending_verification")
                        d (users db) eq_refl eq_refl eq_refl) as Hlog;
          revert Hlog; destruct (findById User._id uid (users d));
          intros Hlog; cbn [fst snd]
      end.
      * split; [exact (push_donation_collection MoneyDonorM _ _ _)|].
        split; [reflexivity | exact Hlog].
      * split; [reflexivity|]. split; [reflexivity | exact Hlog].
    + cbn [fst snd]. split; [reflexivity|]. split; [reflexivity|].
      apply no_lookup_log_effect.
Qed.

(** ** Matching *)

Section FindOneSorted.

Context {A : Type} (before : A -> A -> bool) (filter : A -> bool).
Hypothesis before_asym : forall a b, before a b = true -> before b a = false.
Hypothesis before_negtrans :
  forall a b c, before a c = true -> before a b = true \/ before b c = true.

Let pick (best : option A) (d : A) : option A :=
  if filter d then
    match best with
    | None => Some d
    | Some b => if before d b then Some d else Some b
    end
  else best.

Lemma before_irrefl a : before a a = false.
Proof.
  destruct (before a a) eqn:E; [|reflexivity].
  pose proof (before_asym a a E). congruence.
Qed.

Lemma fold_pick_some l : forall acc r,
  (forall b, acc = Some b -> filter b = true) ->
  fold_left pick l acc = Some r ->
  filter r = true
  /\ (acc = Some r \/ In r l)
  /\ (forall x, In x l -> filter x = true -> before x r = false)
  /\ (forall b, acc = Some b -> before b r = false).
Proof.
  induction l as [|a l IH]; intros acc r Hacc Hf; simpl in Hf.
  - subst acc. split; [|split; [|split]].
    + apply Hacc. reflexivity.
    + left. reflexivity.
    + intros x [].
    + intros b [= ->]. apply before_irrefl.
  - assert (Hpick : forall b, pick acc a = Some b -> filter b = true).
    { intros b. unfold pick. destruct (filter a) eqn:Fa; [|apply Hacc].
      destruct acc as [c|].
      - destruct (before a c); intros [= <-]; auto.
      - intros [= <-]. exact Fa. }
    destruct (IH (pick acc a) r Hpick Hf) as (H1 & H2 & H3 & H4).
    split; [exact H1|]. unfold pick in H2, H4.
    destruct (filter a) eqn:Fa.
    + destruct acc as [b|].
      * destruct (before a b) eqn:Bab.
        -- pose proof (H4 a eq_refl) as Bar.
           split; [|split].
           ++ right. destruct H2 as [[= <-]|H2]; [left|right]; auto.
           ++ intros x [<-|Hx] Fx; auto.
           ++ intros b' [= <-].
              destruct (before b r) eqn:Bbr; [|reflexivity].
              destruct (before_negtrans b a r Bbr) as [Bba|Bar']; [|congruence].
              pose proof (before_asym a b Bab). congruence.
        -- pose proof (H4 b eq_refl) as Bbr.
           split; [|split].
           ++ destruct H2 as [H2|H2]; [left|right; right]; auto.
           ++ intros x [Hxa|Hx] Fx; auto. subst x.
              destruct (before a r) eqn:Bxr; [|reflexivity].
              destruct (before_negtrans a b r Bxr); congruence.
           ++ intros b' [= <-]. exact Bbr.
      * split; [|split].
        -- right. destruct H2 as [[= <-]|H2]; [left|right]; auto.
        -- intros x [<-|Hx] Fx; auto.
        -- discriminate.
    + split; [|split].
      * destruct H2 as [H2|H2]; [left|right; right]; auto.
      * intros x [<-|Hx] Fx; [congruence | auto].
      * exact H4.
Qed.

Lemma fold_pick_none l : forall acc,
  fold_left pick l acc = None ->
  acc = None /\ (forall x, In x l -> filter x = false).
Proof.
  induction l as [|a l IH]; intros acc Hf; simpl in Hf.
  - split; [exact Hf | intros x []].
  - destruct (IH _ Hf) as [Hp Hl]. unfold pick in Hp.
    destruct (filter a) eqn:Fa.
    + destruct acc as [b|]; [destruct (before a b)|]; discriminate.
    + split; [exact Hp|]. intros x [<-|Hx]; auto.
Qed.

Lemma findOneSorted_some l r :
  findOneSorted before filter l = Some r ->
  In r l /\ filter r = true
  /\ (forall x, In x l -> filter x = true -> before x r = false).
Proof.
  intros H. destruct (fold_pick_some l None r) as (H1 & H2 & H3 & _).
  - discriminate.
  - exact H.
  - destruct H2 as [H2|H2]; [discriminate|]. auto.
Qed.

Lemma findOneSorted_none l :
  findOneSorted before filter l = None <-> (forall x, In x l -> filter x = false).
Proof.
  split.
  - intros H. apply (fold_pick_none l None). exact H.
  - intros Hall. destruct (findOneSorted before filter l) as [r|] eqn:E;
      [|reflexivity].
    apply findOneSorted_some in E. destruct E as (Hin & Fr & _).
    rewrite (Hall r Hin) in Fr. discriminate.
Qed.

End FindOneSorted.

Ltac order_cases :=
  unfold by_verifiedAt_submittedAt, by_submittedAt, date_gt, date_eq,
    not_more_recent, date_le;
  repeat match goal with
         | |- context [verifiedAt ?d] => destruct (verifiedAt d)
         end;
  cbn [orb andb];
  rewrite ?orb_true_iff, ?andb_true_iff, ?orb_false_iff, ?andb_false_iff,
    ?Z.ltb_lt, ?Z.ltb_ge, ?Z.eqb_eq, ?Z.eqb_neq;
  intros;
  repeat match goal with
         | H : Some _ = Some _ |- _ => injection H as H
         | H : _ /\ _ |- _ => destruct H
         | H : _ \/ _ |- _ => destruct H
         | |- _ /\ _ => split
         | |- _ -> _ => intro
         end;
  try discriminate; try tauto; try lia.

Lemma by_submittedAt_asym {F} (a b : Doc F) :
  by_submittedAt a b = true -> by_submittedAt b a = false.
Proof. order_cases. Qed.

Lemma by_submittedAt_negtrans {F} (a b c : Doc F) :
  by_submittedAt a c = true ->
  by_submittedAt a b = true \/ by_submittedAt b c = true.
Proof. order_cases. Qed.

Lemma by_submittedAt_false {F} (r best : Doc F) :
  by_submittedAt r best = false -> (submittedAt r <= submittedAt best)%Z.
Proof. order_cases. Qed.

Lemma by_verifiedAt_submittedAt_asym {F} (a b : Doc F) :
  by_verifiedAt_submittedAt a b = true -> by_verifiedAt_submittedAt b a = false.
Proof. order_cases. Qed.

Lemma by_verifiedAt_submittedAt_negtrans {F} (a b c : Doc F) :
  by_verifiedAt_submittedAt a c = true ->
  by_verifiedAt_submittedAt a b = true \/ by_verifiedAt_submittedAt b c = true.
Proof. order_cases. Qed.

Lemma by_verifiedAt_submittedAt_false {F} (r best : Doc F) :
  by_verifiedAt_submittedAt r best = false -> not_more_recent r best.
Proof. order_cases. Qed.

Lemma opt_str_eqb_eq (a b : option string) : opt_str_eqb a b = true <-> a = b.
Proof.
  destruct a as [x|], b as [y|]; simpl; try (split; congruence).
  rewrite String.eqb_eq. split; congruence.
Qed.

Lemma Status_eqb_eq (a b : Status) : Status_eqb a b = true <-> a = b.
Proof. destruct a, b; simpl; split; congruence. Qed.

Lemma phone_regex_truthy (p : string) :
  phone_regex p = true -> truthy_str (Some p) = true.
Proof. destruct p; [discriminate | reflexivity]. Qed.

Lemma blood_matching (db : DB) (phone : string) :
  phone_regex phone = true ->
  matching_contract (bloodReceivers db) (bloodDonors db)
    BloodReceiver.phone BloodReceiver.bloodNeed BloodDonor.bloodGroup
    blood_receiver_summary phone
    (get_blood_receiver_matching_donors db (Some phone)).
Proof.
  intros Hph. unfold matching_contract, blood_receiver_summary. cbv zeta.
  unfold get_blood_receiver_matching_donors.
  rewrite (phone_regex_truthy phone Hph). cbn [phone_regex_opt].
  rewrite Hph. cbn [negb orb].
  set (fa := fun r : Doc BloodReceiver.t =>
               opt_str_eqb (BloodReceiver.phone (fields r)) (Some phone)
               && Status_eqb (verificationStatus r) approved).
  set (fp := fun r : Doc BloodReceiver.t =>
               opt_str_eqb (BloodReceiver.phone (fields r)) (Some phone)).
  destruct (findOneSorted by_verifiedAt_submittedAt fa (bloodReceivers db))
    as [receiver|] eqn:Ea.
  - apply (findOneSorted_some _ _ by_verifiedAt_submittedAt_asym
             by_verifiedAt_submittedAt_negtrans) in Ea.
    destruct Ea as (Hin & Hfa & Hbest). unfold fa in Hfa.
    apply andb_prop in Hfa. destruct Hfa as [Hp Hs].
    apply opt_str_eqb_eq in Hp. apply Status_eqb_eq in Hs.
    split; [|split].
    + intros Hno. exfalso. apply (Hno receiver). auto.
    + intros _ Hnone. exfalso. apply (Hnone receiver); auto.
    + intros _. eexists receiver, _.
      split; [auto|]. split; [exact Hs|]. split.
      { intros r [Hr Hrp] Hrs. apply by_verifiedAt_submittedAt_false.
        apply Hbest; [exact Hr|]. unfold fa.
        apply andb_true_intro. split;
          [apply opt_str_eqb_eq; exact Hrp | apply Status_eqb_eq; exact Hrs]. }
      split; [reflexivity|]. split; [reflexivity|].
      intros d. rewrite filter_In, andb_true_iff, opt_str_eqb_eq, Status_eqb_eq.
      reflexivity.
  - pose proof (proj1 (findOneSorted_none _ _ by_verifiedAt_submittedAt_asym
                         by_verifiedAt_submittedAt_negtrans _) Ea) as Hna.
    assert (Hnone : forall r,
               In r (bloodReceivers db) ->
               BloodReceiver.phone (fields r) = Some phone ->
               verificationStatus r <> approved).
    { intros r Hr Hrp Hrs. specialize (Hna r Hr). unfold fa in Hna.
      apply opt_str_eqb_eq in Hrp. apply Status_eqb_eq in Hrs.
      rewrite Hrp, Hrs in Hna. discriminate. }
    destruct (findOneSorted by_submittedAt fp (bloodReceivers db))
      as [latest|] eqn:El.
    + apply (findOneSorted_some _ _ by_submittedAt_asym
               by_submittedAt_negtrans) in El.
      destruct El as (Hin & Hfp & Hbest). unfold fp in Hfp.
      apply opt_str_eqb_eq in Hfp.
      split; [|split].
      * intros Hno. exfalso. apply (Hno latest). auto.
      * intros _ _. exists latest. split; [auto|]. split; [|reflexivity].
        intros r [Hr Hrp]. apply by_submittedAt_false. apply Hbest; [exact Hr|].
        unfold fp. apply opt_str_eqb_eq. exact Hrp.
      * intros (r & [Hr Hrp] & Hrs). exfalso. exact (Hnone r Hr Hrp Hrs).
    + pose proof (proj1 (findOneSorted_none _ _ by_submittedAt_asym
                           by_submittedAt_negtrans _) El) as Hnl.
      assert (Hno : forall r,
                 In r (bloodReceivers db) ->
                 BloodReceiver.phone (fields r) <> Some phone).
      { intros r Hr Hrp. specialize (Hnl r Hr). unfold fp in Hnl.
        apply opt_str_eqb_eq in Hrp. rewrite Hrp in Hnl. discriminate. }
      split; [|split].
      * reflexivity.
      * intros (r & Hr & Hrp). exfalso. exact (Hno r Hr Hrp).
      * intros (r & [Hr Hrp] & _). exfalso. exact (Hno r Hr Hrp).
Qed.

Lemma organ_matching (db : DB) (phone : string) :
  phone_regex phone = true ->
  matching_contract (organReceivers db) (organDonors db)
    OrganReceiver.phone OrganReceiver.organNeed OrganDonor.organType
    organ_receiver_summary phone
    (get_organ_receiver_matching_donors db (Some phone)).
Proof.
  intros Hph. unfold matching_contract, organ_receiver_summary. cbv zeta.
  unfold get_organ_receiver_matching_donors.
  rewrite (phone_regex_truthy phone Hph). cbn [phone_regex_opt].
  rewrite Hph. cbn [negb orb].
  set (fa := fun r : Doc OrganReceiver.t =>
               opt_str_eqb (OrganReceiver.phone (fields r)) (Some phone)
               && Status_eqb (verificationStatus r) approved).
  set (fp := fun r : Doc OrganReceiver.t =>
               opt_str_eqb (OrganReceiver.phone (fields r)) (Some phone)).
  destruct (findOneSorted by_verifiedAt_submittedAt fa (organReceivers db))
    as [receiver|] eqn:Ea.
  - apply (findOneSorted_some _ _ by_verifiedAt_submittedAt_asym
             by_verifiedAt_submittedAt_negtrans) in Ea.
    destruct Ea as (Hin & Hfa & Hbest). unfold fa in Hfa.
    apply andb_prop in Hfa. destruct Hfa as [Hp Hs].
    apply opt_str_eqb_eq in Hp. apply Status_eqb_eq in Hs.
    split; [|split].
    + intros Hno. exfalso. apply (Hno receiver). auto.
    + intros _ Hnone. exfalso. apply (Hnone receiver); auto.
    + intros _. eexists receiver, _.
      split; [auto|]. split; [exact Hs|]. split.
      { intros r [Hr Hrp] Hrs. apply by_verifiedAt_submittedAt_false.
        apply Hbest; [exact Hr|]. unfold fa.
        apply andb_true_intro. split;
          [apply opt_str_eqb_eq; exact Hrp | apply Status_eqb_eq; exact Hrs]. }
      split; [reflexivity|]. split; [reflexivity|].
      intros d. rewrite filter_In, andb_true_iff, opt_str_eqb_eq, Status_eqb_eq.
      reflexivity.
  - pose proof (proj1 (findOneSorted_none _ _ by_verifiedAt_submittedAt_asym
                         by_verifiedAt_submittedAt_negtrans _) Ea) as Hna.
    assert (Hnone : forall r,
               In r (organReceivers db) ->
               OrganReceiver.phone (fields r) = Some phone ->
               verificationStatus r <> approved).
    { intros r Hr Hrp Hrs. specialize (Hna r Hr). unfold fa in Hna.
      apply opt_str_eqb_eq in Hrp. apply Status_eqb_eq in Hrs.
      rewrite Hrp, Hrs in Hna. discriminate. }
    destruct (findOneSorted by_submittedAt fp (organReceivers db))
      as [latest|] eqn:El.
    + apply (findOneSorted_some _ _ by_submittedAt_asym
               by_submittedAt_negtrans) in El.
      destruct El as (Hin & Hfp & Hbest). unfold fp in Hfp.
      apply opt_str_eqb_eq in Hfp.
      split; [|split].
      * intros Hno. exfalso. apply (Hno latest). auto.
      * intros _ _. exists latest. split; [auto|]. split; [|reflexivity].
        intros r [Hr Hrp]. apply by_submittedAt_false. apply Hbest; [exact Hr|].
        unfold fp. apply opt_str_eqb_eq. exact Hrp.
      * intros (r & [Hr Hrp] & Hrs). exfalso. exact (Hnone r Hr Hrp Hrs).
    + pose proof (proj1 (findOneSorted_none _ _ by_submittedAt_asym
                           by_submittedAt_negtrans _) El) as Hnl.
      assert (Hno : forall r,
                 In r (organReceivers db) ->
                 OrganReceiver.phone (fields r) <> Some phone).
      { intros r Hr Hrp. specialize (Hnl r Hr). unfold fp in Hnl.
        apply opt_str_eqb_eq in Hrp. rewrite Hrp in Hnl. discriminate. }
      split; [|split].
      * reflexivity.
      * intros (r & Hr & Hrp). exfalso. exact (Hno r Hr Hrp).
      * intros (r & [Hr Hrp] & _). exfalso. exact (Hno r Hr Hrp).
Qed.

(** C1: for a ten-digit phone, both matching endpoints satisfy the matching
    contract: NotFound when no receiver document has the phone; Forbidden
    with the status of the most recently submitted document when none with
    the phone is approved; otherwise the summary (name, phone, need,
    location, position; no verification field) of the approved document
    with the latest [verifiedAt], then the latest [submittedAt], together
    with exactly the donors whose blood group (organ type) equals the
    receiver's need and whose status is approved. *)
Theorem matching_donors_contract (db : DB) (phone : string) :
  phone_regex phone = true ->
  matching_contract (bloodReceivers db) (bloodDonors db)
    BloodReceiver.phone BloodReceiver.bloodNeed BloodDonor.bloodGroup
    blood_receiver_summary phone
    (get_blood_receiver_matching_donors db (Some phone))
  /\ matching_contract (organReceivers db) (organDonors db)
       OrganReceiver.phone OrganReceiver.organNeed OrganDonor.organType
       organ_receiver_summary phone
       (get_organ_receiver_matching_donors db (Some phone)).
Proof.
  intros Hph. split.
  - exact (blood_matching db phone Hph).
  - exact (organ_matching db phone Hph).
Qed.

(** ** The verification state along a run *)

Lemma save_new_effect (m m' : Model) (f : schema m') db now r :
  step_effect m db (save_new m' (new_doc m' db now f) db) now r.
Proof.
  destruct m, m'; try (left; reflexivity); right; left; exists f; reflexivity.
Qed.

Lemma push_donation_effect m db db' now r uid entry :
  step_effect m db db' now r ->
  step_effect m db (push_donation uid entry db') now r.
Proof.
  unfold step_effect. rewrite push_donation_collection. auto.
Qed.

Lemma step_effect_refl m db now r : step_effect m db db now r.
Proof. left. reflexivity. Qed.

Lemma step_step_effect (m : Model) (db : DB) (now : Z) (r : Request) :
  step_effect m db (step db now r) now r.
Proof.
  destruct r as [n p pw ph|id b|b|b|b|b|b|b|type id status notes];
    cbn [step].
  - unfold post_register.
    destruct (find _ (users db)); [apply step_effect_refl|].
    destruct (_ || _); [apply step_effect_refl|].
    left. destruct m; reflexivity.
  - unfold put_user. destruct id as [id|]; [|apply step_effect_refl].
    match goal with
    | |- context [if ?c then _ else _] =>
        destruct c; [apply step_effect_refl|]
    end.
    destruct (findByIdAndUpdate User._id id _ (users db)) as [[us u]|];
      [|apply step_effect_refl].
    left. destruct m; reflexivity.
  - destruct (post_blood_donor_state db now b) as [[E _]|(f & E & _)];
      rewrite E; [apply step_effect_refl | apply save_new_effect].
  - apply save_new_effect.
  - unfold post_organ_donor. cbv zeta.
    repeat match goal with
           | |- context [if ?c then _ else _] =>
               destruct c; [apply step_effect_refl|]
           end.
    destruct (last_donation_check now (OrganDonorBody.hasDonatedBefore b)
                (OrganDonorBody.lastDonationDate b));
      [apply step_effect_refl|].
    destruct (OrganDonorBody.userId b) as [[uid|]|];
      [|apply save_new_effect|apply save_new_effect].
    match goal with
    | |- context [findById User._id uid ?us] => destruct (findById User._id uid us)
    end; [|apply save_new_effect].
    apply push_donation_effect, save_new_effect.
  - apply save_new_effect.
  - unfold post_money_donor. cbv zeta.
    destruct (MoneyDonorBody.userId b) as [[uid|]|];
      [|apply save_new_effect|apply save_new_effect].
    match goal with
    | |- context [findById User._id uid ?us] => destruct (findById User._id uid us)
    end; [|apply save_new_effect].
    apply push_donation_effect, save_new_effect.
  - apply save_new_effect.
  - unfold post_admin_verify.
    destruct (includes verification_types type); cbn [negb];
      [|apply step_effect_refl].
    destruct (includes ["approved"; "rejected"] status) eqn:Es; cbn [negb];
      [|apply step_effect_refl].
    apply includes_In in Es.
    destruct (status_of_string_decision status Es) as (st & Est & Eapp & Hst).
    rewrite Est, Eapp.
    destruct (model_of_type type) as [model|] eqn:Em; [|apply step_effect_refl].
    destruct id as [id|]; [|apply step_effect_refl].
    destruct (findByIdAndUpdate _id id _ (collection model db))
      as [[docs updated]|] eqn:Eu; [|apply step_effect_refl].
    cbn [fst].
    destruct m, model; try (left; reflexivity);
      right; right; exists type, id, status, notes, st, updated;
      repeat split; auto.
Qed.

Lemma findByIdAndUpdate_In {A} (key : A -> oid) id upd l l' u :
  findByIdAndUpdate key id upd l = Some (l', u) ->
  forall x, In x l' -> In x l \/ exists d, In d l /\ x = upd d.
Proof.
  revert l'. induction l as [|a l IH]; intros l'; simpl; [discriminate|].
  destruct (key a =? id)%nat.
  - intros [= <- <-] x [<-|Hx]; [right; exists a|left]; auto.
  - destruct (findByIdAndUpdate key id upd l) as [[tl' d']|]; [|discriminate].
    intros [= <- <-] x [<-|Hx]; [left; left; reflexivity|].
    destruct (IH tl' eq_refl x Hx) as [H|(d & Hd & E)].
    + left. right. exact H.
    + right. exists d. split; [right; exact Hd | exact E].
Qed.

Lemma step_preserves_consistent (db : DB) (now : Z) (r : Request) :
  consistent db -> consistent (step db now r).
Proof.
  intros Hc m d Hd.
  destruct (step_step_effect m db now r)
    as [E|[(f & E)|(type & id & status & notes & st & updated & _ & _ & _ & _ & E)]].
  - rewrite E in Hd. exact (Hc m d Hd).
  - rewrite E in Hd. apply in_app_or in Hd. destruct Hd as [Hd|[<-|[]]].
    + exact (Hc m d Hd).
    + reflexivity.
  - destruct (findByIdAndUpdate_In _ _ _ _ _ _ E d Hd) as [H|(d0 & _ & ->)].
    + exact (Hc m d H).
    + reflexivity.
Qed.

(** C3: in every state the server reaches from the empty database by any
    sequence of registrations, profile updates, submissions of the six kinds
    and admin decisions, every donor and receiver document has [isVerified]
    equal to [verificationStatus == approved].  A new document has
    [isVerified] false and status pending, the document a verify call
    writes has [isVerified] set from the status it writes, and every request
    keeps the agreement. *)
Theorem isVerified_tracks_status :
  (forall rs, consistent (run emptyDB rs))
  /\ (forall db now r, consistent db -> consistent (step db now r))
  /\ (forall m db now f,
        isVerified (new_doc m db now f) = false
        /\ verificationStatus (new_doc m db now f) = pending)
  /\ (forall F now status notes st (d : Doc F),
        status_of_string status = Some st ->
        In status ["approved"; "rejected"] ->
        doc_consistent (updateData now st (status =? "approved") notes d)).
Proof.
  split; [|split; [|split]].
  - assert (H : forall rs db, consistent db -> consistent (run db rs)).
    { induction rs as [|[now r] rs IH]; intros db Hc; simpl; [exact Hc|].
      apply IH, step_preserves_consistent, Hc. }
    intros rs. apply H. intros m d Hd. destruct m; destruct Hd.
  - exact step_preserves_consistent.
  - intros. split; reflexivity.
  - intros F now status notes st d Est Hin.
    destruct (status_of_string_decision status Hin) as (st' & Est' & Eapp & _).
    unfold doc_consistent. simpl. congruence.
Qed.

Lemma findById_app {A} (key : A -> oid) id l x :
  findById key id (l ++ [x])
  = match findById key id l with
    | Some d => Some d
    | None => if (key x =? id)%nat then Some x else None
    end.
Proof.
  unfold findById. induction l as [|a l IH]; simpl.
  - destruct (key x =? id)%nat; reflexivity.
  - destruct (key a =? id)%nat; [reflexivity | exact IH].
Qed.

Lemma findByIdAndUpdate_lookup {A} (key : A -> oid) id upd l l' u :
  (forall x, key (upd x) = key x) ->
  findByIdAndUpdate key id upd l = Some (l', u) ->
  (exists d, findById key id l = Some d /\ u = upd d
             /\ findById key id l' = Some u)
  /\ (forall j, j <> id -> findById key j l' = findById key j l).
Proof.
  intros Hk Hu.
  destruct (findById key id l) as [d|] eqn:Ed.
  - destruct (findByIdAndUpdate_some key id upd l d Hk Ed)
      as (l2 & E1 & E2 & _ & E4).
    rewrite E1 in Hu. injection Hu as <- <-. split; eauto.
  - rewrite (findByIdAndUpdate_none key id upd l Ed) in Hu. discriminate.
Qed.

Lemma step_status (db : DB) (now : Z) (r : Request) (m : Model) (id : oid) :
  (forall s,
      statusOf m id db = Some s ->
      exists s',
        statusOf m id (step db now r) = Some s'
        /\ (s' = s
            \/ exists type status notes,
                r = Verify type (ObjectId id) status notes
                /\ model_of_type type = Some m
                /\ status_of_string status = Some s'
                /\ (s' = approved \/ s' = rejected)))
  /\ (statusOf m id db = None ->
      statusOf m id (step db now r) = None
      \/ statusOf m id (step db now r) = Some pending).
Proof.
  unfold statusOf.
  destruct (step_step_effect m db now r)
    as [E|[(f & E)|(type & id0 & status & notes & st & updated
                    & Er & Em & Est & Hst & E)]].
  - rewrite E. split; [eauto | auto].
  - rewrite E, findById_app. split.
    + intros s Hs. destruct (findById _id id (collection m db)); [|discriminate].
      eauto.
    + intros Hn. destruct (findById _id id (collection m db)); [discriminate|].
      destruct (_ =? id)%nat; [right | left]; reflexivity.
  - destruct (findByIdAndUpdate_lookup _id id0
                (updateData now st (Status_eqb st approved) notes)
                _ _ _ (fun x => eq_refl) E)
      as [(d & Ed & Eu & El) Hother].
    destruct (Nat.eq_dec id id0) as [->|Hne].
    + rewrite El, Ed. split; [|discriminate].
      intros s _. exists st. split; [subst updated; reflexivity|].
      right. exists type, status, notes. repeat split; auto.
      destruct st; [contradiction | left | right]; reflexivity.
    + rewrite (Hother id Hne). split; [eauto | auto].
Qed.

(** C4 (as the code has it): a document is created with status pending; a
    request changes the status of an existing document only when it is an
    admin verify naming that document, and then to approved or rejected; no
    document is ever removed; once the status has left pending it is never
    pending again, however the run continues; and a verify call on an
    existing document writes the requested status whatever the current one
    is, so a decided document can be decided again. *)
Theorem status_lifecycle :
  (forall m db now f, verificationStatus (new_doc m db now f) = pending)
  /\ (forall db now r m id,
        (forall s,
            statusOf m id db = Some s ->
            exists s',
              statusOf m id (step db now r) = Some s'
              /\ (s' = s
                  \/ exists type status notes,
                      r = Verify type (ObjectId id) status notes
                      /\ model_of_type type = Some m
                      /\ status_of_string status = Some s'
                      /\ (s' = approved \/ s' = rejected)))
        /\ (statusOf m id db = None ->
            statusOf m id (step db now r) = None
            \/ statusOf m id (step db now r) = Some pending))
  /\ (forall rs db m id s,
        statusOf m id db = Some s -> s <> pending ->
        exists s', statusOf m id (run db rs) = Some s' /\ s' <> pending)
  /\ (forall db now type id status notes m s st,
        model_of_type type = Some m ->
        In status ["approved"; "rejected"] ->
        status_of_string status = Some st ->
        statusOf m id db = Some s ->
        statusOf m id (step db now (Verify type (ObjectId id) status notes))
        = Some st).
Proof.
  split; [|split; [|split]].
  - reflexivity.
  - exact step_status.
  - induction rs as [|[now r] rs IH]; intros db m id s Hs Hp; simpl.
    + eauto.
    + destruct (proj1 (step_status db now r m id) s Hs) as (s' & Hs' & Hc).
      apply (IH _ m id s' Hs').
      destruct Hc as [->|(_ & _ & _ & _ & _ & _ & [->| ->])];
        [exact Hp | discriminate | discriminate].
  - intros db now type id status notes m s st Hm Hin Est Hs.
    unfold statusOf in *. cbn [step]. unfold post_admin_verify.
    assert (Ht : includes verification_types type = true).
    { apply includes_In, model_of_type_In. eauto. }
    assert (Hs' : includes ["approved"; "rejected"] status = true).
    { apply includes_In. exact Hin. }
    rewrite Ht, Hs', Hm, Est. cbn [negb].
    destruct (findById _id id (collection m db)) as [d|] eqn:Ed;
      [|discriminate].
    destruct (findByIdAndUpdate_some _id id
                (updateData now st (status =? "approved") notes)
                (collection m db) d (fun x => eq_refl) Ed)
      as (l' & E1 & E2 & _ & _).
    rewrite E1. cbn [fst]. rewrite collection_set_collection, E2. reflexivity.
Qed.

(** * Further properties of the handlers *)

(** ** Prior donations *)

Lemma countDocuments_pos {A} (matches : A -> bool) (l : list A) :
  (0 <? countDocuments matches l)%nat = true
  <-> exists d, In d l /\ matches d = true.
Proof.
  unfold countDocuments. rewrite Nat.ltb_lt. split.
  - intros H. destruct (List.filter matches l) as [|d t] eqn:E;
      [simpl in H; lia|].
    exists d. apply filter_In. rewrite E. left. reflexivity.
  - intros (d & Hin & Hm).
    assert (Hd : In d (List.filter matches l)) by (apply filter_In; auto).
    destruct (List.filter matches l); [destruct Hd | simpl; lia].
Qed.

Lemma phone_regex_opt_truthy (phone : option string) :
  phone_regex_opt phone = true -> truthy_str phone = true.
Proof.
  destruct phone as [p|]; [apply phone_regex_truthy | discriminate].
Qed.

(** X1: [has-donated] answers BadRequest for a phone that is not ten digits
    (whatever the type) and for a type other than blood and organ; for a
    ten-digit phone it answers whether the blood (organ) donor collection has
    a document with that phone, whatever the document's verification status
    and [hasDonatedBefore] flag. *)
Theorem has_donated_contract (db : DB) (phone type : option string) :
  let res := get_has_donated db phone type in
  (phone_regex_opt phone = false ->
   res = Error BadRequest "Valid phone is required")
  /\ (phone_regex_opt phone = true ->
      type <> Some "blood" -> type <> Some "organ" ->
      res = Error BadRequest "type must be one of: blood, organ")
  /\ (phone_regex_opt phone = true -> type = Some "blood" ->
      exists answer,
        res = Json OK answer
        /\ (answer = true <->
            exists d, In d (bloodDonors db)
                      /\ BloodDonor.phone (fields d) = phone))
  /\ (phone_regex_opt phone = true -> type = Some "organ" ->
      exists answer,
        res = Json OK answer
        /\ (answer = true <->
            exists d, In d (organDonors db)
                      /\ OrganDonor.phone (fields d) = phone)).
Proof.
  cbv zeta. unfold get_has_donated. split; [|split; [|split]].
  - intros ->. rewrite orb_true_r. reflexivity.
  - intros Hp Hb Ho. rewrite Hp, (phone_regex_opt_truthy _ Hp). cbn [negb orb].
    destruct type as [t|]; [|reflexivity].
    destruct (includes ["blood"; "organ"] t) eqn:E; [|reflexivity].
    apply includes_In in E. destruct E as [<-|[<-|[]]]; congruence.
  - intros Hp ->. rewrite Hp, (phone_regex_opt_truthy _ Hp).
    change (includes ["blood"; "organ"] "blood") with true.
    change (opt_str_eqb (Some "blood") (Some "blood")) with true.
    cbn [negb orb]. cbv zeta.
    eexists. split; [reflexivity|].
    rewrite countDocuments_pos. split; intros (d & Hin & Hd); exists d;
      (split; [exact Hin|]); apply opt_str_eqb_eq; exact Hd.
  - intros Hp ->. rewrite Hp, (phone_regex_opt_truthy _ Hp).
    change (includes ["blood"; "organ"] "organ") with true.
    change (opt_str_eqb (Some "organ") (Some "blood")) with false.
    change (opt_str_eqb (Some "organ") (Some "organ")) with true.
    cbn [negb orb]. cbv zeta.
    eexists. split; [reflexivity|].
    rewrite countDocuments_pos. split; intros (d & Hin & Hd); exists d;
      (split; [exact Hin|]); apply opt_str_eqb_eq; exact Hd.
Qed.


(** ** What a donor submission makes visible *)

Lemma post_blood_donor_accepted (db : DB) (now : Z) (b : BloodDonorBody.t)
  (body : Submitted) :
  snd (post_blood_donor db now b) = Json Created body ->
  phone_regex_opt (BloodDonorBody.phone b) = true
  /\ exists lastDate,
      fst (post_blood_donor db now b)
      = save_new BloodDonorM
          (new_doc BloodDonorM db now
             (BloodDonor.mk (BloodDonorBody.name b) (BloodDonorBody.phone b)
                (Number (BloodDonorBody.age b))
                (Number (BloodDonorBody.weight b))
                (BloodDonorBody.bloodGroup b)
                (truthy (BloodDonorBody.hasDonatedBefore b)) lastDate
                (BloodDonorBody.latitude b) (BloodDonorBody.longitude b)
                (BloodDonorBody.verificationFile b)))
          db.
Proof.
  unfold post_blood_donor. cbv zeta.
  destruct (negb (truthy_str (BloodDonorBody.name b)) || _ || _ || _ || _);
    [discriminate|].
  destruct (phone_regex_opt (BloodDonorBody.phone b)); cbn [negb];
    [|discriminate].
  destruct (js_isNaN (Number (BloodDonorBody.age b)) || _ || _);
    [discriminate|].
  destruct (js_isNaN (Number (BloodDonorBody.weight b)) || _);
    [discriminate|].
  destruct (last_donation_check now (BloodDonorBody.hasDonatedBefore b)
              (BloodDonorBody.lastDonationDate b)) as [e|lastDate];
    [discriminate|].
  intros _. split; [reflexivity|]. exists lastDate. reflexivity.
Qed.

Lemma post_organ_donor_accepted (db : DB) (now : Z) (b : OrganDonorBody.t)
  (body : Submitted) :
  snd (post_organ_donor db now b) = Json Created body ->
  phone_regex_opt (OrganDonorBody.phone b) = true
  /\ exists lastDate,
      forall m,
        collection m (fst (post_organ_donor db now b))
        = collection m
            (save_new OrganDonorM
               (new_doc OrganDonorM db now
                  (OrganDonor.mk (OrganDonorBody.name b)
                     (OrganDonorBody.phone b)
                     (Number (OrganDonorBody.weight b))
                     (OrganDonorBody.organType b)
                     (OrganDonorBody.conditionStatus b)
                     (truthy (OrganDonorBody.hasDonatedBefore b)) lastDate
                     (OrganDonorBody.latitude b) (OrganDonorBody.longitude b)
                     (OrganDonorBody.verificationFile b)))
               db).
Proof.
  unfold post_organ_donor. cbv zeta.
  destruct (negb (truthy_str (OrganDonorBody.name b)) || _ || _ || _ || _);
    [discriminate|].
  destruct (phone_regex_opt (OrganDonorBody.phone b)); cbn [negb];
    [|discriminate].
  destruct (js_isNaN (Number (OrganDonorBody.weight b)) || _);
    [discriminate|].
  destruct (last_donation_check now (OrganDonorBody.hasDonatedBefore b)
              (OrganDonorBody.lastDonationDate b)) as [e|lastDate];
    [discriminate|].
  intros Hres. split; [reflexivity|]. exists lastDate. intros m.
  destruct (OrganDonorBody.userId b) as [[uid|]|];
    [|discriminate Hres|reflexivity].
  match goal with
  | |- context [findById User._id uid ?us] => destruct (findById User._id uid us)
  end; [|reflexivity].
  apply push_donation_collection.
Qed.

Lemma filter_approved_new {F} (g : Doc F -> bool) (l : list (Doc F))
  (id : oid) (f : F) (now : Z) :
  List.filter (fun d => g d && Status_eqb (verificationStatus d) approved)
    (l ++ [mkDoc id f false pending "" now None])
  = List.filter (fun d => g d && Status_eqb (verificationStatus d) approved) l.
Proof.
  rewrite filter_app. cbn [List.filter verificationStatus Status_eqb].
  rewrite andb_false_r. apply app_nil_r.
Qed.

Lemma get_has_donated_blood (db : DB) (phone : option string) :
  phone_regex_opt phone = true ->
  get_has_donated db phone (Some "blood")
  = Json OK
      (0 <? countDocuments
              (fun d => opt_str_eqb (BloodDonor.phone (fields d)) phone)
              (bloodDonors db))%nat.
Proof.
  intros Hp. unfold get_has_donated.
  rewrite Hp, (phone_regex_opt_truthy _ Hp). reflexivity.
Qed.

Lemma get_has_donated_organ (db : DB) (phone : option string) :
  phone_regex_opt phone = true ->
  get_has_donated db phone (Some "organ")
  = Json OK
      (0 <? countDocuments
              (fun d => opt_str_eqb (OrganDonor.phone (fields d)) phone)
              (organDonors db))%nat.
Proof.
  intros Hp. unfold get_has_donated.
  rewrite Hp, (phone_regex_opt_truthy _ Hp). reflexivity.
Qed.

(** X2: an accepted donor submission is counted by [has-donated] for its
    phone at once, while still pending.  A new blood donor changes neither
    the blood donor listing nor any blood matching answer; a new organ donor
    changes no organ matching answer either, but the organ donor listing
    shows it immediately, with status pending. *)
Theorem donor_submission_visibility (db : DB) (now : Z)
  (bb : BloodDonorBody.t) (ob : OrganDonorBody.t) :
  (forall body,
      snd (post_blood_donor db now bb) = Json Created body ->
      let db' := fst (post_blood_donor db now bb) in
      get_has_donated db' (BloodDonorBody.phone bb) (Some "blood")
      = Json OK true
      /\ get_blood_donors db' = get_blood_donors db
      /\ (forall phone,
            get_blood_receiver_matching_donors db' phone
            = get_blood_receiver_matching_donors db phone))
  /\ (forall body,
         snd (post_organ_donor db now ob) = Json Created body ->
         let db' := fst (post_organ_donor db now ob) in
         get_has_donated db' (OrganDonorBody.phone ob) (Some "organ")
         = Json OK true
         /\ (exists donor,
                get_organ_donors db' = Json OK (organDonors db ++ [donor])%list
                /\ _id donor = sub_id body
                /\ verificationStatus donor = pending)
         /\ (forall phone,
               get_organ_receiver_matching_donors db' phone
               = get_organ_receiver_matching_donors db phone)).
Proof.
  split.
  - intros body Hres. cbv zeta.
    destruct (post_blood_donor_accepted db now bb body Hres)
      as (Hp & lastDate & E).
    rewrite E. split; [|split].
    + rewrite (get_has_donated_blood _ _ Hp). f_equal.
      apply countDocuments_pos. eexists. split.
      * apply in_or_app. right. left. reflexivity.
      * apply opt_str_eqb_eq. reflexivity.
    + unfold get_blood_donors, save_new, new_doc.
      cbn [bloodDonors set_collection collection].
      rewrite filter_app. cbn [List.filter verificationStatus Status_eqb].
      rewrite app_nil_r. reflexivity.
    + intros phone.
      unfold get_blood_receiver_matching_donors, save_new, new_doc.
      cbn [bloodDonors bloodReceivers set_collection collection].
      destruct (negb (truthy_str phone) || negb (phone_regex_opt phone));
        [reflexivity|].
      destruct (findOneSorted by_verifiedAt_submittedAt _ (bloodReceivers db));
        [|reflexivity].
      rewrite filter_approved_new. reflexivity.
  - intros body Hres. cbv zeta.
    destruct (post_organ_donor_accepted db now ob body Hres)
      as (Hp & lastDate & E).
    pose proof (E OrganDonorM) as Ed. pose proof (E OrganReceiverM) as Er.
    cbn [collection] in Ed, Er.
    unfold save_new, new_doc in Ed, Er.
    cbn [organDonors organReceivers set_collection collection] in Ed, Er.
    split; [|split].
    + rewrite (get_has_donated_organ _ _ Hp). f_equal.
      apply countDocuments_pos. rewrite Ed. eexists. split.
      * apply in_or_app. right. left. reflexivity.
      * apply opt_str_eqb_eq. reflexivity.
    + unfold get_organ_donors. rewrite Ed. eexists.
      split; [reflexivity|]. split; [|reflexivity].
      rewrite post_organ_donor_answer in Hres.
      repeat match type of Hres with
             | (if ?c then _ else _) = _ => destruct c; [discriminate|]
             end.
      destruct (last_donation_check now (OrganDonorBody.hasDonatedBefore ob)
                  (OrganDonorBody.lastDonationDate ob)); [discriminate|].
      destruct (castable (OrganDonorBody.userId ob)); [|discriminate].
      injection Hres as <-. reflexivity.
    + intros phone. unfold get_organ_receiver_matching_donors.
      rewrite Ed, Er.
      destruct (negb (truthy_str phone) || negb (phone_regex_opt phone));
        [reflexivity|].
      destruct (findOneSorted by_verifiedAt_submittedAt _ (organReceivers db));
        [|reflexivity].
      rewrite filter_approved_new. reflexivity.
Qed.


(** ** Phones that are not ten digits *)

(** X3: a phone that is absent or is not exactly ten digits is answered
    BadRequest by [has-donated] (whatever the type), by both matching
    queries and by both donor submissions, and the submissions store
    nothing. *)
Theorem invalid_phone_rejected (db : DB) (now : Z) (phone type : option string)
  (bb : BloodDonorBody.t) (ob : OrganDonorBody.t) :
  phone_regex_opt phone = false ->
  get_has_donated db phone type = Error BadRequest "Valid phone is required"
  /\ get_blood_receiver_matching_donors db phone
     = Error BadRequest "Valid phone number is required"
  /\ get_organ_receiver_matching_donors db phone
     = Error BadRequest "Valid phone number is required"
  /\ (BloodDonorBody.phone bb = phone ->
      exists msg,
        post_blood_donor db now bb = (db, Error BadRequest msg)
        /\ (msg = "Missing required fields"
            \/ msg = "Invalid phone number format"))
  /\ (OrganDonorBody.phone ob = phone ->
      exists msg,
        post_organ_donor db now ob = (db, Error BadRequest msg)
        /\ (msg = "Missing required fields"
            \/ msg = "Invalid phone number format")).
Proof.
  intros Hp. split; [|split; [|split; [|split]]].
  - unfold get_has_donated. rewrite Hp, orb_true_r. reflexivity.
  - unfold get_blood_receiver_matching_donors. rewrite Hp, orb_true_r.
    reflexivity.
  - unfold get_organ_receiver_matching_donors. rewrite Hp, orb_true_r.
    reflexivity.
  - intros E. unfold post_blood_donor. cbv zeta. rewrite E, Hp.
    destruct (negb (truthy_str (BloodDonorBody.name bb)) || _ || _ || _ || _);
      eexists; (split; [reflexivity|]); auto.
  - intros E. unfold post_organ_donor. cbv zeta. rewrite E, Hp.
    destruct (negb (truthy_str (OrganDonorBody.name ob)) || _ || _ || _ || _);
      eexists; (split; [reflexivity|]); auto.
Qed.

(** ** Organ donor submission *)

(** X4: an organ donor submission is accepted only when name, phone, organ
    type, condition status and weight are present (truthy), the phone is ten
    digits and the weight is a number of at least 50; there is no age rule.
    The first rule that fails, in that order, decides the BadRequest
    message; when all hold the last-donation rule decides alone, and what it
    lets through is answered 201 (or 500, when the body's [userId] cannot be
    cast).  A rejected submission leaves the database as it was. *)
Theorem organ_donor_validation (db : DB) (now : Z) (b : OrganDonorBody.t) :
  let res := snd (post_organ_donor db now b) in
  let phone_ok := phone_regex_opt (OrganDonorBody.phone b) in
  let weightNum := Number (OrganDonorBody.weight b) in
  (forall body,
      res = Json Created body ->
      body = mkSubmitted "Organ donor registration submitted for verification"
                         (nextId db) "pending_verification"
      /\ organ_required_present b = true
      /\ phone_ok = true
      /\ at_least weightNum 50)
  /\ (organ_required_present b = false ->
      res = Error BadRequest "Missing required fields")
  /\ (organ_required_present b = true -> phone_ok = false ->
      res = Error BadRequest "Invalid phone number format")
  /\ (organ_required_present b = true -> phone_ok = true ->
      ~ at_least weightNum 50 ->
      res = Error BadRequest "Weight must be at least 50 kg")
  /\ (organ_required_present b = true -> phone_ok = true ->
      at_least weightNum 50 ->
      match last_donation_check now (OrganDonorBody.hasDonatedBefore b)
              (OrganDonorBody.lastDonationDate b) with
      | inl e => res = Error BadRequest e
      | inr _ =>
          res = if castable (OrganDonorBody.userId b)
                then Json Created
                       (mkSubmitted
                          "Organ donor registration submitted for verification"
                          (nextId db) "pending_verification")
                else Thrown
      end)
  /\ (forall code msg,
        res = Error code msg -> fst (post_organ_donor db now b) = db).
Proof.
  cbv zeta. split; [|split; [|split; [|split; [|split]]]].
  - intros body. rewrite post_organ_donor_answer.
    pose proof (weight_rule (Number (OrganDonorBody.weight b))) as Hw.
    destruct (organ_required_present b); cbn [negb]; [|discriminate].
    destruct (phone_regex_opt (OrganDonorBody.phone b)); cbn [negb];
      [|discriminate].
    destruct (js_isNaN _ || _); [discriminate|].
    destruct (last_donation_check now (OrganDonorBody.hasDonatedBefore b)
                (OrganDonorBody.lastDonationDate b)); [discriminate|].
    destruct (castable (OrganDonorBody.userId b)); [|discriminate].
    intros [= <-]. repeat split. apply Hw. reflexivity.
  - rewrite post_organ_donor_answer. intros ->. reflexivity.
  - rewrite post_organ_donor_answer. intros -> ->. reflexivity.
  - rewrite post_organ_donor_answer. intros -> -> Hn. cbn [negb].
    destruct (js_isNaN _ || _) eqn:E; [reflexivity|].
    exfalso. apply Hn, weight_rule. exact E.
  - rewrite post_organ_donor_answer. intros -> -> Hw. cbn [negb].
    apply weight_rule in Hw. rewrite Hw.
    destruct (last_donation_check now (OrganDonorBody.hasDonatedBefore b)
                (OrganDonorBody.lastDonationDate b)); reflexivity.
  - intros code msg. unfold post_organ_donor. cbv zeta.
    repeat match goal with
           | |- context [if ?c then _ else _] =>
               destruct c; [reflexivity|]
           end.
    destruct (last_donation_check now (OrganDonorBody.hasDonatedBefore b)
                (OrganDonorBody.lastDonationDate b)); [reflexivity|].
    destruct (OrganDonorBody.userId b) as [[uid|]|]; try discriminate.
    match goal with
    | |- context [findById User._id uid ?us] =>
        destruct (findById User._id uid us); discriminate
    end.
Qed.


(** ** Accounts *)

Lemma find_phone_none (phone : string) (us : list User.t) :
  find (fun u => User.phone u =? phone) us = None
  <-> (forall u, In u us -> User.phone u <> phone).
Proof.
  split.
  - intros H u Hin E. pose proof (find_none _ _ H u Hin) as Hf. simpl in Hf.
    apply String.eqb_neq in Hf. contradiction.
  - intros H. destruct (find _ us) as [u|] eqn:E; [|reflexivity].
    apply find_some in E. destruct E as [Hin He].
    apply String.eqb_eq in He. destruct (H u Hin He).
Qed.

Lemma find_app_none {A} (p : A -> bool) (l : list A) (x : A) :
  find p l = None -> find p (l ++ [x]) = if p x then Some x else None.
Proof.
  induction l as [|a l IH]; simpl; [reflexivity|].
  destruct (p a); [discriminate | exact IH].
Qed.

(** X5: [register] answers 400 and stores nothing when a user already has
    the phone.  Otherwise, when the four fields and the hash are non-empty,
    it appends one user holding the hash of the password (never the
    password), an empty donation log and a fresh id, changes nothing else,
    and answers 201 with the user without its password; [login] with the
    same phone and password then succeeds exactly when [bcrypt.compare]
    accepts the password against its own hash, and [getUser] on the new id
    answers the same user.  An empty field makes [save] throw, and nothing
    is stored. *)
Theorem register_contract (db : DB) (now : Z)
  (name phone password profilePhoto : string) :
  let db' := fst (post_register db now name phone password profilePhoto) in
  let res := snd (post_register db now name phone password profilePhoto) in
  let user :=
    User.mk (nextId db) name phone (bcrypt_hash password) profilePhoto now [] in
  ((exists u, In u (users db) /\ User.phone u = phone) ->
   res = Error BadRequest "User with this phone number already exists"
   /\ db' = db)
  /\ ((forall u, In u (users db) -> User.phone u <> phone) ->
      name = "" \/ phone = "" \/ bcrypt_hash password = ""
      \/ profilePhoto = "" ->
      res = Thrown /\ db' = db)
  /\ ((forall u, In u (users db) -> User.phone u <> phone) ->
      name <> "" -> phone <> "" -> bcrypt_hash password <> "" ->
      profilePhoto <> "" ->
      res = Json Created
              (mkLoggedIn "User registered successfully" (userResponse user))
      /\ users db' = (users db ++ [user])%list
      /\ (forall m, collection m db' = collection m db)
      /\ post_login db' phone password
         = (if bcrypt_compare password (bcrypt_hash password)
            then Json OK (mkLoggedIn "Login successful" (userResponse user))
            else Error Unauthorized "Invalid phone number or password")
      /\ ((forall u, In u (users db) -> User._id u <> nextId db) ->
          get_user db' (ObjectId (nextId db)) = Json OK (userResponse user))).
Proof.
  cbv zeta. unfold post_register. split; [|split].
  - intros (u & Hin & Hu).
    destruct (find (fun u => User.phone u =? phone) (users db)) eqn:E;
      [split; reflexivity|].
    exfalso. exact (proj1 (find_phone_none _ _) E u Hin Hu).
  - intros Hfree Hempty. rewrite (proj2 (find_phone_none _ _) Hfree).
    assert (E : (name =? "") || (phone =? "") || (bcrypt_hash password =? "")
                || (profilePhoto =? "") = true).
    { destruct Hempty as [E|[E|[E|E]]]; rewrite E; cbn [String.eqb orb];
        rewrite ?orb_true_r; reflexivity. }
    rewrite E. split; reflexivity.
  - intros Hfree Hn Hp Hh Hf.
    pose proof (proj2 (find_phone_none _ _) Hfree) as Efind. rewrite Efind.
    apply String.eqb_neq in Hn, Hp, Hh, Hf. rewrite Hn, Hp, Hh, Hf.
    cbn [orb fst snd users].
    split; [reflexivity|]. split; [reflexivity|].
    split; [intros m; destruct m; reflexivity|]. split.
    + unfold post_login. cbn [users].
      rewrite (find_app_none _ _ _ Efind). cbn [User.phone].
      rewrite String.eqb_refl. cbn [User.password].
      destruct (bcrypt_compare password (bcrypt_hash password)); reflexivity.
    + intros Hid. unfold get_user, findById. cbn [users].
      rewrite find_app_none.
      * cbn [User._id]. rewrite Nat.eqb_refl. reflexivity.
      * apply (proj2 (findById_none User._id (nextId db) (users db))). exact Hid.
Qed.

(** X6: [updateUser] with an id that cannot be cast answers 500 and changes
    nothing.  With an ObjectId it answers 400 and changes nothing when
    another user has the requested phone, even if the id names no user;
    otherwise 404 when the id names no user; otherwise it overwrites the
    name, phone and photo that are given and non-empty, keeps the others and
    keeps the id, password, creation time and donation log, leaves every
    other user and every donor and receiver collection as they were, and
    answers the updated user without its password. *)
Theorem update_user_contract (db : DB) (cid : ClientId) (b : UserUpdate.t) :
  let db' := fst (put_user db cid b) in
  let res := snd (put_user db cid b) in
  let chosen (given : option string) (old : string) :=
    match given with
    | Some v => if v =? "" then old else v
    | None => old
    end in
  (cid = NotObjectId -> res = Thrown /\ db' = db)
  /\ (forall id,
        cid = ObjectId id ->
        let taken :=
          exists p u, UserUpdate.phone b = Some p /\ p <> ""
                      /\ In u (users db)
                      /\ User.phone u = p /\ User._id u <> id in
        (taken ->
         res = Error BadRequest "Phone number already in use" /\ db' = db)
        /\ (~ taken -> findById User._id id (users db) = None ->
            res = Error NotFound "User not found" /\ db' = db)
        /\ (~ taken ->
            forall u,
              findById User._id id (users db) = Some u ->
              exists u',
                res = Json OK (mkLoggedIn "Profile updated successfully"
                                          (userResponse u'))
                /\ findById User._id id (users db') = Some u'
                /\ User._id u' = User._id u
                /\ User.name u' = chosen (UserUpdate.name b) (User.name u)
                /\ User.phone u' = chosen (UserUpdate.phone b) (User.phone u)
                /\ User.profilePhoto u'
                   = chosen (UserUpdate.profilePhoto b) (User.profilePhoto u)
                /\ User.password u' = User.password u
                /\ User.createdAt u' = User.createdAt u
                /\ User.donations u' = User.donations u
                /\ (forall j, j <> id ->
                              findById User._id j (users db')
                              = findById User._id j (users db))
                /\ (forall m, collection m db' = collection m db))).
Proof.
  cbv zeta. split; [intros ->; split; reflexivity|].
  intros id ->. unfold put_user.
  set (cond := match UserUpdate.phone b with
               | Some phone =>
                   truthy_str (Some phone)
                   && existsb (fun u => (User.phone u =? phone)
                                        && negb (User._id u =? id)%nat)
                        (users db)
               | None => false
               end).
  assert (Hcond : cond = true <->
                  exists p u, UserUpdate.phone b = Some p /\ p <> ""
                              /\ In u (users db) /\ User.phone u = p
                              /\ User._id u <> id).
  { unfold cond. destruct (UserUpdate.phone b) as [p|].
    - rewrite andb_true_iff, existsb_exists. cbn [truthy_str].
      rewrite negb_true_iff, String.eqb_neq. split.
      + intros (Hp & u & Hin & Hu). apply andb_prop in Hu.
        destruct Hu as [Hu1 Hu2]. apply String.eqb_eq in Hu1.
        apply negb_true_iff, Nat.eqb_neq in Hu2.
        exists p, u. auto.
      + intros (p' & u & [= <-] & Hp & Hin & Hu1 & Hu2).
        split; [exact Hp|]. exists u. split; [exact Hin|].
        apply andb_true_intro. split;
          [apply String.eqb_eq; exact Hu1
          | apply negb_true_iff, Nat.eqb_neq; exact Hu2].
    - split; [discriminate|]. intros (p & u & H & _). discriminate. }
  split; [|split].
  - intros Ht. rewrite (proj2 Hcond Ht). split; reflexivity.
  - intros Hnt Hnone.
    destruct cond; [exfalso; apply Hnt, Hcond; reflexivity|].
    rewrite (findByIdAndUpdate_none _ _ _ _ Hnone). split; reflexivity.
  - intros Hnt u Hu.
    destruct cond; [exfalso; apply Hnt, Hcond; reflexivity|].
    match goal with
    | |- context [findByIdAndUpdate User._id id ?f (users db)] =>
        destruct (findByIdAndUpdate_some User._id id f (users db) u
                    (fun x => eq_refl) Hu) as (l' & E1 & E2 & _ & E4);
        rewrite E1
    end.
    cbn [fst snd]. eexists. split; [reflexivity|].
    split; [exact E2|].
    cbn [User._id User.name User.phone User.profilePhoto User.password
         User.createdAt User.donations].
    split; [reflexivity|].
    split; [destruct (UserUpdate.name b) as [v|]; cbn [truthy_str];
            [destruct (v =? "")|]; reflexivity|].
    split; [destruct (UserUpdate.phone b) as [v|]; cbn [truthy_str];
            [destruct (v =? "")|]; reflexivity|].
    split; [destruct (UserUpdate.profilePhoto b) as [v|]; cbn [truthy_str];
            [destruct (v =? "")|]; reflexivity|].
    repeat (split; [reflexivity|]).
    split; [exact E4|]. intros m. destruct m; reflexivity.
Qed.


(** ** Well-formed databases *)

Lemma ids_fresh_mono n n' l : ids_fresh n l -> (n <= n')%nat -> ids_fresh n' l.
Proof.
  intros [H1 H2] Hle. split; [exact H1|].
  intros i Hi. specialize (H2 i Hi). lia.
Qed.

Lemma ids_fresh_snoc n l : ids_fresh n l -> ids_fresh (S n) (l ++ [n]).
Proof.
  intros [H1 H2]. split.
  - apply NoDup_app; [exact H1 | repeat constructor; intros [] |].
    intros i Hi [E|[]]. specialize (H2 i Hi). lia.
  - intros i Hi. apply in_app_or in Hi. destruct Hi as [Hi|[<-|[]]];
      [specialize (H2 i Hi)|]; lia.
Qed.

Lemma findByIdAndUpdate_map {A B} (key : A -> oid) (g : A -> B) id upd l l' u :
  (forall x, g (upd x) = g x) ->
  findByIdAndUpdate key id upd l = Some (l', u) ->
  map g l' = map g l.
Proof.
  intros Hg. revert l'. induction l as [|a l IH]; intros l'; simpl;
    [discriminate|].
  destruct (key a =? id)%nat.
  - intros [= <- <-]. simpl. rewrite Hg. reflexivity.
  - destruct (findByIdAndUpdate key id upd l) as [[tl' d']|]; [|discriminate].
    intros [= <- <-]. simpl. rewrite (IH tl' eq_refl). reflexivity.
Qed.

Lemma NoDup_replace {A} (a b : list A) (x y : A) :
  NoDup (a ++ x :: b) -> ~ In y a -> ~ In y b -> NoDup (a ++ y :: b).
Proof.
  intros H Ha Hb. apply NoDup_remove in H. destruct H as [H Hx].
  induction a as [|c a IH]; simpl in *.
  - constructor; assumption.
  - inversion H as [|? ? Hc Hab]; subst. constructor.
    + intros Hin. apply in_app_or in Hin. destruct Hin as [Hin|[Hin|Hin]].
      * apply Hc. apply in_or_app. left. exact Hin.
      * apply Ha. left. symmetry. exact Hin.
      * apply Hc. apply in_or_app. right. exact Hin.
    + apply IH; auto.
Qed.

Lemma well_formed_empty : well_formed emptyDB.
Proof.
  split; [|split].
  - intros m. destruct m; split; simpl; try constructor; intros i [].
  - split; simpl; [constructor | intros i []].
  - constructor.
Qed.

Lemma well_formed_save_new (m : Model) (f : schema m) (db : DB) (now : Z) :
  well_formed db -> well_formed (save_new m (new_doc m db now f) db).
Proof.
  intros (Hc & Hu & Hp). split; [|split].
  - intros m'. specialize (Hc m').
    destruct m, m';
      first [ apply (ids_fresh_mono _ _ _ Hc); simpl; lia
            | simpl; rewrite map_app; apply ids_fresh_snoc; exact Hc ].
  - destruct m; apply (ids_fresh_mono _ _ _ Hu); simpl; lia.
  - destruct m; exact Hp.
Qed.

Lemma well_formed_push_donation uid entry db :
  well_formed db -> well_formed (push_donation uid entry db).
Proof.
  intros (Hc & Hu & Hp). unfold push_donation.
  destruct (findByIdAndUpdate User._id uid (add_donation entry) (users db))
    as [[us u]|] eqn:E; [|repeat split; auto; apply Hc || apply Hu].
  assert (E1 : map User._id us = map User._id (users db)).
  { refine (findByIdAndUpdate_map User._id User._id _ _ _ _ _ _ E).
    intros x. reflexivity. }
  assert (E2 : map User.phone us = map User.phone (users db)).
  { refine (findByIdAndUpdate_map User._id User.phone _ _ _ _ _ _ E).
    intros x. reflexivity. }
  split; [|split].
  - intros m. specialize (Hc m). destruct m; exact Hc.
  - cbn [users set_users nextId]. rewrite E1. exact Hu.
  - cbn [users set_users]. rewrite E2. exact Hp.
Qed.

Lemma well_formed_set_collection (m : Model) (docs : list (Doc (schema m)))
  (db : DB) :
  map _id docs = map _id (collection m db) ->
  well_formed db -> well_formed (set_collection m docs db).
Proof.
  intros E (Hc & Hu & Hp). split; [|split].
  - intros m'. specialize (Hc m').
    destruct m, m'; first [exact Hc | cbn in *; rewrite E; exact Hc].
  - destruct m; exact Hu.
  - destruct m; exact Hp.
Qed.

Lemma well_formed_register db now name phone password profilePhoto :
  well_formed db ->
  well_formed (fst (post_register db now name phone password profilePhoto)).
Proof.
  intros Hwf. unfold post_register.
  destruct (find (fun u => User.phone u =? phone) (users db)) eqn:Ef;
    [exact Hwf|].
  destruct (_ || _); [exact Hwf|].
  destruct Hwf as (Hc & Hu & Hp). cbn [fst]. split; [|split].
  - intros m. specialize (Hc m).
    destruct m; apply (ids_fresh_mono _ _ _ Hc); simpl; lia.
  - cbn [users nextId]. rewrite map_app. apply ids_fresh_snoc. exact Hu.
  - cbn [users]. rewrite map_app. apply NoDup_app;
      [exact Hp | repeat constructor; intros [] |].
    intros p Hin [<-|[]]. apply in_map_iff in Hin.
    destruct Hin as (u & Hu1 & Hu2).
    exact (proj1 (find_phone_none _ _) Ef u Hu2 Hu1).
Qed.

Lemma well_formed_put_user db id b :
  well_formed db -> well_formed (fst (put_user db id b)).
Proof.
  intros Hwf. unfold put_user. destruct id as [id|]; [|exact Hwf].
  match goal with
  | |- context [if ?c then _ else _] => destruct c eqn:Ec; [exact Hwf|]
  end.
  match goal with
  | |- context [findByIdAndUpdate User._id id ?f (users db)] =>
      set (upd := f)
  end.
  destruct (findById User._id id (users db)) as [d|] eqn:Ed.
  2: { rewrite (findByIdAndUpdate_none _ _ _ _ Ed). exact Hwf. }
  destruct (findByIdAndUpdate_split User._id id upd (users db) d Ed)
    as (l1 & l2 & E1 & Hl1 & E2).
  rewrite E2. cbn [fst]. destruct Hwf as (Hc & Hu & Hp).
  split; [|split].
  - intros m. specialize (Hc m). destruct m; exact Hc.
  - cbn [users set_users nextId]. rewrite E1 in Hu.
    rewrite map_app in *. exact Hu.
  - cbn [users set_users]. rewrite E1 in Hp, Hu. rewrite map_app in *.
    cbn [map] in *.
    destruct (UserUpdate.phone b) as [p|] eqn:Eb;
      [destruct (String.eqb_spec p "") as [->|Hne]|];
      try exact Hp.
    cbn [truthy_str] in Ec. apply String.eqb_neq in Hne.
    unfold upd. cbn [User.phone truthy_str].
    rewrite Hne. cbn [negb].
    rewrite Hne in Ec. cbn [negb andb] in Ec.
    assert (Hfree : forall u, In u (users db) -> User.phone u = p ->
                              User._id u = id).
    { intros u Hin Hph. destruct (Nat.eq_dec (User._id u) id) as [e|n];
        [exact e|].
      exfalso.
      assert (Hex : existsb (fun u => (User.phone u =? p)
                                      && negb (User._id u =? id)%nat)
                      (users db) = true).
      { apply existsb_exists. exists u. split; [exact Hin|].
        apply andb_true_intro. split;
          [apply String.eqb_eq; exact Hph
          | apply negb_true_iff, Nat.eqb_neq; exact n]. }
      congruence. }
    destruct Hu as [Hnd _].
    apply (NoDup_replace _ _ _ _ Hp).
    + intros Hin. apply in_map_iff in Hin. destruct Hin as (u & Hu1 & Hu2).
      apply (Hl1 u Hu2). apply Hfree; [|exact Hu1].
      rewrite E1. apply in_or_app. left. exact Hu2.
    + intros Hin. apply in_map_iff in Hin. destruct Hin as (u & Hu1 & Hu2).
      assert (Hid : User._id u = id).
      { apply Hfree; [|exact Hu1]. rewrite E1. apply in_or_app. right. right.
        exact Hu2. }
      apply NoDup_remove_2 in Hnd. apply Hnd. apply in_or_app. right.
      apply in_map_iff. exists u. split; [|exact Hu2].
      destruct (findById_key _ _ _ _ Ed) as [_ Hd]. congruence.
Qed.

Lemma well_formed_step (db : DB) (now : Z) (r : Request) :
  well_formed db -> well_formed (step db now r).
Proof.
  intros Hwf.
  destruct r as [n p pw ph|id b|b|b|b|b|b|b|type id status notes];
    cbn [step].
  - apply well_formed_register. exact Hwf.
  - apply well_formed_put_user. exact Hwf.
  - destruct (post_blood_donor_state db now b) as [[E _]|(f & E & _)];
      rewrite E; [exact Hwf | apply well_formed_save_new; exact Hwf].
  - apply well_formed_save_new. exact Hwf.
  - unfold post_organ_donor. cbv zeta.
    repeat match goal with
           | |- context [if ?c then _ else _] => destruct c; [exact Hwf|]
           end.
    destruct (last_donation_check now (OrganDonorBody.hasDonatedBefore b)
                (OrganDonorBody.lastDonationDate b)); [exact Hwf|].
    destruct (OrganDonorBody.userId b) as [[uid|]|];
      [|apply well_formed_save_new; exact Hwf
       |apply well_formed_save_new; exact Hwf].
    match goal with
    | |- context [findById User._id uid ?us] => destruct (findById User._id uid us)
    end; [|apply well_formed_save_new; exact Hwf].
    apply well_formed_push_donation, well_formed_save_new. exact Hwf.
  - apply well_formed_save_new. exact Hwf.
  - unfold post_money_donor. cbv zeta.
    destruct (MoneyDonorBody.userId b) as [[uid|]|];
      [|apply well_formed_save_new; exact Hwf
       |apply well_formed_save_new; exact Hwf].
    match goal with
    | |- context [findById User._id uid ?us] => destruct (findById User._id uid us)
    end; [|apply well_formed_save_new; exact Hwf].
    apply well_formed_push_donation, well_formed_save_new. exact Hwf.
  - apply well_formed_save_new. exact Hwf.
  - unfold post_admin_verify.
    destruct (negb (includes verification_types type)); [exact Hwf|].
    destruct (negb (includes ["approved"; "rejected"] status)); [exact Hwf|].
    destruct (model_of_type type) as [model|]; [|exact Hwf].
    destruct (status_of_string status) as [st|]; [|exact Hwf].
    destruct id as [id|]; [|exact Hwf].
    destruct (findByIdAndUpdate _id id _ (collection model db))
      as [[docs updated]|] eqn:Eu; [|exact Hwf].
    cbn [fst]. apply well_formed_set_collection; [|exact Hwf].
    refine (findByIdAndUpdate_map _id _id _ _ _ _ _ _ Eu).
    intros x. reflexivity.
Qed.

Lemma well_formed_run (rs : list (Z * Request)) (db : DB) :
  well_formed db -> well_formed (run db rs).
Proof.
  revert db. induction rs as [|[now r] rs IH]; intros db Hwf; simpl;
    [exact Hwf|].
  apply IH, well_formed_step, Hwf.
Qed.


(** ** Accounts in reachable states *)

Lemma find_unique_phone (us : list User.t) (u : User.t) :
  NoDup (map User.phone us) -> In u us ->
  find (fun v => User.phone v =? User.phone u) us = Some u.
Proof.
  induction us as [|a us IH]; intros Hnd Hin; [destruct Hin|].
  simpl in Hnd. inversion Hnd as [|? ? Ha Hrest]; subst.
  simpl. destruct Hin as [->|Hin].
  - rewrite String.eqb_refl. reflexivity.
  - destruct (String.eqb_spec (User.phone a) (User.phone u)) as [e|n].
    + exfalso. apply Ha. rewrite e. apply in_map. exact Hin.
    + apply IH; assumption.
Qed.

(** X7: in every state the server reaches from the empty database no two
    users share a phone, so each stored user is the one [login] finds for
    its phone: [login] with that phone succeeds exactly when
    [bcrypt.compare] accepts the password against that user's hash. *)
Theorem phones_identify_users (rs : list (Z * Request)) :
  let db := run emptyDB rs in
  NoDup (map User.phone (users db))
  /\ (forall u password,
        In u (users db) ->
        post_login db (User.phone u) password
        = if bcrypt_compare password (User.password u)
          then Json OK (mkLoggedIn "Login successful" (userResponse u))
          else Error Unauthorized "Invalid phone number or password").
Proof.
  cbv zeta.
  destruct (well_formed_run rs emptyDB well_formed_empty) as (_ & _ & Hp).
  split; [exact Hp|].
  intros u password Hin. unfold post_login.
  rewrite (find_unique_phone _ _ Hp Hin).
  destruct (bcrypt_compare password (User.password u)); reflexivity.
Qed.

(** ** From submission to review *)

Lemma includes_type_of_model (m : Model) :
  includes verification_types (type_of_model m) = true.
Proof. destruct m; reflexivity. Qed.

Lemma model_of_type_of_model (m : Model) :
  model_of_type (type_of_model m) = Some m.
Proof. destruct m; reflexivity. Qed.

Lemma pending_of_collection (m : Model) (db : DB) :
  exists pv,
    get_admin_pending_verifications db = Json OK pv
    /\ pending_of m pv = find_pending (collection m db).
Proof.
  unfold get_admin_pending_verifications. cbv zeta.
  eexists. split; [reflexivity|]. destruct m; reflexivity.
Qed.

Lemma findById_fresh {A} (key : A -> oid) (n : oid) (l : list A) :
  ids_fresh n (map key l) -> findById key n l = None.
Proof.
  intros [_ H]. apply findById_none. intros d Hd E.
  specialize (H (key d) (in_map key l d Hd)). lia.
Qed.

Lemma listed_after_save (m : Model) (db db' : DB) (now : Z) (f : schema m) :
  well_formed db ->
  collection m db' = (collection m db ++ [new_doc m db now f])%list ->
  listed_for_review m db' (nextId db) (new_doc m db now f).
Proof.
  intros (Hc & _ & _) E. unfold listed_for_review.
  split; [|repeat (split; [reflexivity|])].
  - unfold get_admin_verification.
    rewrite includes_type_of_model, model_of_type_of_model. cbn [negb].
    rewrite E, findById_app, (findById_fresh _ _ _ (Hc m)).
    cbn [new_doc _id]. rewrite Nat.eqb_refl. reflexivity.
  - destruct (pending_of_collection m db') as (pv & E1 & E2).
    exists pv. split; [exact E1|]. rewrite E2, E. unfold find_pending.
    apply filter_In. split; [|reflexivity].
    apply in_or_app. right. left. reflexivity.
Qed.

(** X8: in every reachable state, each of the six submissions, once
    accepted, is at once visible to the admin: the detail endpoint answers
    the new document under the id the submission returned, undecided
    ([pending], not verified, no decision time), and the pending answer
    lists it.  Receiver and money submissions are stored exactly as sent.
    A money donation whose [userId] cannot be cast is stored and listed in
    the same way, although its answer is 500. *)
Theorem submission_reaches_review (rs : list (Z * Request)) (now : Z)
  (bd : BloodDonorBody.t) (br : BloodReceiver.t)
  (od : OrganDonorBody.t) (orc : OrganReceiver.t)
  (md : MoneyDonorBody.t) (mr : MoneyReceiver.t) :
  let db := run emptyDB rs in
  (forall body,
      snd (post_blood_donor db now bd) = Json Created body ->
      exists d,
        listed_for_review BloodDonorM (fst (post_blood_donor db now bd))
          (sub_id body) d
        /\ BloodDonor.phone (fields d) = BloodDonorBody.phone bd
        /\ BloodDonor.bloodGroup (fields d) = BloodDonorBody.bloodGroup bd)
  /\ (forall body,
         snd (post_organ_donor db now od) = Json Created body ->
         exists d,
           listed_for_review OrganDonorM (fst (post_organ_donor db now od))
             (sub_id body) d
           /\ OrganDonor.phone (fields d) = OrganDonorBody.phone od
           /\ OrganDonor.organType (fields d) = OrganDonorBody.organType od)
  /\ (exists d,
         snd (post_blood_receiver db now br)
         = Json Created
             (mkSubmitted
                "Blood receiver registration submitted for verification. Donor details will be available once an admin approves your request."
                (_id d) "pending_verification")
         /\ listed_for_review BloodReceiverM
              (fst (post_blood_receiver db now br)) (_id d) d
         /\ fields d = br)
  /\ (exists d,
         snd (post_organ_receiver db now orc)
         = Json Created
             (mkSubmitted
                "Organ receiver registration submitted for verification. Donor details will be available once an admin approves your request."
                (_id d) "pending_verification")
         /\ listed_for_review OrganReceiverM
              (fst (post_organ_receiver db now orc)) (_id d) d
         /\ fields d = orc)
  /\ (exists d,
         snd (post_money_donor db now md)
         = (if castable (MoneyDonorBody.userId md)
            then Json Created
                   (mkSubmitted "Money donation submitted for verification"
                                (_id d) "pending_verification")
            else Thrown)
         /\ listed_for_review MoneyDonorM
              (fst (post_money_donor db now md)) (_id d) d
         /\ MoneyDonor.donorName (fields d) = MoneyDonorBody.donorName md
         /\ MoneyDonor.amount (fields d) = MoneyDonorBody.amount md)
  /\ (exists d,
         snd (post_money_receiver db now mr)
         = Json Created
             (mkSubmitted
                "Money receiver registration submitted for verification"
                (_id d) "pending_verification")
         /\ listed_for_review MoneyReceiverM
              (fst (post_money_receiver db now mr)) (_id d) d
         /\ fields d = mr).
Proof.
  cbv zeta.
  pose proof (well_formed_run rs emptyDB well_formed_empty) as Hwf.
  set (db := run emptyDB rs) in *.
  split; [|split; [|split; [|split; [|split]]]].
  - intros body Hres.
    destruct (post_blood_donor_accepted db now bd body Hres)
      as (_ & lastDate & E).
    rewrite post_blood_donor_answer in Hres.
    repeat match type of Hres with
           | (if ?c then _ else _) = _ => destruct c; [discriminate|]
           end.
    destruct (last_donation_check now (BloodDonorBody.hasDonatedBefore bd)
                (BloodDonorBody.lastDonationDate bd)); [discriminate|].
    injection Hres as <-. cbn [sub_id]. eexists. split; [|split].
    + apply listed_after_save; [exact Hwf|]. rewrite E. reflexivity.
    + reflexivity.
    + reflexivity.
  - intros body Hres.
    destruct (post_organ_donor_accepted db now od body Hres)
      as (_ & lastDate & E).
    rewrite post_organ_donor_answer in Hres.
    repeat match type of Hres with
           | (if ?c then _ else _) = _ => destruct c; [discriminate|]
           end.
    destruct (last_donation_check now (OrganDonorBody.hasDonatedBefore od)
                (OrganDonorBody.lastDonationDate od)); [discriminate|].
    destruct (castable (OrganDonorBody.userId od)); [|discriminate].
    injection Hres as <-. cbn [sub_id]. eexists. split; [|split].
    + apply listed_after_save; [exact Hwf|]. rewrite (E OrganDonorM).
      reflexivity.
    + reflexivity.
    + reflexivity.
  - exists (new_doc BloodReceiverM db now br). split; [reflexivity|].
    split; [|reflexivity].
    apply listed_after_save; [exact Hwf | reflexivity].
  - exists (new_doc OrganReceiverM db now orc). split; [reflexivity|].
    split; [|reflexivity].
    apply listed_after_save; [exact Hwf | reflexivity].
  - exists (new_doc MoneyDonorM db now
              (MoneyDonor.mk (MoneyDonorBody.donorName md)
                 (MoneyDonorBody.amount md) (MoneyDonorBody.paymentMethod md)
                 (MoneyDonorBody.verificationFile md) now)).
    split; [|split; [|split; reflexivity]].
    + unfold post_money_donor. cbv zeta.
      destruct (MoneyDonorBody.userId md) as [[uid|]|]; try reflexivity.
      match goal with
      | |- context [findById User._id uid ?us] =>
          destruct (findById User._id uid us); reflexivity
      end.
    + apply listed_after_save; [exact Hwf|].
      unfold post_money_donor. cbv zeta.
      destruct (MoneyDonorBody.userId md) as [[uid|]|]; try reflexivity.
      match goal with
      | |- context [findById User._id uid ?us] => destruct (findById User._id uid us)
      end; [|reflexivity].
      exact (push_donation_collection MoneyDonorM _ _ _).
  - exists (new_doc MoneyReceiverM db now mr). split; [reflexivity|].
    split; [|reflexivity].
    apply listed_after_save; [exact Hwf | reflexivity].
Qed.


(** ** Decisions and the lists they feed *)

Lemma findByIdAndUpdate_unique {A} (key : A -> oid) id upd l d :
  NoDup (map key l) ->
  findById key id l = Some d ->
  exists l1 l2,
    l = (l1 ++ d :: l2)%list
    /\ (forall x, In x l1 -> key x <> id)
    /\ (forall x, In x l2 -> key x <> id)
    /\ findByIdAndUpdate key id upd l = Some ((l1 ++ upd d :: l2)%list, upd d).
Proof.
  intros Hnd Hd.
  destruct (findByIdAndUpdate_split key id upd l d Hd) as (l1 & l2 & E1 & H1 & E2).
  exists l1, l2. repeat split; auto.
  intros x Hx Hk. subst l. rewrite map_app in Hnd. cbn [map] in Hnd.
  apply NoDup_remove_2 in Hnd. apply Hnd. apply in_or_app. right.
  destruct (findById_key _ _ _ _ Hd) as [_ Hid]. rewrite Hid, <- Hk.
  apply in_map. exact Hx.
Qed.

Lemma filter_all {A} (p : A -> bool) (l : list A) :
  (forall x, In x l -> p x = true) -> List.filter p l = l.
Proof.
  induction l as [|a l IH]; intros H; simpl; [reflexivity|].
  rewrite (H a (or_introl eq_refl)), IH; [reflexivity|].
  intros x Hx. apply H. right. exact Hx.
Qed.

Lemma filter_other_ids {F} (p : Doc F -> bool) (id : oid) (l : list (Doc F)) :
  (forall x, In x l -> _id x <> id) ->
  List.filter (fun x => negb (_id x =? id)%nat) (List.filter p l)
  = List.filter p l.
Proof.
  intros H. apply filter_all. intros x Hx. apply filter_In in Hx.
  apply negb_true_iff, Nat.eqb_neq, H, Hx.
Qed.

Lemma verify_success (db : DB) (now : Z) (type : string) (id : oid)
  (status : string) (notes : option string) (m : Model) :
  model_of_type type = Some m ->
  In status ["approved"; "rejected"] ->
  exists st,
    status_of_string status = Some st
    /\ st <> pending
    /\ (status =? "approved") = Status_eqb st approved
    /\ forall docs updated,
        findByIdAndUpdate _id id
          (updateData now st (Status_eqb st approved) notes)
          (collection m db) = Some (docs, updated) ->
        post_admin_verify db now type (ObjectId id) status notes
        = (set_collection m docs db,
           AdminJson m
             (mkVerified ("Verification " ++ status ++ " successfully")
                         updated)).
Proof.
  intros Hm Hs.
  destruct (status_of_string_decision status Hs) as (st & Est & Eapp & Hst).
  exists st. repeat split; auto.
  intros docs updated E. unfold post_admin_verify.
  assert (Ht : includes verification_types type = true).
  { apply includes_In, model_of_type_In. eauto. }
  assert (Hs' : includes ["approved"; "rejected"] status = true).
  { apply includes_In. exact Hs. }
  rewrite Ht, Hs', Hm, Est, Eapp, E. reflexivity.
Qed.

Lemma collection_set_collection_other (m m' : Model)
  (l : list (Doc (schema m))) (db : DB) :
  m' <> m -> collection m' (set_collection m l db) = collection m' db.
Proof. intros H. destruct m, m'; try reflexivity; contradiction. Qed.

(** X9: in every reachable state, a successful admin decision on document
    [id] of a collection removes exactly that document from the collection's
    pending list, whichever way it decides, and leaves the pending lists of
    the five other collections as they were. *)
Theorem decision_leaves_pending (rs : list (Z * Request)) (now : Z)
  (type : string) (id : oid) (status : string) (notes : option string)
  (m : Model) (d : Doc (schema m)) (pv pv' : PendingVerifications) :
  let db := run emptyDB rs in
  let db' := fst (post_admin_verify db now type (ObjectId id) status notes) in
  model_of_type type = Some m ->
  In status ["approved"; "rejected"] ->
  findById _id id (collection m db) = Some d ->
  get_admin_pending_verifications db = Json OK pv ->
  get_admin_pending_verifications db' = Json OK pv' ->
  pending_of m pv'
  = List.filter (fun x => negb (_id x =? id)%nat) (pending_of m pv)
  /\ (forall x, In x (pending_of m pv') -> _id x <> id)
  /\ (forall m', m' <> m -> pending_of m' pv' = pending_of m' pv).
Proof.
  cbv zeta. intros Hm Hs Hd Hpv Hpv'.
  pose proof (well_formed_run rs emptyDB well_formed_empty) as Hwf.
  set (db := run emptyDB rs) in *.
  destruct Hwf as (Hc & _ & _). destruct (Hc m) as [Hnd _].
  destruct (verify_success db now type id status notes m Hm Hs)
    as (st & Est & Hst & Eapp & Hv).
  destruct (findByIdAndUpdate_unique _id id
              (updateData now st (Status_eqb st approved) notes)
              (collection m db) d Hnd Hd) as (l1 & l2 & E1 & H1 & H2 & E2).
  rewrite (Hv _ _ E2) in Hpv'. cbn [fst] in Hpv'.
  assert (Ep : forall k, pending_of k pv = find_pending (collection k db)).
  { intros k. destruct (pending_of_collection k db) as (pv0 & E & E').
    rewrite Hpv in E. injection E as <-. exact E'. }
  assert (Ep' : forall k,
             pending_of k pv'
             = find_pending
                 (collection k
                    (set_collection m
                       (l1 ++ updateData now st (Status_eqb st approved) notes d
                           :: l2) db))).
  { intros k.
    destruct (pending_of_collection k
                (set_collection m
                   (l1 ++ updateData now st (Status_eqb st approved) notes d
                       :: l2) db)) as (pv0 & E & E').
    rewrite Hpv' in E. injection E as <-. exact E'. }
  assert (Emain : pending_of m pv'
                  = List.filter (fun x => negb (_id x =? id)%nat)
                      (pending_of m pv)).
  { rewrite Ep', Ep, collection_set_collection, E1. unfold find_pending.
    rewrite !filter_app. cbn [List.filter].
    cbn [updateData verificationStatus].
    destruct (findById_key _ _ _ _ Hd) as [_ Hid].
    assert (Est' : Status_eqb st pending = false)
      by (destruct st; [contradiction | reflexivity | reflexivity]).
    rewrite Est'.
    destruct (Status_eqb (verificationStatus d) pending);
      cbn [List.filter]; rewrite ?Hid, ?Nat.eqb_refl; cbn [negb];
      rewrite (filter_other_ids _ id l1 H1), (filter_other_ids _ id l2 H2);
      reflexivity. }
  split; [exact Emain|]. split.
  - intros x Hx. rewrite Emain in Hx. apply filter_In in Hx.
    destruct Hx as [_ Hx]. apply negb_true_iff, Nat.eqb_neq in Hx. exact Hx.
  - intros m' Hne. rewrite Ep', Ep, collection_set_collection_other;
      [reflexivity | exact Hne].
Qed.


Lemma findByIdAndUpdate_again {A} (key : A -> oid) id (f g : A -> A) l l' u :
  (forall x, key (f x) = key x) ->
  (forall x, g (f x) = g x) ->
  findByIdAndUpdate key id f l = Some (l', u) ->
  findByIdAndUpdate key id g l' = findByIdAndUpdate key id g l.
Proof.
  intros Hk Hg. revert l'. induction l as [|a l IH]; intros l'; simpl;
    [discriminate|].
  destruct (key a =? id)%nat eqn:E.
  - intros [= <- <-]. simpl. rewrite Hk, E, Hg. reflexivity.
  - destruct (findByIdAndUpdate key id f l) as [[tl' d']|]; [|discriminate].
    intros [= <- <-]. simpl. rewrite E, (IH tl' eq_refl). reflexivity.
Qed.

Lemma set_collection_twice (m : Model) (l1 l2 : list (Doc (schema m))) db :
  set_collection m l2 (set_collection m l1 db) = set_collection m l2 db.
Proof. destruct m; reflexivity. Qed.

(** X10: a later valid decision on the same document overwrites an earlier
    one completely: deciding twice leaves the database, and gives the
    answer, that the second call alone would have.  Nothing of the first
    decision survives, its notes included (a second call without notes
    leaves the notes empty).  With an id that cannot be cast both calls
    change nothing, and the equation holds as well. *)
Theorem later_decision_overwrites (db : DB) (now1 now2 : Z) (type : string)
  (id : ClientId) (status1 status2 : string) (notes1 notes2 : option string) :
  In status2 ["approved"; "rejected"] ->
  post_admin_verify (fst (post_admin_verify db now1 type id status1 notes1))
    now2 type id status2 notes2
  = post_admin_verify db now2 type id status2 notes2.
Proof.
  intros Hs2. unfold post_admin_verify at 2.
  destruct (includes verification_types type) eqn:Et; cbn [negb];
    [|reflexivity].
  destruct (negb (includes ["approved"; "rejected"] status1)); [reflexivity|].
  destruct (model_of_type type) as [m|] eqn:Em; [|reflexivity].
  destruct (status_of_string status1) as [st1|]; [|reflexivity].
  destruct id as [id|]; [|reflexivity].
  destruct (findByIdAndUpdate _id id _ (collection m db))
    as [[docs updated]|] eqn:E1; [|reflexivity].
  cbn [fst].
  destruct (verify_success db now2 type id status2 notes2 m Em Hs2)
    as (st2 & Est2 & _ & Eapp2 & _).
  assert (Hs2' : includes ["approved"; "rejected"] status2 = true).
  { apply includes_In. exact Hs2. }
  unfold post_admin_verify.
  rewrite Et, Hs2', Em, Est2, collection_set_collection. cbn [negb].
  rewrite (findByIdAndUpdate_again _id id
             (updateData now1 st1 (status1 =? "approved") notes1)
             (updateData now2 st2 (status2 =? "approved") notes2) _ _ _
             (fun x => eq_refl) (fun x => eq_refl) E1).
  destruct (findByIdAndUpdate_lookup _id id
              (updateData now1 st1 (status1 =? "approved") notes1)
              _ _ _ (fun x => eq_refl) E1) as [(d & Ed & _) _].
  destruct (findByIdAndUpdate_some _id id
              (updateData now2 st2 (status2 =? "approved") notes2)
              (collection m db) d (fun x => eq_refl) Ed) as (docs2 & E2 & _).
  rewrite E2, set_collection_twice. reflexivity.
Qed.

(** ** What no request does *)

Lemma same_submission_refl {F} (l : list (Doc F)) :
  Forall2 same_submission l l.
Proof. induction l; constructor; [repeat split | assumption]. Qed.

Lemma same_submission_trans {F} (a b c : list (Doc F)) :
  Forall2 same_submission a b -> Forall2 same_submission b c ->
  Forall2 same_submission a c.
Proof.
  intros H. revert c. induction H as [|x y a b Hxy _ IH]; intros c Hc.
  - inversion Hc. constructor.
  - inversion Hc as [|? z ? c' Hyz Hbc]; subst. constructor; [|apply IH, Hbc].
    destruct Hxy as (E1 & E2 & E3), Hyz as (E4 & E5 & E6).
    repeat split; congruence.
Qed.

Lemma findByIdAndUpdate_same_submission {F} id (upd : Doc F -> Doc F) l l' u :
  (forall x, same_submission x (upd x)) ->
  findByIdAndUpdate _id id upd l = Some (l', u) ->
  Forall2 same_submission l l'.
Proof.
  intros Hu. revert l'. induction l as [|a l IH]; intros l'; simpl;
    [discriminate|].
  destruct (_id a =? id)%nat.
  - intros [= <- <-]. constructor; [apply Hu | apply same_submission_refl].
  - destruct (findByIdAndUpdate _id id upd l) as [[tl' d']|]; [|discriminate].
    intros [= <- <-]. constructor; [repeat split | apply IH; reflexivity].
Qed.

Lemma step_keeps_submissions (db : DB) (now : Z) (r : Request) (m : Model) :
  exists kept added,
    collection m (step db now r) = (kept ++ added)%list
    /\ Forall2 same_submission (collection m db) kept
    /\ Forall (fun d => verificationStatus d = pending
                        /\ submittedAt d = now) added.
Proof.
  destruct (step_step_effect m db now r)
    as [E|[(f & E)|(type & id & status & notes & st & updated
                    & _ & _ & _ & _ & E)]].
  - exists (collection m db), []. rewrite app_nil_r.
    split; [exact E|]. split; [apply same_submission_refl | constructor].
  - exists (collection m db), [new_doc m db now f].
    split; [exact E|]. split; [apply same_submission_refl|].
    constructor; [split; reflexivity | constructor].
  - exists (collection m (step db now r)), []. rewrite app_nil_r.
    split; [reflexivity|]. split; [|constructor].
    refine (findByIdAndUpdate_same_submission id _ _ _ _ _ E).
    intros x. repeat split.
Qed.

Lemma run_keeps_submissions (rs : list (Z * Request)) (db : DB)
  (m : Model) :
  exists kept added,
    collection m (run db rs) = (kept ++ added)%list
    /\ Forall2 same_submission (collection m db) kept.
Proof.
  revert db. induction rs as [|[now r] rs IH]; intros db; simpl.
  - exists (collection m db), []. rewrite app_nil_r.
    split; [reflexivity | apply same_submission_refl].
  - destruct (step_keeps_submissions db now r m) as (k1 & a1 & E1 & H1 & _).
    destruct (IH (step db now r)) as (k2 & a2 & E2 & H2).
    rewrite E1 in H2. apply Forall2_app_inv_l in H2.
    destruct H2 as (k2a & k2b & Ha & Hb & ->).
    exists k2a, (k2b ++ a2)%list. rewrite E2, app_assoc.
    split; [reflexivity|]. exact (same_submission_trans _ _ _ H1 Ha).
Qed.

(** X11: no request deletes, reorders or edits a submission.  Along any
    run, from any database, each collection keeps its documents in order,
    each with the id, the submitted fields and the submission time it was
    created with; only verification fields change, and new documents are
    added at the end. *)
Theorem submissions_are_permanent (rs : list (Z * Request)) (db : DB)
  (m : Model) :
  exists kept added,
    collection m (run db rs) = (kept ++ added)%list
    /\ Forall2 same_submission (collection m db) kept.
Proof. exact (run_keeps_submissions rs db m). Qed.


(** ** The approval gate, end to end *)

Lemma findOneSorted_snoc {A} (before : A -> A -> bool) (p : A -> bool)
  (l : list A) (x : A) :
  (forall y, In y l -> p y = false) ->
  findOneSorted before p (l ++ [x]) = if p x then Some x else None.
Proof.
  intros H. unfold findOneSorted. rewrite fold_left_app.
  assert (E : forall acc,
             fold_left
               (fun best d =>
                  if p d then
                    match best with
                    | None => Some d
                    | Some b => if before d b then Some d else Some b
                    end
                  else best) l acc = acc).
  { induction l as [|a l IH]; intros acc; simpl; [reflexivity|].
    rewrite (H a (or_introl eq_refl)). apply IH.
    intros y Hy. apply H. right. exact Hy. }
  rewrite E. simpl. destruct (p x); reflexivity.
Qed.

Lemma findByIdAndUpdate_snoc {A} (key : A -> oid) id upd (l : list A) (x : A) :
  (forall y, In y l -> key y <> id) -> key x = id ->
  findByIdAndUpdate key id upd (l ++ [x]) = Some ((l ++ [upd x])%list, upd x).
Proof.
  intros H Hx. induction l as [|a l IH]; simpl.
  - rewrite Hx, Nat.eqb_refl. reflexivity.
  - destruct (Nat.eqb_spec (key a) id) as [e|n].
    + destruct (H a (or_introl eq_refl) e).
    + rewrite IH; [reflexivity|]. intros y Hy. apply H. right. exact Hy.
Qed.

Lemma ids_fresh_other {A} (key : A -> oid) (n : oid) (l : list A) :
  ids_fresh n (map key l) -> forall y, In y l -> key y <> n.
Proof.
  intros [_ H] y Hy E. specialize (H (key y) (in_map key l y Hy)). lia.
Qed.

Lemma blood_approval_gate (rs : list (Z * Request)) (now1 now2 : Z)
  (b : BloodReceiver.t) (phone : string) (notes : option string) :
  let db := run emptyDB rs in
  let db1 := fst (post_blood_receiver db now1 b) in
  phone_regex phone = true ->
  BloodReceiver.phone b = Some phone ->
  (forall r, In r (bloodReceivers db) ->
             BloodReceiver.phone (fields r) <> Some phone) ->
  approval_gate get_blood_receiver_matching_donors (bloodDonors db)
    BloodDonor.bloodGroup BloodReceiver.bloodNeed blood_receiver_summary
    db db1
    (fun status =>
       fst (post_admin_verify db1 now2 "blood-receiver" (ObjectId (nextId db)) status
              notes))
    phone b.
Proof.
  cbv zeta. intros Hph Hb Hnone.
  pose proof (well_formed_run rs emptyDB well_formed_empty) as Hwf.
  set (db := run emptyDB rs) in *.
  destruct Hwf as (Hc & _ & _). specialize (Hc BloodReceiverM).
  cbn [collection] in Hc.
  pose proof (ids_fresh_other _id _ _ Hc) as Hfresh.
  assert (Hfp : forall y, In y (bloodReceivers db) ->
                  opt_str_eqb (BloodReceiver.phone (fields y)) (Some phone)
                  = false).
  { intros y Hy.
    destruct (opt_str_eqb (BloodReceiver.phone (fields y)) (Some phone))
      eqn:E; [|reflexivity].
    apply opt_str_eqb_eq in E. destruct (Hnone y Hy E). }
  assert (Hfa : forall y, In y (bloodReceivers db) ->
                  opt_str_eqb (BloodReceiver.phone (fields y)) (Some phone)
                  && Status_eqb (verificationStatus y) approved = false).
  { intros y Hy. rewrite (Hfp y Hy). reflexivity. }
  assert (Hguard : negb (truthy_str (Some phone))
                   || negb (phone_regex_opt (Some phone)) = false).
  { rewrite (phone_regex_truthy phone Hph). cbn [phone_regex_opt].
    rewrite Hph. reflexivity. }
  assert (Hself : opt_str_eqb (BloodReceiver.phone b) (Some phone) = true).
  { apply opt_str_eqb_eq. exact Hb. }
  assert (Hdecide : forall status st,
             In status ["approved"; "rejected"] ->
             status_of_string status = Some st ->
             fst (post_admin_verify (fst (post_blood_receiver db now1 b)) now2
                    "blood-receiver" (ObjectId (nextId db)) status notes)
             = set_collection BloodReceiverM
                 (bloodReceivers db
                  ++ [updateData now2 st (Status_eqb st approved) notes
                        (new_doc BloodReceiverM db now1 b)])%list
                 (fst (post_blood_receiver db now1 b))).
  { intros status st Hin Hst.
    destruct (verify_success (fst (post_blood_receiver db now1 b)) now2
                "blood-receiver" (nextId db) status notes BloodReceiverM
                eq_refl Hin) as (st' & Est & _ & _ & Hv).
    rewrite Hst in Est. injection Est as <-.
    rewrite (Hv (bloodReceivers db
                 ++ [updateData now2 st (Status_eqb st approved) notes
                       (new_doc BloodReceiverM db now1 b)])%list
                (updateData now2 st (Status_eqb st approved) notes
                   (new_doc BloodReceiverM db now1 b)));
      [reflexivity|].
    apply (findByIdAndUpdate_snoc _id (nextId db)); [exact Hfresh|].
    reflexivity. }
  unfold approval_gate. split; [|split; [|split]].
  - unfold get_blood_receiver_matching_donors. rewrite Hguard.
    rewrite (proj2 (findOneSorted_none _ _ by_verifiedAt_submittedAt_asym
                      by_verifiedAt_submittedAt_negtrans _) Hfa).
    rewrite (proj2 (findOneSorted_none _ _ by_submittedAt_asym
                      by_submittedAt_negtrans _) Hfp).
    reflexivity.
  - unfold get_blood_receiver_matching_donors. rewrite Hguard.
    cbn [post_blood_receiver fst save_new set_collection collection
         bloodReceivers bloodDonors].
    rewrite !findOneSorted_snoc by assumption.
    cbn [new_doc fields verificationStatus Status_eqb].
    rewrite Hself. cbn [andb]. reflexivity.
  - rewrite (Hdecide "rejected" rejected
               (or_intror (or_introl eq_refl)) eq_refl).
    unfold get_blood_receiver_matching_donors. rewrite Hguard.
    cbn [post_blood_receiver fst save_new set_collection collection
         bloodReceivers bloodDonors].
    rewrite !findOneSorted_snoc by assumption.
    cbn [updateData new_doc fields verificationStatus Status_eqb].
    rewrite Hself. cbn [andb]. reflexivity.
  - rewrite (Hdecide "approved" approved (or_introl eq_refl) eq_refl).
    unfold get_blood_receiver_matching_donors. rewrite Hguard.
    cbn [post_blood_receiver fst save_new set_collection collection
         bloodReceivers bloodDonors].
    rewrite !findOneSorted_snoc by assumption.
    cbn [updateData new_doc fields verificationStatus Status_eqb].
    rewrite Hself. cbn [andb]. reflexivity.
Qed.

Lemma organ_approval_gate (rs : list (Z * Request)) (now1 now2 : Z)
  (b : OrganReceiver.t) (phone : string) (notes : option string) :
  let db := run emptyDB rs in
  let db1 := fst (post_organ_receiver db now1 b) in
  phone_regex phone = true ->
  OrganReceiver.phone b = Some phone ->
  (forall r, In r (organReceivers db) ->
             OrganReceiver.phone (fields r) <> Some phone) ->
  approval_gate get_organ_receiver_matching_donors (organDonors db)
    OrganDonor.organType OrganReceiver.organNeed organ_receiver_summary
    db db1
    (fun status =>
       fst (post_admin_verify db1 now2 "organ-receiver" (ObjectId (nextId db)) status
              notes))
    phone b.
Proof.
  cbv zeta. intros Hph Hb Hnone.
  pose proof (well_formed_run rs emptyDB well_formed_empty) as Hwf.
  set (db := run emptyDB rs) in *.
  destruct Hwf as (Hc & _ & _). specialize (Hc OrganReceiverM).
  cbn [collection] in Hc.
  pose proof (ids_fresh_other _id _ _ Hc) as Hfresh.
  assert (Hfp : forall y, In y (organReceivers db) ->
                  opt_str_eqb (OrganReceiver.phone (fields y)) (Some phone)
                  = false).
  { intros y Hy.
    destruct (opt_str_eqb (OrganReceiver.phone (fields y)) (Some phone))
      eqn:E; [|reflexivity].
    apply opt_str_eqb_eq in E. destruct (Hnone y Hy E). }
  assert (Hfa : forall y, In y (organReceivers db) ->
                  opt_str_eqb (OrganReceiver.phone (fields y)) (Some phone)
                  && Status_eqb (verificationStatus y) approved = false).
  { intros y Hy. rewrite (Hfp y Hy). reflexivity. }
  assert (Hguard : negb (truthy_str (Some phone))
                   || negb (phone_regex_opt (Some phone)) = false).
  { rewrite (phone_regex_truthy phone Hph). cbn [phone_regex_opt].
    rewrite Hph. reflexivity. }
  assert (Hself : opt_str_eqb (OrganReceiver.phone b) (Some phone) = true).
  { apply opt_str_eqb_eq. exact Hb. }
  assert (Hdecide : forall status st,
             In status ["approved"; "rejected"] ->
             status_of_string status = Some st ->
             fst (post_admin_verify (fst (post_organ_receiver db now1 b)) now2
                    "organ-receiver" (ObjectId (nextId db)) status notes)
             = set_collection OrganReceiverM
                 (organReceivers db
                  ++ [updateData now2 st (Status_eqb st approved) notes
                        (new_doc OrganReceiverM db now1 b)])%list
                 (fst (post_organ_receiver db now1 b))).
  { intros status st Hin Hst.
    destruct (verify_success (fst (post_organ_receiver db now1 b)) now2
                "organ-receiver" (nextId db) status notes OrganReceiverM
                eq_refl Hin) as (st' & Est & _ & _ & Hv).
    rewrite Hst in Est. injection Est as <-.
    rewrite (Hv (organReceivers db
                 ++ [updateData now2 st (Status_eqb st approved) notes
                       (new_doc OrganReceiverM db now1 b)])%list
                (updateData now2 st (Status_eqb st approved) notes
                   (new_doc OrganReceiverM db now1 b)));
      [reflexivity|].
    apply (findByIdAndUpdate_snoc _id (nextId db)); [exact Hfresh|].
    reflexivity. }
  unfold approval_gate. split; [|split; [|split]].
  - unfold get_organ_receiver_matching_donors. rewrite Hguard.
    rewrite (proj2 (findOneSorted_none _ _ by_verifiedAt_submittedAt_asym
                      by_verifiedAt_submittedAt_negtrans _) Hfa).
    rewrite (proj2 (findOneSorted_none _ _ by_submittedAt_asym
                      by_submittedAt_negtrans _) Hfp).
    reflexivity.
  - unfold get_organ_receiver_matching_donors. rewrite Hguard.
    cbn [post_organ_receiver fst save_new set_collection collection
         organReceivers organDonors].
    rewrite !findOneSorted_snoc by assumption.
    cbn [new_doc fields verificationStatus Status_eqb].
    rewrite Hself. cbn [andb]. reflexivity.
  - rewrite (Hdecide "rejected" rejected
               (or_intror (or_introl eq_refl)) eq_refl).
    unfold get_organ_receiver_matching_donors. rewrite Hguard.
    cbn [post_organ_receiver fst save_new set_collection collection
         organReceivers organDonors].
    rewrite !findOneSorted_snoc by assumption.
    cbn [updateData new_doc fields verificationStatus Status_eqb].
    rewrite Hself. cbn [andb]. reflexivity.
  - rewrite (Hdecide "approved" approved (or_introl eq_refl) eq_refl).
    unfold get_organ_receiver_matching_donors. rewrite Hguard.
    cbn [post_organ_receiver fst save_new set_collection collection
         organReceivers organDonors].
    rewrite !findOneSorted_snoc by assumption.
    cbn [updateData new_doc fields verificationStatus Status_eqb].
    rewrite Hself. cbn [andb]. reflexivity.
Qed.

(** X12: in every reachable state, for a ten-digit phone under which no
    receiver is registered yet, both receiver flows pass the approval gate:
    the matching query answers NotFound before the registration, Forbidden
    with status pending after it, Forbidden with status rejected once the
    admin rejects the new document, and, once the admin approves it, OK
    with the summary of what was registered and every approved donor whose
    blood group (organ type) equals the registered need. *)
Theorem approval_gate_end_to_end (rs : list (Z * Request)) (now1 now2 : Z)
  (br : BloodReceiver.t) (orc : OrganReceiver.t) (phone : string)
  (notes : option string) :
  let db := run emptyDB rs in
  phone_regex phone = true ->
  (BloodReceiver.phone br = Some phone ->
   (forall r, In r (bloodReceivers db) ->
              BloodReceiver.phone (fields r) <> Some phone) ->
   approval_gate get_blood_receiver_matching_donors (bloodDonors db)
     BloodDonor.bloodGroup BloodReceiver.bloodNeed blood_receiver_summary
     db (fst (post_blood_receiver db now1 br))
     (fun status =>
        fst (post_admin_verify (fst (post_blood_receiver db now1 br)) now2
               "blood-receiver" (ObjectId (nextId db)) status notes))
     phone br)
  /\ (OrganReceiver.phone orc = Some phone ->
      (forall r, In r (organReceivers db) ->
                 OrganReceiver.phone (fields r) <> Some phone) ->
      approval_gate get_organ_receiver_matching_donors (organDonors db)
        OrganDonor.organType OrganReceiver.organNeed organ_receiver_summary
        db (fst (post_organ_receiver db now1 orc))
        (fun status =>
           fst (post_admin_verify (fst (post_organ_receiver db now1 orc)) now2
                  "organ-receiver" (ObjectId (nextId db)) status notes))
        phone orc).
Proof.
  cbv zeta. intros Hph. split.
  - intros Hb Hnone. exact (blood_approval_gate rs now1 now2 br phone notes
                              Hph Hb Hnone).
  - intros Hb Hnone. exact (organ_approval_gate rs now1 now2 orc phone notes
                              Hph Hb Hnone).
Qed.

(** ** The verification fields fit together *)

Lemma step_preserves_envelope (db : DB) (now : Z) (r : Request) :
  (forall m d, In d (collection m db) -> envelope_ok d) ->
  forall m d, In d (collection m (step db now r)) -> envelope_ok d.
Proof.
  intros Hall m d Hd.
  destruct (step_step_effect m db now r)
    as [E|[(f & E)|(type & id & status & notes & st & updated
                    & _ & _ & _ & Hst & E)]].
  - rewrite E in Hd. exact (Hall m d Hd).
  - rewrite E in Hd. apply in_app_or in Hd. destruct Hd as [Hd|[<-|[]]].
    + exact (Hall m d Hd).
    + split; [intros _; repeat split | intros H; destruct (H eq_refl)].
  - destruct (findByIdAndUpdate_In _ _ _ _ _ _ E d Hd) as [H|(d0 & _ & ->)].
    + exact (Hall m d H).
    + split; [intros H; destruct (Hst H) | intros _; discriminate].
Qed.

(** X13: in every reachable state the verification fields of every donor
    and receiver document fit together: a pending document has no decision
    time, empty admin notes and is not verified, and a decided (approved or
    rejected) document has a decision time. *)
Theorem verification_fields_fit (rs : list (Z * Request)) (m : Model)
  (d : Doc (schema m)) :
  In d (collection m (run emptyDB rs)) -> envelope_ok d.
Proof.
  assert (H : forall rs db,
             (forall m d, In d (collection m db) -> envelope_ok d) ->
             forall m d, In d (collection m (run db rs)) -> envelope_ok d).
  { clear. induction rs as [|[now r] rs IH]; intros db Hall; simpl;
      [exact Hall|].
    apply IH. apply step_preserves_envelope. exact Hall. }
  apply H. intros m' d' Hd'. destruct m'; destruct Hd'.
Qed.

(** ** Accounts are permanent *)

Lemma same_account_refl u : same_account u u.
Proof.
  repeat split. exists []. rewrite app_nil_r. reflexivity.
Qed.

Lemma same_account_trans u v w :
  same_account u v -> same_account v w -> same_account u w.
Proof.
  intros (E1 & E2 & E3 & l1 & E4) (F1 & F2 & F3 & l2 & F4).
  repeat split; try congruence.
  exists (l1 ++ l2)%list. rewrite F4, E4, app_assoc. reflexivity.
Qed.

Lemma users_update_account id (upd : User.t -> User.t) us us' u0 uid u :
  (forall x, same_account x (upd x)) ->
  findByIdAndUpdate User._id id upd us = Some (us', u0) ->
  findById User._id uid us = Some u ->
  exists u', findById User._id uid us' = Some u' /\ same_account u u'.
Proof.
  intros Hsame E Hu.
  assert (Hk : forall x, User._id (upd x) = User._id x).
  { intros x. destruct (Hsame x) as (H & _). exact H. }
  destruct (findByIdAndUpdate_lookup User._id id upd us us' u0 Hk E)
    as [(d & Ed & Eu & El) Hother].
  destruct (Nat.eq_dec uid id) as [->|Hne].
  - rewrite Ed in Hu. injection Hu as <-. exists u0. split; [exact El|].
    rewrite Eu. apply Hsame.
  - exists u. rewrite (Hother uid Hne). split; [exact Hu|].
    apply same_account_refl.
Qed.

Lemma push_donation_account uid entry db id u :
  findById User._id id (users db) = Some u ->
  exists u',
    findById User._id id (users (push_donation uid entry db)) = Some u'
    /\ same_account u u'.
Proof.
  intros Hu. unfold push_donation.
  destruct (findByIdAndUpdate User._id uid (add_donation entry) (users db))
    as [[us u0]|] eqn:E.
  - cbn [users set_users].
    refine (users_update_account uid (add_donation entry) _ _ _ _ _ _ E Hu).
    intros x. repeat split. exists [entry]. reflexivity.
  - exists u. split; [exact Hu | apply same_account_refl].
Qed.

Lemma step_keeps_accounts (db : DB) (now : Z) (r : Request) (id : oid)
  (u : User.t) :
  findById User._id id (users db) = Some u ->
  exists u',
    findById User._id id (users (step db now r)) = Some u'
    /\ same_account u u'.
Proof.
  intros Hu.
  assert (Hsame : exists u',
             findById User._id id (users db) = Some u' /\ same_account u u').
  { exists u. split; [exact Hu | apply same_account_refl]. }
  destruct r as [n p pw ph|uid b|b|b|b|b|b|b|type vid status notes];
    cbn [step].
  - unfold post_register.
    destruct (find _ (users db)); [exact Hsame|].
    destruct (_ || _); [exact Hsame|].
    cbn [fst users]. rewrite findById_app, Hu.
    exists u. split; [reflexivity | apply same_account_refl].
  - unfold put_user. destruct uid as [uid|]; [|exact Hsame].
    match goal with
    | |- context [if ?c then _ else _] => destruct c; [exact Hsame|]
    end.
    match goal with
    | |- context [findByIdAndUpdate User._id uid ?f (users db)] =>
        destruct (findByIdAndUpdate User._id uid f (users db))
          as [[us u0]|] eqn:E; [|exact Hsame];
        cbn [fst users set_users];
        refine (users_update_account uid f _ _ _ _ _ _ E Hu)
    end.
    intros x. repeat split. exists []. rewrite app_nil_r. reflexivity.
  - destruct (post_blood_donor_state db now b) as [[E _]|(f & E & _)];
      rewrite E; exact Hsame.
  - exact Hsame.
  - unfold post_organ_donor. cbv zeta.
    repeat match goal with
           | |- context [if ?c then _ else _] => destruct c; [exact Hsame|]
           end.
    destruct (last_donation_check now (OrganDonorBody.hasDonatedBefore b)
                (OrganDonorBody.lastDonationDate b)); [exact Hsame|].
    destruct (OrganDonorBody.userId b) as [[uid|]|];
      [|exact Hsame|exact Hsame].
    match goal with
    | |- context [findById User._id uid ?us] => destruct (findById User._id uid us)
    end; [|exact Hsame].
    apply push_donation_account. exact Hu.
  - exact Hsame.
  - unfold post_money_donor. cbv zeta.
    destruct (MoneyDonorBody.userId b) as [[uid|]|];
      [|exact Hsame|exact Hsame].
    match goal with
    | |- context [findById User._id uid ?us] => destruct (findById User._id uid us)
    end; [|exact Hsame].
    apply push_donation_account. exact Hu.
  - exact Hsame.
  - unfold post_admin_verify.
    destruct (negb (includes verification_types type)); [exact Hsame|].
    destruct (negb (includes ["approved"; "rejected"] status)); [exact Hsame|].
    destruct (model_of_type type) as [model|]; [|exact Hsame].
    destruct (status_of_string status) as [st|]; [|exact Hsame].
    destruct vid as [vid|]; [|exact Hsame].
    destruct (findByIdAndUpdate _id vid _ (collection model db))
      as [[docs updated]|]; [|exact Hsame].
    cbn [fst]. destruct model; exact Hsame.
Qed.

(** X14: no request deletes a user, changes its id, password hash or
    creation time, or removes or rewrites an entry of its donation log.
    Along any run, from any database, a user that can be looked up by id
    still can, with the same password hash and creation time and with a
    donation log that extends the earlier one. *)
Theorem accounts_are_permanent (rs : list (Z * Request)) (db : DB) (id : oid)
  (u : User.t) :
  findById User._id id (users db) = Some u ->
  exists u',
    findById User._id id (users (run db rs)) = Some u'
    /\ same_account u u'.
Proof.
  revert db u. induction rs as [|[now r] rs IH]; intros db u Hu; simpl.
  - exists u. split; [exact Hu | apply same_account_refl].
  - destruct (step_keeps_accounts db now r id u Hu) as (u1 & H1 & S1).
    destruct (IH _ _ H1) as (u2 & H2 & S2).
    exists u2. split; [exact H2 | exact (same_account_trans _ _ _ S1 S2)].
Qed.


(** ** Looking users up *)

Lemma findById_unique {A} (key : A -> oid) (l : list A) (u : A) :
  NoDup (map key l) -> In u l -> findById key (key u) l = Some u.
Proof.
  unfold findById. induction l as [|a l IH]; intros Hnd Hin; [destruct Hin|].
  simpl in Hnd. inversion Hnd as [|? ? Ha Hrest]; subst.
  simpl. destruct Hin as [->|Hin].
  - rewrite Nat.eqb_refl. reflexivity.
  - destruct (Nat.eqb_spec (key a) (key u)) as [e|n].
    + exfalso. apply Ha. rewrite e. apply in_map. exact Hin.
    + apply IH; assumption.
Qed.

(** X15: in every reachable state [listUsers] answers one entry per stored
    user, in order and without passwords, and [getUser] on the id of any
    listed entry answers that same entry. *)
Theorem users_listing_coherent (rs : list (Z * Request)) :
  let db := run emptyDB rs in
  exists listed,
    get_users db = Json OK listed
    /\ map ur_id listed = map User._id (users db)
    /\ (forall r, In r listed -> get_user db (ObjectId (ur_id r)) = Json OK r).
Proof.
  cbv zeta.
  destruct (well_formed_run rs emptyDB well_formed_empty) as (_ & [Hnd _] & _).
  eexists. split; [reflexivity|]. split.
  - rewrite map_map. reflexivity.
  - intros r Hr. apply in_map_iff in Hr. destruct Hr as (u & <- & Hu).
    unfold get_user. cbn [userResponse ur_id].
    rewrite (findById_unique User._id _ u Hnd Hu). reflexivity.
Qed.

Lemma find_middle {A} (p : A -> bool) (l1 l2 : list A) (x : A) :
  (forall y, In y l1 -> p y = false) ->
  find p (l1 ++ x :: l2)
  = if p x then Some x else find p l2.
Proof.
  intros H. induction l1 as [|a l1 IH]; simpl; [reflexivity|].
  rewrite (H a (or_introl eq_refl)). apply IH.
  intros y Hy. apply H. right. exact Hy.
Qed.

(** X16: in every reachable state, when a user changes its phone to a
    non-empty one that no user has, [login] follows the phone: with the new
    phone it succeeds exactly when [bcrypt.compare] accepts the password
    against the unchanged hash, and with the old phone it answers
    Unauthorized. *)
Theorem phone_change_moves_login (rs : list (Z * Request)) (id : oid)
  (b : UserUpdate.t) (p password : string) (u : User.t) :
  let db := run emptyDB rs in
  let db' := fst (put_user db (ObjectId id) b) in
  findById User._id id (users db) = Some u ->
  UserUpdate.phone b = Some p ->
  p <> "" ->
  (forall v, In v (users db) -> User.phone v <> p) ->
  exists u',
    findById User._id id (users db') = Some u'
    /\ User.phone u' = p
    /\ User.password u' = User.password u
    /\ post_login db' p password
       = (if bcrypt_compare password (User.password u)
          then Json OK (mkLoggedIn "Login successful" (userResponse u'))
          else Error Unauthorized "Invalid phone number or password")
    /\ post_login db' (User.phone u) password
       = Error Unauthorized "Invalid phone number or password".
Proof.
  cbv zeta. intros Hu Hb Hp Hfree.
  destruct (well_formed_run rs emptyDB well_formed_empty)
    as (_ & [Hnd _] & Hph).
  set (db := run emptyDB rs) in *.
  unfold put_user. rewrite Hb.
  assert (Hex : existsb (fun v => (User.phone v =? p)
                                  && negb (User._id v =? id)%nat)
                  (users db) = false).
  { destruct (existsb _ (users db)) eqn:E; [|reflexivity].
    apply existsb_exists in E. destruct E as (v & Hv & Hc).
    apply andb_prop in Hc. destruct Hc as [Hc _].
    apply String.eqb_eq in Hc. destruct (Hfree v Hv Hc). }
  rewrite Hex, andb_false_r.
  match goal with
  | |- context [findByIdAndUpdate User._id id ?f (users db)] =>
      set (upd := f)
  end.
  destruct (findByIdAndUpdate_unique User._id id upd (users db) u Hnd Hu)
    as (l1 & l2 & E1 & H1 & H2 & E2).
  rewrite E2. cbn [fst users set_users].
  assert (Hup : User.phone (upd u) = p).
  { unfold upd. cbn [User.phone truthy_str].
    apply String.eqb_neq in Hp. rewrite Hp. reflexivity. }
  assert (Hl1 : forall y, In y l1 -> (User.phone y =? p) = false).
  { intros y Hy. apply String.eqb_neq, Hfree. rewrite E1.
    apply in_or_app. left. exact Hy. }
  assert (Hold : User.phone u <> p).
  { apply Hfree. rewrite E1. apply in_or_app. right. left. reflexivity. }
  rewrite E1, map_app in Hph. cbn [map] in Hph.
  pose proof (NoDup_remove_2 _ _ _ Hph) as Hnot.
  exists (upd u). split; [|split; [exact Hup|split; [reflexivity|split]]].
  - unfold findById. rewrite find_middle.
    + change (User._id (upd u)) with (User._id u).
      destruct (findById_key _ _ _ _ Hu) as [_ ->].
      rewrite Nat.eqb_refl. reflexivity.
    + intros y Hy. apply Nat.eqb_neq, H1, Hy.
  - unfold post_login. cbn [users set_users].
    rewrite (find_middle _ _ _ _ Hl1).
    rewrite Hup, String.eqb_refl.
    change (User.password (upd u)) with (User.password u).
    destruct (bcrypt_compare password (User.password u)); reflexivity.
  - unfold post_login. cbn [users set_users]. rewrite find_middle.
    + rewrite Hup.
      destruct (String.eqb_spec p (User.phone u)) as [e|_];
        [destruct (Hold (eq_sym e))|].
      destruct (find _ l2) as [v|] eqn:Ef; [|reflexivity].
      apply find_some in Ef. destruct Ef as [Hv Hc].
      apply String.eqb_eq in Hc. exfalso. apply Hnot.
      apply in_or_app. right. rewrite <- Hc. apply in_map. exact Hv.
    + intros y Hy. apply String.eqb_neq. intros Hc. apply Hnot.
      apply in_or_app. left. rewrite <- Hc. apply in_map. exact Hy.
Qed.


(** ** Decisions are local, and they drive the blood donor listing *)

(** X17: an admin decision touches one document only.  Whatever the
    request, [verify] leaves the users, the next id and every collection
    other than the one it names as they were; in the named collection every
    document with another id is still found unchanged, and no document is
    added or removed. *)
Theorem decision_is_local (db : DB) (now : Z) (type : string) (id : ClientId)
  (status : string) (notes : option string) :
  let db' := fst (post_admin_verify db now type id status notes) in
  users db' = users db
  /\ nextId db' = nextId db
  /\ (forall m, model_of_type type <> Some m ->
                collection m db' = collection m db)
  /\ (forall m j, ObjectId j <> id ->
                  findById _id j (collection m db')
                  = findById _id j (collection m db))
  /\ (forall m, map _id (collection m db') = map _id (collection m db)).
Proof.
  cbv zeta. unfold post_admin_verify.
  destruct (negb (includes verification_types type));
    [repeat split; reflexivity|].
  destruct (negb (includes ["approved"; "rejected"] status));
    [repeat split; reflexivity|].
  destruct (model_of_type type) as [model|]; [|repeat split; reflexivity].
  destruct (status_of_string status) as [st|]; [|repeat split; reflexivity].
  destruct id as [id|]; [|repeat split; reflexivity].
  destruct (findByIdAndUpdate _id id
              (updateData now st (status =? "approved") notes)
              (collection model db)) as [[docs updated]|] eqn:E;
    [|repeat split; reflexivity].
  cbn [fst].
  destruct (findByIdAndUpdate_lookup _id id
              (updateData now st (status =? "approved") notes)
              _ _ _ (fun x => eq_refl) E) as [_ Hother].
  assert (Hmap : map _id docs = map _id (collection model db)).
  { refine (findByIdAndUpdate_map _id _id _ _ _ _ _ _ E).
    intros x. reflexivity. }
  split; [destruct model; reflexivity|].
  split; [destruct model; reflexivity|].
  split; [|split].
  - intros m Hm. apply collection_set_collection_other. congruence.
  - intros m j Hj.
    assert (Hne : j <> id) by congruence.
    destruct m, model; try reflexivity; cbn [collection set_collection] in *;
      apply Hother; exact Hne.
  - intros m.
    destruct m, model; try reflexivity; cbn [collection set_collection] in *;
      exact Hmap.
Qed.

(** X18: in every reachable state, after a successful decision on blood
    donor [id], the public blood donor listing contains a document with
    that id exactly when the decision was an approval, and then it is the
    updated document; a rejection withdraws a donor that was listed.
    Documents with another id are listed exactly as before. *)
Theorem decision_controls_listing (rs : list (Z * Request)) (now : Z)
  (id : oid) (status : string) (notes : option string)
  (d : Doc BloodDonor.t) (listed listed' : list (Doc BloodDonor.t)) :
  let db := run emptyDB rs in
  let db' :=
    fst (post_admin_verify db now "blood-donor" (ObjectId id) status notes) in
  In status ["approved"; "rejected"] ->
  findById _id id (bloodDonors db) = Some d ->
  get_blood_donors db = Json OK listed ->
  get_blood_donors db' = Json OK listed' ->
  (forall x, In x listed' /\ _id x = id <->
             status = "approved"
             /\ x = mkDoc (_id d) (fields d) true approved
                      (notes_or_empty notes) (submittedAt d) (Some now))
  /\ (forall x, _id x <> id -> (In x listed' <-> In x listed)).
Proof.
  cbv zeta. intros Hs Hd Hl Hl'.
  pose proof (well_formed_run rs emptyDB well_formed_empty) as Hwf.
  set (db := run emptyDB rs) in *.
  destruct Hwf as (Hc & _ & _). destruct (Hc BloodDonorM) as [Hnd _].
  destruct (verify_success db now "blood-donor" id status notes BloodDonorM
              eq_refl Hs) as (st & Est & Hst & Eapp & Hv).
  destruct (findByIdAndUpdate_unique _id id
              (updateData now st (Status_eqb st approved) notes)
              (collection BloodDonorM db) d Hnd Hd)
    as (l1 & l2 & E1 & H1 & H2 & E2).
  rewrite (Hv _ _ E2) in Hl'. cbn [fst collection] in *.
  unfold get_blood_donors in Hl, Hl'.
  cbn [bloodDonors set_collection] in Hl'. rewrite E1 in Hl.
  injection Hl as <-. injection Hl' as <-.
  destruct (findById_key _ _ _ _ Hd) as [_ Hid].
  split.
  - intros x. rewrite !filter_In. split.
    + intros [[Hin Hap] Hx].
      apply in_app_or in Hin. destruct Hin as [Hin|[<-|Hin]].
      * destruct (H1 x Hin Hx).
      * cbn [updateData verificationStatus] in Hap.
        apply Status_eqb_eq in Hap. subst st. split; [|reflexivity].
        cbn [Status_eqb] in Eapp. apply String.eqb_eq. exact Eapp.
      * destruct (H2 x Hin Hx).
    + intros [-> ->].
      change (status_of_string "approved") with (Some approved) in Est.
      injection Est as <-. split; [|exact Hid]. split; [|reflexivity].
      apply in_or_app. right. left. reflexivity.
  - intros x Hx. rewrite !filter_In. split; intros [Hin Hap];
      (split; [|exact Hap]); apply in_app_or in Hin; apply in_or_app;
      (destruct Hin as [Hin|[E|Hin]];
       [left; exact Hin | subst x; destruct (Hx Hid) | right; right; exact Hin]).
Qed.

(** ** First-time donors *)

(** X19: when [hasDonatedBefore] is falsy the last-donation rule is not
    applied at all: a blood or organ donor submission that passes the field
    rules is accepted whatever [lastDonationDate] holds (even an invalid or
    a recent date), and the stored document has [hasDonatedBefore] false
    and no last donation date.  The answer is 201, or 500 for an organ donor
    body whose [userId] cannot be cast. *)
Theorem first_time_donors_skip_the_date (db : DB) (now : Z)
  (bb : BloodDonorBody.t) (ob : OrganDonorBody.t) :
  (blood_fields_ok bb ->
   truthy (BloodDonorBody.hasDonatedBefore bb) = false ->
   exists d,
     snd (post_blood_donor db now bb)
     = Json Created
         (mkSubmitted "Blood donor registration submitted for verification"
                      (_id d) "pending_verification")
     /\ bloodDonors (fst (post_blood_donor db now bb))
        = (bloodDonors db ++ [d])%list
     /\ BloodDonor.hasDonatedBefore (fields d) = false
     /\ BloodDonor.lastDonationDate (fields d) = None)
  /\ (organ_fields_ok ob ->
      truthy (OrganDonorBody.hasDonatedBefore ob) = false ->
      exists d,
        snd (post_organ_donor db now ob)
        = (if castable (OrganDonorBody.userId ob)
           then Json Created
                  (mkSubmitted
                     "Organ donor registration submitted for verification"
                     (_id d) "pending_verification")
           else Thrown)
        /\ organDonors (fst (post_organ_donor db now ob))
           = (organDonors db ++ [d])%list
        /\ OrganDonor.hasDonatedBefore (fields d) = false
        /\ OrganDonor.lastDonationDate (fields d) = None).
Proof.
  split.
  - intros (Hp & Hph & Ha & Hw) Hd.
    unfold blood_required_present in Hp.
    repeat (apply andb_prop in Hp; destruct Hp as [Hp ?]).
    apply age_rule in Ha. apply weight_rule in Hw.
    unfold post_blood_donor, last_donation_check. cbv zeta.
    repeat match goal with
           | H : _ = true |- _ => rewrite H; clear H
           end.
    rewrite Ha, Hw, Hd. cbn [negb orb fst snd].
    eexists. split; [reflexivity|]. split; [reflexivity|].
    split; reflexivity.
  - intros (Hp & Hph & Hw) Hd.
    unfold organ_required_present in Hp.
    repeat (apply andb_prop in Hp; destruct Hp as [Hp ?]).
    apply weight_rule in Hw.
    unfold post_organ_donor, last_donation_check. cbv zeta.
    repeat match goal with
           | H : _ = true |- _ => rewrite H; clear H
           end.
    rewrite Hw, Hd. cbn [negb orb].
    eexists. split; [|split; [|split]].
    2: { destruct (OrganDonorBody.userId ob) as [[uid|]|]; try reflexivity.
         match goal with
         | |- context [findById User._id uid ?us] =>
             destruct (findById User._id uid us)
         end; [|reflexivity].
         exact (push_donation_collection OrganDonorM _ _ _). }
    + destruct (OrganDonorBody.userId ob) as [[uid|]|]; try reflexivity.
      match goal with
      | |- context [findById User._id uid ?us] =>
          destruct (findById User._id uid us); reflexivity
      end.
    + reflexivity.
    + reflexivity.
Qed.


(** ** Prior donations are remembered *)

Lemma Forall2_In_left {A B} (R : A -> B -> Prop) (l : list A) (l' : list B)
  (x : A) :
  Forall2 R l l' -> In x l -> exists y, In y l' /\ R x y.
Proof.
  intros H. induction H as [|a b l l' Hab _ IH]; intros Hin; [destruct Hin|].
  destruct Hin as [<-|Hin].
  - exists b. split; [left; reflexivity | exact Hab].
  - destruct (IH Hin) as (y & Hy & Hr). exists y. split; [right|]; assumption.
Qed.

Lemma run_keeps_fields (rs : list (Z * Request)) (db : DB) (m : Model)
  (d : Doc (schema m)) :
  In d (collection m db) ->
  exists d', In d' (collection m (run db rs)) /\ fields d' = fields d.
Proof.
  intros Hd.
  destruct (run_keeps_submissions rs db m) as (kept & added & E & H).
  destruct (Forall2_In_left _ _ _ d H Hd) as (d' & Hd' & _ & Hf & _).
  exists d'. split; [|symmetry; exact Hf].
  rewrite E. apply in_or_app. left. exact Hd'.
Qed.

(** X20: once [has-donated] answers true for a phone and a type, it answers
    true after every further run of requests: donor documents are never
    removed and their phone never changes, whatever the admin decides. *)
Theorem has_donated_persists (rs : list (Z * Request)) (db : DB)
  (phone type : option string) :
  get_has_donated db phone type = Json OK true ->
  get_has_donated (run db rs) phone type = Json OK true.
Proof.
  unfold get_has_donated.
  destruct (negb (truthy_str phone) || negb (phone_regex_opt phone));
    [discriminate|].
  destruct (negb match type with
                 | Some t => includes ["blood"; "organ"] t
                 | None => false
                 end); [discriminate|].
  cbv zeta.
  destruct (opt_str_eqb type (Some "blood")).
  - intros [= H]. f_equal. apply countDocuments_pos in H.
    destruct H as (d & Hd & Hp). apply countDocuments_pos.
    destruct (run_keeps_fields rs db BloodDonorM d Hd) as (d' & Hd' & Hf).
    exists d'. split; [exact Hd'|]. cbn [schema] in Hf. rewrite Hf. exact Hp.
  - destruct (opt_str_eqb type (Some "organ")); [|discriminate].
    intros [= H]. f_equal. apply countDocuments_pos in H.
    destruct H as (d & Hd & Hp). apply countDocuments_pos.
    destruct (run_keeps_fields rs db OrganDonorM d Hd) as (d' & Hd' & Hf).
    exists d'. split; [exact Hd'|]. cbn [schema] in Hf. rewrite Hf. exact Hp.
Qed.


(** ** The admin endpoints and their type names *)

(** X21: the list of accepted type names and the [switch] that selects the
    model cover the same six names, so the model is never undefined: an
    admin endpoint reaches its [catch] branch, and answers 500, exactly when
    the type (and, for [verify], the status) is accepted and the id cannot
    be cast, and [verify] then changes nothing.  Both endpoints answer
    [Invalid verification type] for exactly the names outside the six,
    whatever the id.  For a known type and an ObjectId the detail endpoint
    answers 404 when the collection has no document with the id, and
    otherwise the stored document. *)
Theorem admin_types_agree (db : DB) (now : Z) (type : string) (id : ClientId)
  (status : string) (notes : option string) :
  (get_admin_verification db type id = AdminThrown
   <-> In type verification_types /\ id = NotObjectId)
  /\ (snd (post_admin_verify db now type id status notes) = AdminThrown
      <-> In type verification_types
          /\ In status ["approved"; "rejected"] /\ id = NotObjectId)
  /\ (id = NotObjectId ->
      fst (post_admin_verify db now type id status notes) = db)
  /\ (get_admin_verification db type id
      = AdminError BadRequest "Invalid verification type"
      <-> ~ In type verification_types)
  /\ (snd (post_admin_verify db now type id status notes)
      = AdminError BadRequest "Invalid verification type"
      <-> ~ In type verification_types)
  /\ (forall m i,
        model_of_type type = Some m ->
        id = ObjectId i ->
        match findById _id i (collection m db) with
        | None =>
            get_admin_verification db type id
            = AdminError NotFound "Verification not found"
        | Some item => get_admin_verification db type id = AdminJson m item
        end).
Proof.
  unfold get_admin_verification, post_admin_verify.
  destruct (includes verification_types type) eqn:Et; cbn [negb].
  - pose proof (proj1 (includes_In _ _) Et) as Hin.
    destruct (proj1 (model_of_type_In type) Hin) as [m Hm]. rewrite Hm.
    split; [|split; [|split; [|split; [|split]]]].
    + destruct id as [i|].
      * destruct (findById _id i (collection m db));
          (split; [discriminate | intros [_ H]; discriminate H]).
      * split; [intros _; split; [exact Hin | reflexivity] | reflexivity].
    + destruct (includes ["approved"; "rejected"] status) eqn:Es; cbn [negb].
      * apply includes_In in Es.
        destruct (status_of_string_decision status Es) as (st & Est & _).
        rewrite Est. destruct id as [i|].
        -- destruct (findByIdAndUpdate _id i _ (collection m db))
             as [[docs u]|]; (split; [discriminate|]);
             intros (_ & _ & H); discriminate H.
        -- split; [intros _; repeat split; assumption | reflexivity].
      * split; [discriminate|]. intros (_ & Hs & _).
        apply includes_In in Hs. congruence.
    + intros ->.
      destruct (negb (includes ["approved"; "rejected"] status));
        [reflexivity|].
      destruct (status_of_string status); reflexivity.
    + split; [|intros H; destruct (H Hin)].
      destruct id as [i|]; [|discriminate].
      destruct (findById _id i (collection m db)); discriminate.
    + split; [|intros H; destruct (H Hin)].
      destruct (includes ["approved"; "rejected"] status) eqn:Es; cbn [negb];
        [|discriminate].
      apply includes_In in Es.
      destruct (status_of_string_decision status Es) as (st & Est & _).
      rewrite Est. destruct id as [i|]; [|discriminate].
      destruct (findByIdAndUpdate _id i _ (collection m db)) as [[docs u]|];
        discriminate.
    + intros m' i [= <-] ->.
      destruct (findById _id i (collection m db)); reflexivity.
  - assert (Hnot : ~ In type verification_types).
    { intros H. apply includes_In in H. congruence. }
    split; [split; [discriminate | intros [H _]; destruct (Hnot H)]|].
    split; [split; [discriminate | intros [H _]; destruct (Hnot H)]|].
    split; [reflexivity|].
    split; [split; [intros _; exact Hnot | reflexivity]|].
    split; [split; [intros _; exact Hnot | reflexivity]|].
    intros m i Hm. exfalso. apply Hnot, model_of_type_In. eauto.
Qed.

(** ** A user id that cannot be cast *)

(** X22: a [userId] that cannot be cast is found out only after the donor
    is saved.  With such a [userId], an organ donor submission that passes
    its rules, and every money donor submission, answers 500 and yet
    appends the donor document, pending and under the next id; no user
    document changes and no other collection does. *)
Theorem uncastable_userId_after_save (db : DB) (now : Z)
  (ob : OrganDonorBody.t) (mb : MoneyDonorBody.t) :
  (organ_donor_eligible now ob ->
   OrganDonorBody.userId ob = Some NotObjectId ->
   snd (post_organ_donor db now ob) = Thrown
   /\ users (fst (post_organ_donor db now ob)) = users db
   /\ (exists donor,
         organDonors (fst (post_organ_donor db now ob))
         = (organDonors db ++ [donor])%list
         /\ _id donor = nextId db
         /\ verificationStatus donor = pending
         /\ OrganDonor.phone (fields donor) = OrganDonorBody.phone ob)
   /\ (forall m, m <> OrganDonorM ->
                 collection m (fst (post_organ_donor db now ob))
                 = collection m db))
  /\ (MoneyDonorBody.userId mb = Some NotObjectId ->
      snd (post_money_donor db now mb) = Thrown
      /\ users (fst (post_money_donor db now mb)) = users db
      /\ (exists donor,
            moneyDonors (fst (post_money_donor db now mb))
            = (moneyDonors db ++ [donor])%list
            /\ _id donor = nextId db
            /\ verificationStatus donor = pending
            /\ MoneyDonor.amount (fields donor) = MoneyDonorBody.amount mb)
      /\ (forall m, m <> MoneyDonorM ->
                    collection m (fst (post_money_donor db now mb))
                    = collection m db)).
Proof.
  split.
  - intros ((Hp & Hph & Hw) & lastDate & Hc) Hu.
    unfold organ_required_present in Hp.
    repeat (apply andb_prop in Hp; destruct Hp as [Hp ?]).
    apply weight_rule in Hw.
    unfold post_organ_donor. cbv zeta.
    repeat match goal with
           | H : _ = true |- _ => rewrite H; clear H
           end.
    rewrite Hw, Hc, Hu. cbn [negb orb fst snd].
    split; [reflexivity|]. split; [reflexivity|]. split.
    + eexists. split; [reflexivity|]. repeat split.
    + intros m Hm. destruct m; try reflexivity. destruct (Hm eq_refl).
  - intros Hu. unfold post_money_donor. cbv zeta. rewrite Hu.
    cbn [fst snd].
    split; [reflexivity|]. split; [reflexivity|]. split.
    + eexists. split; [reflexivity|]. repeat split.
    + intros m Hm. destruct m; try reflexivity. destruct (Hm eq_refl).
Qed.


End Server.

(** ** Worked examples *)

Ltac q_le := unfold Qle; simpl; lia.

Example matching_example :
  get_blood_receiver_matching_donors example_db (Some "9876543210")
  = Json OK
      (Matched "Receiver verified. Showing available donors."
         (blood_receiver_summary example_blood_receiver)
         [example_blood_donor_doc 1 "O+" approved])
  /\ get_organ_receiver_matching_donors example_db (Some "9876543210")
     = Json Forbidden
         (NotApproved pending
            "Receiver has not been approved yet. Please wait for admin verification.")
  /\ get_organ_receiver_matching_donors example_db (Some "9000000009")
     = Error NotFound "Receiver registration not found. Please register first."
  /\ get_blood_receiver_matching_donors example_db (Some "98765")
     = Error BadRequest "Valid phone number is required".
Proof. repeat split. Qed.

Lemma matching_donors_contract_witness :
  phone_regex "9876543210" = true
  /\ matching_contract (bloodReceivers example_db) (bloodDonors example_db)
       BloodReceiver.phone BloodReceiver.bloodNeed BloodDonor.bloodGroup
       blood_receiver_summary "9876543210"
       (get_blood_receiver_matching_donors example_db (Some "9876543210"))
  /\ matching_contract (organReceivers example_db) (organDonors example_db)
       OrganReceiver.phone OrganReceiver.organNeed OrganDonor.organType
       organ_receiver_summary "9876543210"
       (get_organ_receiver_matching_donors example_db (Some "9876543210")).
Proof.
  split; [reflexivity|].
  apply (matching_donors_contract example_db "9876543210"). reflexivity.
Defined.

Lemma verify_contract_witness :
  model_of_type "blood-donor" = Some BloodDonorM
  /\ In "approved" ["approved"; "rejected"]
  /\ findById _id 3 (bloodDonors example_db)
     = Some (example_blood_donor_doc 3 "O+" pending)
  /\ exists updated,
      snd (post_admin_verify example_db example_now "blood-donor" (ObjectId 3)
             "approved" None)
      = AdminJson BloodDonorM
          (mkVerified "Verification approved successfully" updated)
      /\ verificationStatus updated = approved
      /\ isVerified updated = true
      /\ verifiedAt updated = Some example_now
      /\ adminNotes updated = ""
      /\ get_admin_verification
           (fst (post_admin_verify example_db example_now "blood-donor" (ObjectId 3)
                   "approved" None))
           "blood-donor" (ObjectId 3)
         = AdminJson BloodDonorM updated.
Proof.
  split; [reflexivity|]. split; [left; reflexivity|]. split; [reflexivity|].
  destruct (proj2 (verify_contract example_db example_now "blood-donor" 3
                     "approved" None)
              BloodDonorM eq_refl (or_introl eq_refl)) as [_ H].
  destruct (H (example_blood_donor_doc 3 "O+" pending) eq_refl)
    as (updated & E1 & E2 & E3 & E4 & E5 & _ & _ & _ & E9).
  exists updated. injection E2 as E2.
  repeat split; auto.
Defined.

(** C2 as stated fails: an id that cannot be cast is the id of no document
    of the collection, and yet the answer is not NotFound: the update throws
    and the handler answers 500. *)
Lemma verify_uncastable_id :
  ~ (forall db now type (id : ClientId) status notes model,
        model_of_type type = Some model ->
        In status ["approved"; "rejected"] ->
        (forall d, In d (collection model db) -> ObjectId (_id d) <> id) ->
        snd (post_admin_verify db now type id status notes)
        = AdminError NotFound "Record not found").
Proof.
  intros H.
  specialize (H example_db example_now "blood-donor" NotObjectId "approved"
                None BloodDonorM eq_refl (or_introl eq_refl)).
  assert (Habsent : forall d : Doc BloodDonor.t,
             In d (collection BloodDonorM example_db) ->
             ObjectId (_id d) <> NotObjectId)
    by (intros d _; discriminate).
  specialize (H Habsent). discriminate H.
Qed.

Example verify_uncastable_id_example :
  post_admin_verify example_db example_now "blood-donor" NotObjectId
    "approved" None
  = (example_db, AdminThrown)
  /\ get_admin_verification example_db "blood-donor" NotObjectId = AdminThrown
  /\ snd (post_admin_verify example_db example_now "blood-donor" NotObjectId
            "pending" None)
     = AdminError BadRequest "Invalid status"
  /\ get_admin_verification example_db "user" NotObjectId
     = AdminError BadRequest "Invalid verification type".
Proof. repeat split. Qed.

Example verify_bad_requests :
  snd (post_admin_verify example_db example_now "blood-donor" (ObjectId 3) "pending" None)
  = AdminError BadRequest "Invalid status"
  /\ snd (post_admin_verify example_db example_now "user" (ObjectId 0) "approved" None)
     = AdminError BadRequest "Invalid verification type"
  /\ snd (post_admin_verify example_db example_now "organ-donor" (ObjectId 1) "approved"
            None)
     = AdminError NotFound "Record not found".
Proof. repeat split. Qed.

Lemma isVerified_tracks_status_witness :
  consistent example_db
  /\ consistent (step example_Number example_Date_parse example_hash example_db
                  example_now
                  (Verify "organ-donor" (ObjectId 6) "rejected" (Some "withdrawn"))).
Proof.
  assert (H : consistent example_db).
  { intros m d Hd.
    destruct m; simpl in Hd;
      repeat (destruct Hd as [<-|Hd]; [reflexivity|]); destruct Hd. }
  split; [exact H|].
  apply (proj1 (proj2 (isVerified_tracks_status example_Number
                         example_Date_parse example_hash))).
  exact H.
Defined.

(** C4 as stated fails: a money receiver that is registered, approved and
    then rejected has had two status transitions. *)
Lemma status_transitions_twice :
  ~ (forall rs m id,
        (transitions
           (status_history m id
              (trace example_Number example_Date_parse example_hash emptyDB rs))
         <= 1)%nat).
Proof.
  intros H. specialize (H example_decisions MoneyReceiverM 0%nat).
  vm_compute in H. lia.
Qed.

Example status_history_example :
  status_history MoneyReceiverM 0
    (trace example_Number example_Date_parse example_hash emptyDB
       example_decisions)
  = [pending; approved; rejected].
Proof. reflexivity. Qed.

Lemma status_lifecycle_witness :
  statusOf BloodReceiverM 4 example_db = Some approved
  /\ statusOf BloodReceiverM 4
       (step example_Number example_Date_parse example_hash example_db
          example_now (Verify "blood-receiver" (ObjectId 4) "rejected" None))
     = Some rejected.
Proof.
  split; [reflexivity|].
  apply (proj2 (proj2 (proj2 (status_lifecycle example_Number
                                example_Date_parse example_hash)))
           example_db example_now "blood-receiver" 4%nat "rejected" None
           BloodReceiverM approved rejected).
  - reflexivity.
  - right. left. reflexivity.
  - reflexivity.
  - reflexivity.
Defined.

Lemma blood_donor_validation_witness :
  (exists msg,
      snd (post_blood_donor example_Number example_Date_parse example_db
             example_now (example_blood_donor 17))
      = Error BadRequest msg)
  /\ (exists msg,
         snd (post_blood_donor example_Number example_Date_parse example_db
                example_now (example_blood_donor 66))
         = Error BadRequest msg)
  /\ (exists id,
         snd (post_blood_donor example_Number example_Date_parse example_db
                example_now (example_blood_donor 18))
         = Json Created
             (mkSubmitted "Blood donor registration submitted for verification"
                          id "pending_verification"))
  /\ (exists id,
         snd (post_blood_donor example_Number example_Date_parse example_db
                example_now (example_blood_donor 65))
         = Json Created
             (mkSubmitted "Blood donor registration submitted for verification"
                          id "pending_verification")).
Proof.
  split; [|split; [|split]].
  - destruct (blood_donor_validation example_Number example_Date_parse
                example_db example_now (example_blood_donor 17))
      as (_ & _ & _ & _ & _ & _ & H & _).
    apply (H (inject_Z 17)); [reflexivity | left; reflexivity].
  - destruct (blood_donor_validation example_Number example_Date_parse
                example_db example_now (example_blood_donor 66))
      as (_ & _ & _ & _ & _ & _ & H & _).
    apply (H (inject_Z 66)); [reflexivity | right; reflexivity].
  - destruct (blood_donor_validation example_Number example_Date_parse
                example_db example_now (example_blood_donor 18))
      as (_ & _ & _ & _ & _ & _ & _ & H).
    apply (H (inject_Z 18));
      [reflexivity | left; reflexivity | reflexivity | reflexivity
      | right; exists (inject_Z 70); split; [reflexivity | q_le]
      | reflexivity].
  - destruct (blood_donor_validation example_Number example_Date_parse
                example_db example_now (example_blood_donor 65))
      as (_ & _ & _ & _ & _ & _ & _ & H).
    apply (H (inject_Z 65));
      [reflexivity | right; reflexivity | reflexivity | reflexivity
      | right; exists (inject_Z 70); split; [reflexivity | q_le]
      | reflexivity].
Defined.

Example blood_donor_rules_example :
  snd (post_blood_donor example_Number example_Date_parse example_db example_now
         (example_blood_donor 17))
  = Error BadRequest "Age must be between 18 and 65"
  /\ snd (post_blood_donor example_Number example_Date_parse example_db
            example_now
            (BloodDonorBody.mk (Some "Ravi") (Some "91234") (number 30)
               (number 70) (Some "O+") (JBool false) JUndefined None None
               None None))
     = Error BadRequest "Invalid phone number format"
  /\ snd (post_blood_donor example_Number example_Date_parse example_db
            example_now
            (BloodDonorBody.mk (Some "Ravi") (Some "9123456789") (JStr "30")
               (number 49) (Some "O+") (JBool false) JUndefined None None
               None None))
     = Error BadRequest "Weight must be at least 50 kg"
  /\ snd (post_blood_donor example_Number example_Date_parse example_db
            example_now
            (BloodDonorBody.mk (Some "Ravi") (Some "9123456789") (number 30)
               (number 70) None (JBool false) JUndefined None None
               None None))
     = Error BadRequest "Missing required fields".
Proof. repeat split. Qed.


Lemma example_organ_fields_ok (u : option ClientId) (elapsed : Z) :
  organ_fields_ok example_Number (example_organ_donor u elapsed).
Proof.
  split; [reflexivity|]. split; [reflexivity|].
  right. exists (inject_Z 62). split; [reflexivity | q_le].
Defined.


Example last_donation_examples :
  snd (post_blood_donor example_Number example_Date_parse example_db example_now
         (example_returning_blood_donor (90 * ms_per_day - 1)))
  = Error BadRequest "At least 90 days must have passed since the last donation"
  /\ snd (post_organ_donor example_Number example_Date_parse example_db
            example_now
            (OrganDonorBody.mk (Some "Meera") (Some "9000000001") (Some "kidney")
               (Some "healthy") (number 62) (JBool true) JUndefined
               None None None None))
     = Error BadRequest "Last donation date is required for previous donors"
  /\ snd (post_organ_donor example_Number example_Date_parse example_db
            example_now
            (OrganDonorBody.mk (Some "Meera") (Some "9000000001") (Some "kidney")
               (Some "healthy") (number 62) (JBool true) (JStr "yesterday")
               None None None None))
     = Error BadRequest "Invalid last donation date".
Proof. repeat split. Qed.

Lemma example_organ_donor_eligible (u : option ClientId) :
  organ_donor_eligible example_Number example_Date_parse example_now
    (example_organ_donor u (100 * ms_per_day)).
Proof.
  split; [apply example_organ_fields_ok|].
  exists (Some (example_now - 100 * ms_per_day)%Z). reflexivity.
Defined.

Lemma donation_log_best_effort_witness :
  (exists donor,
      organDonors
        (fst (post_organ_donor example_Number example_Date_parse example_db
                example_now (example_organ_donor (Some (ObjectId 0)) (100 * ms_per_day))))
      = (organDonors example_db ++ [donor])%list
      /\ snd (post_organ_donor example_Number example_Date_parse example_db
                example_now (example_organ_donor (Some (ObjectId 0)) (100 * ms_per_day)))
         = Json Created
             (mkSubmitted "Organ donor registration submitted for verification"
                          (_id donor) "pending_verification")
      /\ log_effect (Some (ObjectId 0)) (_id donor) (users example_db)
           (users
              (fst (post_organ_donor example_Number example_Date_parse
                      example_db example_now
                      (example_organ_donor (Some (ObjectId 0)) (100 * ms_per_day))))))
  /\ (exists donor : Doc OrganDonor.t,
         snd (post_organ_donor example_Number example_Date_parse example_db
                example_now (example_organ_donor (Some (ObjectId 77)) (100 * ms_per_day)))
         = Json Created
             (mkSubmitted "Organ donor registration submitted for verification"
                          (_id donor) "pending_verification")
         /\ users
              (fst (post_organ_donor example_Number example_Date_parse
                      example_db example_now
                      (example_organ_donor (Some (ObjectId 77)) (100 * ms_per_day))))
            = users example_db).
Proof.
  split.
  - exact (proj1 (donation_log_best_effort example_Number example_Date_parse
                    example_db example_now
                    (example_organ_donor (Some (ObjectId 0)) (100 * ms_per_day))
                    (example_money_donor None))
             (example_organ_donor_eligible _) eq_refl).
  - destruct (proj1 (donation_log_best_effort example_Number example_Date_parse
                       example_db example_now
                       (example_organ_donor (Some (ObjectId 77)) (100 * ms_per_day))
                       (example_money_donor None))
                (example_organ_donor_eligible _) eq_refl)
      as (donor & _ & E & _ & _ & H).
    exists donor. split; [exact E|].
    apply (H 77%nat); reflexivity.
Defined.

(** C7 as stated fails: a [userId] that cannot be cast resolves to no user,
    and yet the submission is not answered 201: the donor document is
    stored, the lookup throws and the handler answers 500. *)
Lemma unresolved_userId_surfaces :
  ~ (forall db now (ob : OrganDonorBody.t) (mb : MoneyDonorBody.t),
        (organ_donor_eligible example_Number example_Date_parse now ob ->
         (forall u, In u (users db) ->
                    OrganDonorBody.userId ob <> Some (ObjectId (User._id u))) ->
         exists donor,
           organDonors
             (fst (post_organ_donor example_Number example_Date_parse db now
                     ob))
           = (organDonors db ++ [donor])%list
           /\ snd (post_organ_donor example_Number example_Date_parse db now
                     ob)
              = Json Created
                  (mkSubmitted
                     "Organ donor registration submitted for verification"
                     (_id donor) "pending_verification"))
        /\ ((forall u, In u (users db) ->
                       MoneyDonorBody.userId mb <> Some (ObjectId (User._id u))) ->
            exists donor,
              moneyDonors (fst (post_money_donor db now mb))
              = (moneyDonors db ++ [donor])%list
              /\ snd (post_money_donor db now mb)
                 = Json Created
                     (mkSubmitted "Money donation submitted for verification"
                                  (_id donor) "pending_verification"))).
Proof.
  intros H.
  destruct (H example_db example_now
              (example_organ_donor (Some NotObjectId) (100 * ms_per_day))
              (example_money_donor (Some NotObjectId))) as [_ Hmoney].
  destruct Hmoney as (donor & _ & Hres).
  - intros u _. discriminate.
  - discriminate Hres.
Qed.

Example uncastable_userId_example :
  post_money_donor example_db example_now
    (example_money_donor (Some NotObjectId))
  = (save_new MoneyDonorM
       (new_doc MoneyDonorM example_db example_now
          (MoneyDonor.mk (Some "Kiran") (plain 500) (Some "upi") None
             example_now))
       example_db,
     Thrown)
  /\ snd (post_organ_donor example_Number example_Date_parse example_db
            example_now
            (example_organ_donor (Some NotObjectId) (100 * ms_per_day)))
     = Thrown
  /\ organDonors
       (fst (post_organ_donor example_Number example_Date_parse example_db
               example_now
               (example_organ_donor (Some NotObjectId) (100 * ms_per_day))))
     = (organDonors example_db
        ++ [new_doc OrganDonorM example_db example_now
              (OrganDonor.mk (Some "Meera") (Some "9000000001")
                 (Fin (inject_Z 62)) (Some "kidney") (Some "healthy") true
                 (Some (example_now - 100 * ms_per_day)%Z) (plain 12)
                 (plain 77) None)])%list.
Proof. repeat split. Qed.

Example donation_log_example :
  users (fst (post_organ_donor example_Number example_Date_parse example_db
                example_now (example_organ_donor (Some (ObjectId 0)) (100 * ms_per_day))))
  = [add_donation
       (Donation.organ 10 (Some "Meera") (Some "9000000001") (Some "kidney")
          (Some "healthy") example_now "pending_verification")
       example_user]
  /\ users (fst (post_money_donor example_db example_now
                   (example_money_donor (Some (ObjectId 0)))))
     = [add_donation
          (Donation.money 10 (Some "Kiran") (plain 500) (Some "upi")
             example_now "pending_verification")
          example_user]
  /\ post_money_donor example_db example_now (example_money_donor (Some (ObjectId 5)))
     = (save_new MoneyDonorM
          (new_doc MoneyDonorM example_db example_now
             (MoneyDonor.mk (Some "Kiran") (plain 500) (Some "upi") None
                example_now))
          example_db,
        Json Created
          (mkSubmitted "Money donation submitted for verification" 10
                       "pending_verification")).
Proof. repeat split. Qed.

Lemma login_contract_witness :
  post_login example_compare example_db "9000000009" "secret"
  = Error Unauthorized "Invalid phone number or password"
  /\ post_login example_compare example_db "9000000001" "guess"
     = Error Unauthorized "Invalid phone number or password"
  /\ exists r,
      post_login example_compare example_db "9000000001" "secret"
      = Json OK (mkLoggedIn "Login successful" r)
      /\ ur_name r = "Meera"
      /\ ur_phone r = "9000000001".
Proof.
  split; [|split].
  - apply (proj1 (login_contract example_compare example_db "9000000009"
                    "secret")).
    intros u [<-|[]]. discriminate.
  - apply (proj1 (proj2 (login_contract example_compare example_db
                           "9000000001" "guess")) example_user);
      reflexivity.
  - destruct (proj2 (proj2 (login_contract example_compare example_db
                              "9000000001" "secret"))
                example_user eq_refl eq_refl)
      as (r & E & _ & E2 & E3 & _).
    exists r. split; [exact E|]. split; [exact E2 | exact E3].
Defined.

Lemma blood_donor_leaves_users_witness :
  BloodDonorBody.userId (example_blood_donor 30) = Some (ObjectId 0)
  /\ users (fst (post_blood_donor example_Number example_Date_parse example_db
                   example_now (example_blood_donor 30)))
     = users example_db
  /\ exists donor,
      bloodDonors (fst (post_blood_donor example_Number example_Date_parse
                          example_db example_now (example_blood_donor 30)))
      = (bloodDonors example_db ++ [donor])%list
      /\ _id donor = 10%nat.
Proof.
  split; [reflexivity|].
  destruct (blood_donor_leaves_users example_Number example_Date_parse
              example_db example_now (example_blood_donor 30))
    as (Hu & _ & _ & _ & _ & _ & Hc & _).
  split; [exact Hu|].
  exact (Hc (mkSubmitted "Blood donor registration submitted for verification"
                         10 "pending_verification") eq_refl).
Defined.

Example listing_example :
  get_blood_donors example_db
  = Json OK [example_blood_donor_doc 1 "O+" approved;
             example_blood_donor_doc 2 "A+" approved]
  /\ get_organ_donors example_db
     = Json OK [example_organ_donor_doc 6 "kidney" approved;
                example_organ_donor_doc 7 "liver" approved;
                example_organ_donor_doc 8 "kidney" rejected].
Proof. repeat split. Qed.

(** ** Worked examples of the further properties *)

Lemma has_donated_contract_witness :
  phone_regex_opt (Some "9123456789") = true
  /\ (exists answer,
         get_has_donated example_db (Some "9123456789") (Some "blood")
         = Json OK answer
         /\ (answer = true <->
             exists d, In d (bloodDonors example_db)
                       /\ BloodDonor.phone (fields d) = Some "9123456789"))
  /\ get_has_donated example_db (Some "9123456789") (Some "money")
     = Error BadRequest "type must be one of: blood, organ".
Proof.
  split; [reflexivity|]. split.
  - exact (proj1 (proj2 (proj2 (has_donated_contract example_db
                                  (Some "9123456789") (Some "blood"))))
             eq_refl eq_refl).
  - apply (proj1 (proj2 (has_donated_contract example_db (Some "9123456789")
                           (Some "money"))));
      [reflexivity | discriminate | discriminate].
Defined.

Example has_donated_examples :
  get_has_donated example_db (Some "9123456789") (Some "blood") = Json OK true
  /\ get_has_donated example_db (Some "9123456789") (Some "organ")
     = Json OK false
  /\ get_has_donated example_db (Some "9000000001") (Some "organ")
     = Json OK true
  /\ get_has_donated example_db (Some "9123456789") None
     = Error BadRequest "type must be one of: blood, organ"
  /\ get_has_donated example_db (Some "912345678") (Some "blood")
     = Error BadRequest "Valid phone is required"
  /\ get_has_donated example_db (Some "91234567890") (Some "blood")
     = Error BadRequest "Valid phone is required"
  /\ get_has_donated example_db (Some "91234x6789") (Some "blood")
     = Error BadRequest "Valid phone is required".
Proof. repeat split. Qed.

Lemma donor_submission_visibility_witness :
  snd (post_blood_donor example_Number example_Date_parse example_db
         example_now (example_blood_donor 30))
  = Json Created
      (mkSubmitted "Blood donor registration submitted for verification" 10
                   "pending_verification")
  /\ get_has_donated
       (fst (post_blood_donor example_Number example_Date_parse example_db
               example_now (example_blood_donor 30)))
       (Some "9123456789") (Some "blood")
     = Json OK true
  /\ get_blood_donors
       (fst (post_blood_donor example_Number example_Date_parse example_db
               example_now (example_blood_donor 30)))
     = get_blood_donors example_db.
Proof.
  split; [reflexivity|].
  destruct (proj1 (donor_submission_visibility example_Number
                     example_Date_parse example_db example_now
                     (example_blood_donor 30) (example_organ_donor None 0))
              _ eq_refl) as (H1 & H2 & _).
  split; [exact H1 | exact H2].
Defined.

Lemma invalid_phone_rejected_witness :
  phone_regex_opt (Some "98765") = false
  /\ get_has_donated example_db (Some "98765") (Some "blood")
     = Error BadRequest "Valid phone is required"
  /\ get_blood_receiver_matching_donors example_db (Some "98765")
     = Error BadRequest "Valid phone number is required"
  /\ get_organ_receiver_matching_donors example_db (Some "98765")
     = Error BadRequest "Valid phone number is required".
Proof.
  split; [reflexivity|].
  destruct (invalid_phone_rejected example_Number example_Date_parse
              example_db example_now (Some "98765") (Some "blood")
              (example_blood_donor 30) (example_organ_donor None 0) eq_refl)
    as (H1 & H2 & H3 & _).
  split; [exact H1|]. split; [exact H2 | exact H3].
Defined.

Lemma organ_donor_validation_witness :
  snd (post_organ_donor example_Number example_Date_parse example_db
         example_now
         (OrganDonorBody.mk (Some "Meera") (Some "9000000001") (Some "kidney")
            (Some "healthy") (number 49) (JBool false) JUndefined None None
            None None))
  = Error BadRequest "Weight must be at least 50 kg".
Proof.
  apply (proj1 (proj2 (proj2 (proj2
           (organ_donor_validation example_Number example_Date_parse
              example_db example_now
              (OrganDonorBody.mk (Some "Meera") (Some "9000000001")
                 (Some "kidney") (Some "healthy") (number 49) (JBool false)
                 JUndefined None None None None)))))).
  - reflexivity.
  - reflexivity.
  - intros [H|(q & H & Hq)]; [discriminate H|].
    injection H as <-. revert Hq. unfold Qle. simpl. lia.
Defined.

Lemma register_contract_witness :
  snd (post_register example_hash example_db example_now "Asha" "9876500000"
         "pw" "asha.png")
  = Json Created
      (mkLoggedIn "User registered successfully"
         (mkUserResponse 10 "Asha" "9876500000" "asha.png" example_now []))
  /\ post_login example_compare
       (fst (post_register example_hash example_db example_now "Asha"
               "9876500000" "pw" "asha.png"))
       "9876500000" "pw"
     = Json OK
         (mkLoggedIn "Login successful"
            (mkUserResponse 10 "Asha" "9876500000" "asha.png" example_now []))
  /\ snd (post_register example_hash example_db example_now "Asha"
            "9000000001" "pw" "asha.png")
     = Error BadRequest "User with this phone number already exists".
Proof.
  destruct (proj2 (proj2 (register_contract example_hash example_compare
                            example_db example_now "Asha" "9876500000" "pw"
                            "asha.png")))
    as (H1 & _ & _ & H4 & _).
  - intros u [<-|[]]. discriminate.
  - discriminate.
  - discriminate.
  - discriminate.
  - discriminate.
  - split; [exact H1|]. split; [exact H4|].
    apply (proj1 (register_contract example_hash example_compare example_db
                    example_now "Asha" "9000000001" "pw" "asha.png")).
    exists example_user. split; [left; reflexivity | reflexivity].
Defined.

Lemma update_user_contract_witness :
  (exists u',
      snd (put_user example_db (ObjectId 0)
             (UserUpdate.mk (Some "Meera K") (Some "") None))
      = Json OK (mkLoggedIn "Profile updated successfully" (userResponse u'))
      /\ User.name u' = "Meera K"
      /\ User.phone u' = "9000000001"
      /\ User.password u' = User.password example_user)
  /\ snd (put_user example_db (ObjectId 7) (UserUpdate.mk None None None))
     = Error NotFound "User not found"
  /\ snd (put_user example_db (ObjectId 7)
            (UserUpdate.mk None (Some "9000000001") None))
     = Error BadRequest "Phone number already in use"
  /\ put_user example_db NotObjectId
       (UserUpdate.mk None (Some "9000000001") None)
     = (example_db, Thrown).
Proof.
  split; [|split; [|split]].
  - destruct (proj2 (proj2 (proj2 (update_user_contract example_db (ObjectId 0)
                                     (UserUpdate.mk (Some "Meera K") (Some "")
                                        None))
                              0%nat eq_refl)))
      with (u := example_user)
      as (u' & E & _ & _ & En & Ep & _ & Epw & _).
    + intros (p & u & [= <-] & Hp & _). apply Hp. reflexivity.
    + reflexivity.
    + exists u'. repeat split; assumption.
  - apply (proj1 (proj2 (proj2 (update_user_contract example_db (ObjectId 7)
                                  (UserUpdate.mk None None None))
                           7%nat eq_refl))).
    + intros (p & u & H & _). discriminate H.
    + reflexivity.
  - apply (proj1 (proj2 (update_user_contract example_db (ObjectId 7)
                           (UserUpdate.mk None (Some "9000000001") None))
                    7%nat eq_refl)).
    exists "9000000001", example_user.
    repeat split; try discriminate. left. reflexivity.
  - destruct (proj1 (update_user_contract example_db NotObjectId
                       (UserUpdate.mk None (Some "9000000001") None))
                eq_refl) as [E1 E2].
    apply injective_projections; [exact E2 | exact E1].
Defined.

Lemma phones_identify_users_witness :
  In example_registered_user
    (users (run example_Number example_Date_parse example_hash emptyDB
              example_history))
  /\ post_login example_compare
       (run example_Number example_Date_parse example_hash emptyDB
          example_history)
       "9000000001" "secret"
     = Json OK (mkLoggedIn "Login successful"
                           (userResponse example_registered_user)).
Proof.
  split; [left; reflexivity|].
  exact (proj2 (phones_identify_users example_Number example_Date_parse
                  example_hash example_compare example_history)
           example_registered_user "secret" (or_introl eq_refl)).
Defined.

Lemma submission_reaches_review_witness :
  exists d,
    snd (post_blood_receiver
           (run example_Number example_Date_parse example_hash emptyDB
              example_donor_history)
           6000 example_blood_receiver)
    = Json Created
        (mkSubmitted
           "Blood receiver registration submitted for verification. Donor details will be available once an admin approves your request."
           (_id d) "pending_verification")
    /\ listed_for_review BloodReceiverM
         (fst (post_blood_receiver
                 (run example_Number example_Date_parse example_hash emptyDB
                    example_donor_history)
                 6000 example_blood_receiver))
         (_id d) d
    /\ fields d = example_blood_receiver.
Proof.
  exact (proj1 (proj2 (proj2
           (submission_reaches_review example_Number example_Date_parse
              example_hash example_donor_history 6000
              (example_blood_donor 30) example_blood_receiver
              (example_organ_donor None 0) example_organ_receiver
              (example_money_donor None) example_money_receiver)))).
Defined.

Lemma decision_leaves_pending_witness :
  exists pv pv',
    get_admin_pending_verifications
      (run example_Number example_Date_parse example_hash emptyDB
         example_history)
    = Json OK pv
    /\ get_admin_pending_verifications
         (fst (post_admin_verify
                 (run example_Number example_Date_parse example_hash emptyDB
                    example_history)
                 7000 "blood-donor" (ObjectId 2) "rejected" None))
       = Json OK pv'
    /\ pending_of BloodDonorM pv'
       = List.filter (fun x => negb (_id x =? 2)%nat)
           (pending_of BloodDonorM pv)
    /\ pending_of BloodReceiverM pv' = pending_of BloodReceiverM pv.
Proof.
  eexists. eexists. split; [reflexivity|]. split; [reflexivity|].
  destruct (decision_leaves_pending example_Number example_Date_parse
              example_hash example_history 7000 "blood-donor" 2 "rejected"
              None BloodDonorM _ _ _ eq_refl
              (or_intror (or_introl eq_refl)) eq_refl eq_refl eq_refl)
    as (H1 & _ & H3).
  split; [exact H1|]. apply H3. discriminate.
Defined.

Lemma later_decision_overwrites_witness :
  In "rejected" ["approved"; "rejected"]
  /\ post_admin_verify
       (fst (post_admin_verify example_db 7000 "blood-donor" (ObjectId 3)
               "approved" (Some "looks fine")))
       8000 "blood-donor" (ObjectId 3) "rejected" None
     = post_admin_verify example_db 8000 "blood-donor" (ObjectId 3) "rejected"
         None.
Proof.
  split; [right; left; reflexivity|].
  apply later_decision_overwrites. right. left. reflexivity.
Defined.

Lemma approval_gate_end_to_end_witness :
  phone_regex "9876543210" = true
  /\ approval_gate get_blood_receiver_matching_donors
       (bloodDonors
          (run example_Number example_Date_parse example_hash emptyDB
             example_donor_history))
       BloodDonor.bloodGroup BloodReceiver.bloodNeed blood_receiver_summary
       (run example_Number example_Date_parse example_hash emptyDB
          example_donor_history)
       (fst (post_blood_receiver
               (run example_Number example_Date_parse example_hash emptyDB
                  example_donor_history)
               6000 example_blood_receiver))
       (fun status =>
          fst (post_admin_verify
                 (fst (post_blood_receiver
                         (run example_Number example_Date_parse example_hash
                            emptyDB example_donor_history)
                         6000 example_blood_receiver))
                 7000 "blood-receiver"
                 (ObjectId
                    (nextId
                       (run example_Number example_Date_parse example_hash
                          emptyDB example_donor_history)))
                 status None))
       "9876543210" example_blood_receiver.
Proof.
  split; [reflexivity|].
  apply (proj1 (approval_gate_end_to_end example_Number example_Date_parse
                  example_hash example_donor_history 6000 7000
                  example_blood_receiver example_organ_receiver "9876543210"
                  None eq_refl)).
  - reflexivity.
  - intros r [].
Defined.

Example approval_gate_example :
  get_blood_receiver_matching_donors
    (fst (post_admin_verify
            (run example_Number example_Date_parse example_hash emptyDB
               example_history)
            7000 "blood-receiver" (ObjectId 4) "approved" None))
    (Some "9876543210")
  = Json OK
      (Matched "Receiver verified. Showing available donors."
         (blood_receiver_summary example_blood_receiver)
         [example_approved_donor]).
Proof. reflexivity. Qed.

Lemma verification_fields_fit_witness :
  In example_approved_donor
    (collection BloodDonorM
       (run example_Number example_Date_parse example_hash emptyDB
          example_history))
  /\ envelope_ok example_approved_donor.
Proof.
  split; [left; reflexivity|].
  apply (verification_fields_fit example_Number example_Date_parse
           example_hash example_history BloodDonorM example_approved_donor).
  left. reflexivity.
Defined.

Lemma accounts_are_permanent_witness :
  findById User._id 0 (users example_db) = Some example_user
  /\ exists u',
      findById User._id 0
        (users (run example_Number example_Date_parse example_hash example_db
                  [(7000%Z, SubmitMoneyDonor (example_money_donor (Some (ObjectId 0))));
                   (8000%Z, UpdateUser (ObjectId 0)
                              (UserUpdate.mk (Some "M") None None))]))
      = Some u'
      /\ same_account example_user u'.
Proof.
  split; [reflexivity|].
  apply (accounts_are_permanent example_Number example_Date_parse example_hash).
  reflexivity.
Defined.

Lemma phone_change_moves_login_witness :
  findById User._id 0
    (users (run example_Number example_Date_parse example_hash emptyDB
              example_history))
  = Some example_registered_user
  /\ exists u',
      User.phone u' = "9000000002"
      /\ post_login example_compare
           (fst (put_user
                   (run example_Number example_Date_parse example_hash emptyDB
                      example_history)
                   (ObjectId 0)
                   (UserUpdate.mk None (Some "9000000002") None)))
           "9000000002" "secret"
         = Json OK (mkLoggedIn "Login successful" (userResponse u'))
      /\ post_login example_compare
           (fst (put_user
                   (run example_Number example_Date_parse example_hash emptyDB
                      example_history)
                   (ObjectId 0)
                   (UserUpdate.mk None (Some "9000000002") None)))
           "9000000001" "secret"
         = Error Unauthorized "Invalid phone number or password".
Proof.
  split; [reflexivity|].
  destruct (phone_change_moves_login example_Number example_Date_parse
              example_hash example_compare example_history 0
              (UserUpdate.mk None (Some "9000000002") None) "9000000002"
              "secret" example_registered_user eq_refl eq_refl)
    as (u' & _ & E1 & _ & E2 & E3).
  - discriminate.
  - intros v [<-|[]]. discriminate.
  - exists u'. split; [exact E1|]. split; [exact E2 | exact E3].
Defined.

Lemma decision_controls_listing_witness :
  findById _id 1
    (bloodDonors (run example_Number example_Date_parse example_hash emptyDB
                    example_history))
  = Some example_approved_donor
  /\ get_blood_donors
       (run example_Number example_Date_parse example_hash emptyDB
          example_history)
     = Json OK [example_approved_donor]
  /\ get_blood_donors
       (fst (post_admin_verify
               (run example_Number example_Date_parse example_hash emptyDB
                  example_history)
               7000 "blood-donor" (ObjectId 1) "rejected" None))
     = Json OK []
  /\ (forall x : Doc BloodDonor.t,
         In x [] /\ _id x = 1%nat <->
         "rejected" = "approved"
         /\ x = mkDoc (_id example_approved_donor)
                  (fields example_approved_donor) true approved
                  (notes_or_empty None) (submittedAt example_approved_donor)
                  (Some 7000%Z)).
Proof.
  split; [reflexivity|]. split; [reflexivity|]. split; [reflexivity|].
  exact (proj1 (decision_controls_listing example_Number example_Date_parse
                  example_hash example_history 7000 1 "rejected" None
                  example_approved_donor [example_approved_donor] []
                  (or_intror (or_introl eq_refl)) eq_refl eq_refl eq_refl)).
Defined.

Lemma example_first_time_fields_ok :
  blood_fields_ok example_Number (example_blood_donor 30).
Proof.
  split; [reflexivity|]. split; [reflexivity|]. split.
  - exists (inject_Z 30). split; [reflexivity|]. split; q_le.
  - right. exists (inject_Z 70). split; [reflexivity | q_le].
Defined.

Lemma first_time_donors_skip_the_date_witness :
  exists d,
    snd (post_blood_donor example_Number example_Date_parse example_db
           example_now (example_blood_donor 30))
    = Json Created
        (mkSubmitted "Blood donor registration submitted for verification"
                     (_id d) "pending_verification")
    /\ bloodDonors
         (fst (post_blood_donor example_Number example_Date_parse example_db
                 example_now (example_blood_donor 30)))
       = (bloodDonors example_db ++ [d])%list
    /\ BloodDonor.hasDonatedBefore (fields d) = false
    /\ BloodDonor.lastDonationDate (fields d) = None.
Proof.
  exact (proj1 (first_time_donors_skip_the_date example_Number
                  example_Date_parse example_db example_now
                  (example_blood_donor 30) (example_organ_donor None 0))
           example_first_time_fields_ok eq_refl).
Defined.

Lemma has_donated_persists_witness :
  get_has_donated example_db (Some "9123456789") (Some "blood") = Json OK true
  /\ get_has_donated
       (run example_Number example_Date_parse example_hash example_db
          [(7000%Z, Verify "blood-donor" (ObjectId 1) "rejected" None);
           (8000%Z, Verify "blood-donor" (ObjectId 2) "rejected" None);
           (9000%Z, Verify "blood-donor" (ObjectId 3) "rejected" None)])
       (Some "9123456789") (Some "blood")
     = Json OK true.
Proof.
  split; [reflexivity|].
  apply (has_donated_persists example_Number example_Date_parse example_hash).
  reflexivity.
Defined.

Lemma uncastable_userId_after_save_witness :
  MoneyDonorBody.userId (example_money_donor (Some NotObjectId))
  = Some NotObjectId
  /\ snd (post_money_donor example_db example_now
            (example_money_donor (Some NotObjectId)))
     = Thrown
  /\ users (fst (post_money_donor example_db example_now
                   (example_money_donor (Some NotObjectId))))
     = users example_db
  /\ exists donor,
      moneyDonors (fst (post_money_donor example_db example_now
                          (example_money_donor (Some NotObjectId))))
      = (moneyDonors example_db ++ [donor])%list
      /\ _id donor = nextId example_db
      /\ verificationStatus donor = pending.
Proof.
  split; [reflexivity|].
  destruct (proj2 (uncastable_userId_after_save example_Number
                     example_Date_parse example_db example_now
                     (example_organ_donor None 0)
                     (example_money_donor (Some NotObjectId)))
              eq_refl) as (H1 & H2 & (donor & H3 & H4 & H5 & _) & _).
  split; [exact H1|]. split; [exact H2|].
  exists donor. split; [exact H3|]. split; [exact H4 | exact H5].
Defined.
